(** * AMHUB operator console: telemetry normaliser, poller, marker reconciler

    A shallow embedding of the three stateful pieces of the console:

    - [apiService.getProjectTopology] (src/App.tsx, second document): turns
      one upstream topology listing into a list of [Device] records;
    - [App.fetchDevices] (src/App.tsx): one poll cycle, which classifies the
      outcome into the link-health tri-state and publishes the snapshot;
    - the device-marker effect of [MapPicker] (src/components/MapPicker.tsx):
      reconciles the Leaflet marker table against a snapshot.

    JavaScript numbers are IEEE binary64 values, so they are modelled by the
    kernel's primitive floats; [===] on numbers is [PrimFloat.eqb]. *)

From Stdlib Require Import ZArith String Ascii Bool Lia DecimalString.
From Stdlib Require Import PrimFloat SpecFloat FloatOps.
From Stdlib Require FloatAxioms.
From stdpp Require Import gmap strings list.

Set Warnings "-inexact-float,-register-all,-clear-no-such-hyp".


(* ===================================================================== *)
(** * The JavaScript values the code manipulates                          *)
(* ===================================================================== *)

Module JS.

Abbreviation number := float.

Definition NaN : number := nan.

(** [x === y] on two numbers: IEEE equality, so [NaN] differs from itself
    and [-0 === 0]. *)
Definition number_eq (x y : number) : bool := PrimFloat.eqb x y.

(** [x !== 0], the test the source applies to coordinates. *)
Definition nonzero (x : number) : bool := negb (number_eq x 0%float).

Definition isNaN (x : number) : bool := negb (PrimFloat.eqb x x).

(** The mathematical integer [z] as a number (round to nearest, ties to
    even). *)
Definition number_of_Z (z : Z) : number :=
  SF2Prim (binary_normalize 53 1024 z 0 false).

Definition number_of_N (n : N) : number := number_of_Z (Z.of_N n).

(** What [JSON.parse] can produce, plus [undefined] for absent members.
    An object is the list of its own properties; a string is a sequence of
    code units, one [ascii] per unit. *)
Inductive value : Type :=
| JUndefined
| JNull
| JBool (b : bool)
| JNumber (n : number)
| JString (s : string)
| JArray (items : list value)
| JObject (props : list (string * value)).

(** Exceptions. The text of a [TypeError] raised by the engine itself is
    engine specific; the model records the member being accessed. *)
Inductive exn : Type :=
| TypeError (site : string)
| Error (msg : string).

(** A statement or expression either completes normally or throws. *)
Inductive completion (A : Type) : Type :=
| normal (a : A)
| throw (e : exn).
Arguments normal {A} a.
Arguments throw {A} e.

Definition bind {A B} (c : completion A) (k : A -> completion B) : completion B :=
  match c with
  | normal a => k a
  | throw e => throw e
  end.

(** What the runtime supplies and the repository does not define: the
    conversions between strings and numbers ([Number(s)], [String(n)]) and
    the wording of engine-raised type errors. *)
Class Engine : Type := {
  StringToNumber : string -> number;
  NumberToString : number -> string;
  TypeErrorText : string -> string
}.

Definition truthy (v : value) : bool :=
  match v with
  | JUndefined | JNull => false
  | JBool b => b
  | JNumber n => negb (number_eq n 0%float) && negb (isNaN n)
  | JString s => negb (String.eqb s "")
  | JArray _ | JObject _ => true
  end.

Definition nullish (v : value) : bool :=
  match v with
  | JUndefined | JNull => true
  | _ => false
  end.

Definition is_undefined (v : value) : bool :=
  match v with
  | JUndefined => true
  | _ => false
  end.

(** [a || b], [a ?? b] with both operands already evaluated (every use in
    the source has a right operand that cannot throw). *)
Definition or (a b : value) : value := if truthy a then a else b.
Definition coalesce (a b : value) : value := if nullish a then b else a.

(** [v === 0], [v === 1], [v === true]: strict equality against a
    primitive never converts. *)
Definition strict_eq_number (v : value) (n : number) : bool :=
  match v with
  | JNumber m => number_eq m n
  | _ => false
  end.

Definition strict_eq_true (v : value) : bool :=
  match v with
  | JBool true => true
  | _ => false
  end.

Fixpoint own_property (k : string) (props : list (string * value)) : value :=
  match props with
  | [] => JUndefined
  | (k', v) :: rest => if String.eqb k k' then v else own_property k rest
  end.

Definition has_own_property (k : string) (props : list (string * value)) : bool :=
  existsb (fun kv => String.eqb k (fst kv)) props.

(** [v.k] for the member names the source reads. None of them is defined
    on [Object.prototype] or on the prototypes of strings, numbers,
    booleans or arrays, so only an object's own property can answer;
    reading a member of [null] or [undefined] throws. *)
Definition get (v : value) (k : string) : completion value :=
  match v with
  | JUndefined | JNull => throw (TypeError k)
  | JObject props => normal (own_property k props)
  | _ => normal JUndefined
  end.

(** [v?.k] *)
Definition get_opt (v : value) (k : string) : completion value :=
  if nullish v then normal JUndefined else get v k.

Definition isArray (v : value) : bool :=
  match v with
  | JArray _ => true
  | _ => false
  end.

Section Conversions.
Context {E : Engine}.

(** [String(v)]. An array joins the strings of its elements, with
    [null] and [undefined] elements printed as nothing. A parsed object
    inherits [Object.prototype.toString] unless it has a member of that
    name of its own, which is never callable, and then the conversion
    throws. *)
Fixpoint ToString (v : value) : completion string :=
  match v with
  | JUndefined => normal "undefined"
  | JNull => normal "null"
  | JBool true => normal "true"
  | JBool false => normal "false"
  | JNumber n => normal (NumberToString n)
  | JString s => normal s
  | JArray items =>
      (fix join (l : list value) : completion string :=
         match l with
         | [] => normal ""
         | x :: rest =>
             bind (if nullish x then normal "" else ToString x) (fun s =>
             match rest with
             | [] => normal s
             | _ => bind (join rest) (fun r => normal (s +:+ "," +:+ r))
             end)
         end) items
  | JObject props =>
      if has_own_property "toString" props
      then throw (TypeError "toString")
      else normal "[object Object]"
  end.

(** [Number(v)] *)
Definition ToNumber (v : value) : completion number :=
  match v with
  | JUndefined => normal NaN
  | JNull => normal 0%float
  | JBool true => normal 1%float
  | JBool false => normal 0%float
  | JNumber n => normal n
  | JString s => normal (StringToNumber s)
  | JArray _ | JObject _ => bind (ToString v) (fun s => normal (StringToNumber s))
  end.

(** [String(error)] in a [catch] clause. *)
Definition exn_to_string (e : exn) : string :=
  match e with
  | TypeError site => "TypeError: " +:+ TypeErrorText site
  | Error msg => "Error: " +:+ msg
  end.
End Conversions.

(** ** Strings *)

(** [s.split(sep)[0]]: the part of [s] before the first [sep]. *)
Fixpoint split_first (sep : ascii) (s : string) : string :=
  match s with
  | EmptyString => EmptyString
  | String c rest => if Ascii.eqb c sep then EmptyString else String c (split_first sep rest)
  end.

(** [v.split('-')[0]] on an arbitrary (truthy) value: only a string has a
    [split] method. *)
Definition call_split_first (v : value) : completion string :=
  match v with
  | JString s => normal (split_first "-"%char s)
  | _ => throw (TypeError "split")
  end.

Fixpoint starts_with (p s : string) : bool :=
  match p, s with
  | EmptyString, _ => true
  | String a p', String b s' => Ascii.eqb a b && starts_with p' s'
  | String _ _, EmptyString => false
  end.

(** [s.includes(p)] *)
Fixpoint includes (p s : string) : bool :=
  starts_with p s ||
  match s with
  | EmptyString => false
  | String _ s' => includes p s'
  end.

(** [s.substring(0, n)] *)
Definition substring_to (n : nat) (s : string) : string := String.substring 0 n s.

(** White space and line terminators in the Latin-1 range. *)
Definition is_white_space (c : ascii) : bool :=
  let n := N_of_ascii c in
  (N.eqb n 9 || N.eqb n 10 || N.eqb n 11 || N.eqb n 12 || N.eqb n 13
   || N.eqb n 32 || N.eqb n 160)%bool.

Fixpoint trim_start (s : string) : string :=
  match s with
  | String c rest => if is_white_space c then trim_start rest else s
  | EmptyString => EmptyString
  end.

Definition digit_value (radix : Z) (c : ascii) : option Z :=
  let n := Z.of_N (N_of_ascii c) in
  let d :=
    (if (48 <=? n) && (n <=? 57) then n - 48
     else if (97 <=? n) && (n <=? 122) then n - 87
     else if (65 <=? n) && (n <=? 90) then n - 55
     else 36)%Z in
  if (d <? radix)%Z then Some d else None.

(** The longest prefix of radix-[radix] digits, as an integer; [None]
    when there is no digit at all. *)
Fixpoint parse_digits (radix : Z) (acc : option Z) (s : string) : option Z :=
  match s with
  | EmptyString => acc
  | String c rest =>
      match digit_value radix c with
      | Some d => parse_digits radix (Some (radix * default 0 acc + d))%Z rest
      | None => acc
      end
  end.

(** [parseInt(s)] with no radix argument. *)
Definition parseInt (s : string) : number :=
  let s := trim_start s in
  let '(negative, s) :=
    match s with
    | String "-"%char rest => (true, rest)
    | String "+"%char rest => (false, rest)
    | _ => (false, s)
    end in
  let '(radix, s) :=
    match s with
    | String "0"%char (String "x"%char rest) => (16, rest)
    | String "0"%char (String "X"%char rest) => (16, rest)
    | _ => (10, s)
    end%Z in
  match parse_digits radix None s with
  | None => NaN
  | Some z => if negative then PrimFloat.opp (number_of_Z z) else number_of_Z z
  end.

(** A non-negative integer printed in decimal, as a template literal
    prints an HTTP status. *)
Definition string_of_N (n : N) : string := NilZero.string_of_uint (N.to_uint n).

End JS.

(** Sequencing of completions, written with stdpp's [x ← c; k]. *)
#[global] Instance completion_bind : MBind JS.completion := fun A B k c => JS.bind c k.
#[global] Instance completion_ret : MRet JS.completion := fun A a => JS.normal a.

(* ===================================================================== *)
(** * The device model (the object literals of [getProjectTopology])      *)
(* ===================================================================== *)

(** Every telemetry member goes through [Number(...)] except the battery
    percentage, which is stored as it is read from the listing. *)
Record DeviceTelemetry : Type := {
  latitude : JS.number;
  longitude : JS.number;
  height : JS.number;
  speed : JS.number;
  battery_percent : JS.value;
  link_signal_quality : JS.number;
  flight_time : JS.number;
  yaw : JS.number;
  pitch : JS.number;
  roll : JS.number
}.

(** [telemetry] is [undefined] when the device has no signal. *)
Record Device : Type := {
  device_sn : string;
  nickname : string;
  device_model : string;
  status : bool;
  domain : JS.number;
  telemetry : option DeviceTelemetry;
  raw : JS.value
}.

Record TopologyResponse : Type := {
  code : JS.value;
  message : string;
  data : list Device
}.

(* ===================================================================== *)
(** * services/apiService: [getProjectTopology]                           *)
(* ===================================================================== *)

Module apiService.
Import JS.

(** What the Fetch API hands back for the topology request. [text] is the
    body as text, or the status text when the body cannot be read; [json]
    is the body parsed as JSON, [None] when it is not JSON. *)
Record Response : Type := {
  ok : bool;
  http_status : N;
  text : string;
  json : option value
}.

(** [new URL(...)] or [fetch] throws, or a response arrives. *)
Inductive FetchResult : Type :=
| Failed (e : exn)
| Responded (response : Response).

Definition invalid_structure : exn := Error "Invalid topology response structure".

(** [a[0]] and [a.length > 0] for a value known to be an array. *)
Definition first_item (a : value) : value :=
  match a with
  | JArray (x :: _) => x
  | _ => JUndefined
  end.

Definition nonempty_array (a : value) : bool :=
  match a with
  | JArray (_ :: _) => true
  | _ => false
  end.

Section WithEngine.
Context {E : Engine}.

(** [Number(v || 0)] *)
Definition number_or_zero (v : value) : completion number :=
  ToNumber (or v (JNumber 0%float)).

(** Step 1: the domain value,
    [d.domain ?? d.device_model?.domain], else the integer prefix of
    [d.device_model_key]. *)
Definition domainVal (d : value) : completion value :=
  dom ← get d "domain";
  model ← get d "device_model";
  model_dom ← get_opt model "domain";
  let domainVal := coalesce dom model_dom in
  key ← get d "device_model_key";
  if is_undefined domainVal && truthy key
  then prefix ← call_split_first key; mret (JNumber (parseInt prefix))
  else mret domainVal.

(** [Number(domainVal)], the domain code that is compared with 0. *)
Definition domain_code (d : value) : completion number :=
  v ← domainVal d; ToNumber v.

(** Step 2: [d.device_online_status === true || ... === 1]. *)
Definition isOnline (d : value) : completion bool :=
  s ← get d "device_online_status";
  mret (strict_eq_true s || strict_eq_number s 1%float).

(** Step 3: [d.device_model?.name || d.device_model?.key || "Drone"]. *)
Definition modelName (d : value) : completion value :=
  model ← get d "device_model";
  name ← get_opt model "name";
  key ← get_opt model "key";
  mret (or (or name key) (JString "Drone")).

(** Step 5: [const state = d.device_state || {}]. *)
Definition deviceState (d : value) : completion value :=
  ds ← get d "device_state";
  mret (or ds (JObject [])).

(** Step 5, position: the live pair of [device_state], replaced by the
    pair of [device_offline_position] when both are 0 and that object
    is there. *)
Definition position (d state : value) : completion (number * number) :=
  la ← get state "latitude";
  lat ← number_or_zero la;
  lo ← get state "longitude";
  lng ← number_or_zero lo;
  offline ← get d "device_offline_position";
  if number_eq lat 0%float && number_eq lng 0%float && truthy offline
  then
    la' ← get offline "latitude";
    lat' ← number_or_zero la';
    lo' ← get offline "longitude";
    lng' ← number_or_zero lo';
    mret (lat', lng')
  else mret (lat, lng).

(** Step 5, battery. *)
Definition batteryPercent (state : value) : completion value :=
  battery ← get state "battery";
  if truthy battery
  then
    direct ← get battery "capacity_percent";
    let batteryPercent := coalesce direct (JNumber 0%float) in
    batteries ← get battery "batteries";
    if strict_eq_number batteryPercent 0%float && isArray batteries && nonempty_array batteries
    then
      first ← get (first_item batteries) "capacity_percent";
      mret (coalesce first (JNumber 0%float))
    else mret batteryPercent
  else mret (JNumber 0%float).

(** The telemetry object literal, members evaluated in source order. *)
Definition buildTelemetry (state : value) (lat lng : number) (batteryPercent : value)
  : completion DeviceTelemetry :=
  h ← get state "height";
  el ← get state "elevation";
  height ← ToNumber (or (or h el) (JNumber 0%float));
  hs ← get state "horizontal_speed";
  speed ← number_or_zero hs;
  link ← get state "wireless_link";
  quality ← get_opt link "sdr_quality";
  link_signal_quality ← number_or_zero quality;
  ft ← get state "total_flight_time";
  flight_time ← number_or_zero ft;
  head ← get state "attitude_head";
  heading ← get state "heading";
  yaw ← ToNumber (or (or head heading) (JNumber 0%float));
  ap ← get state "attitude_pitch";
  pitch ← number_or_zero ap;
  ar ← get state "attitude_roll";
  roll ← number_or_zero ar;
  mret {| latitude := lat; longitude := lng; height := height; speed := speed;
          battery_percent := batteryPercent;
          link_signal_quality := link_signal_quality; flight_time := flight_time;
          yaw := yaw; pitch := pitch; roll := roll |}.

(** The body of the [forEach] callback once [d = item.host] is known to
    be truthy: [None] is an early [return], [Some] a [push]. *)
Definition processHost (d : value) : completion (option Device) :=
  domainNum ← domain_code d;
  if nonzero domainNum then mret None else
  sn1 ← get d "device_sn";
  sn2 ← get d "sn";
  let sn := or sn1 sn2 in
  if negb (truthy sn) then mret None else
  online ← isOnline d;
  name ← modelName d;
  project ← get d "device_project_callsign";
  organization ← get d "device_organization_callsign";
  let callsign := or (or project organization) name in
  state ← deviceState d;
  '(lat, lng) ← position d state;
  percent ← batteryPercent state;
  telemetry ←
    (if nonzero lat || nonzero lng || online
     then t ← buildTelemetry state lat lng percent; mret (Some t)
     else mret None);
  device_sn ← ToString sn;
  nickname ← ToString callsign;
  device_model ← ToString name;
  mret (Some {| device_sn := device_sn; nickname := nickname;
                device_model := device_model; status := online;
                domain := 0%float; telemetry := telemetry; raw := d |}).

(** The [forEach] callback. *)
Definition processItem (item : value) : completion (option Device) :=
  d ← get item "host";
  if negb (truthy d) then mret None else processHost d.

(** [rawData.data.list.forEach(...)], threading [processedDevices]. *)
Fixpoint forEach (items : list value) (processedDevices : list Device)
  : completion (list Device) :=
  match items with
  | [] => mret processedDevices
  | item :: rest =>
      r ← processItem item;
      forEach rest (match r with
                    | Some device => processedDevices ++ [device]
                    | None => processedDevices
                    end)
  end.

(** The [!response.ok] branch. *)
Definition errorResponse (response : Response) : TopologyResponse :=
  let errText := text response in
  let code := JNumber (number_of_N (http_status response)) in
  let code :=
    match json response with
    | Some errJson =>
        match get errJson "code" with
        | normal c => if truthy c then c else code
        | throw _ => code
        end
    | None => code
    end in
  {| code := code;
     message := "Topology API Error: " +:+ string_of_N (http_status response)
                +:+ " - " +:+ substring_to 50 errText;
     data := [] |}.

(** The [try] block. *)
Definition tryTopology (outcome : FetchResult) : completion TopologyResponse :=
  match outcome with
  | Failed e => throw e
  | Responded response =>
      if negb (ok response) then mret (errorResponse response) else
      let rawData := default JNull (json response) in
      if negb (truthy rawData) then throw invalid_structure else
      rawDataData ← get rawData "data";
      if negb (truthy rawDataData) then throw invalid_structure else
      list ← get rawDataData "list";
      match list with
      | JArray items =>
          processedDevices ← forEach items [];
          rawCode ← get rawData "code";
          mret {| code := or rawCode (JNumber 0%float);
                  message := match processedDevices with
                             | [] => "No drones detected"
                             | _ => "Success"
                             end;
                  data := processedDevices |}
      | _ => throw invalid_structure
      end
  end.

Definition getProjectTopology (outcome : FetchResult) : TopologyResponse :=
  match tryTopology outcome with
  | normal r => r
  | throw error =>
      {| code := JNumber (-1)%float; message := exn_to_string error; data := [] |}
  end.

End WithEngine.
End apiService.

(* ===================================================================== *)
(** * App: the poll cycle [fetchDevices]                                  *)
(* ===================================================================== *)

Module App.
Import JS.

(** [isLinkHealthy : boolean | 'unauthorized'] *)
Inductive LinkHealth : Type :=
| healthy        (* true *)
| unauthorized   (* 'unauthorized' *)
| unhealthy.     (* false *)

(** The pieces of component state that [fetchDevices] writes. *)
Record State : Type := {
  devices : list Device;
  isLoadingDevices : bool;
  lastPollTime : number;
  isLinkHealthy : LinkHealth
}.

(** [useState] initial values. *)
Definition initial : State :=
  {| devices := []; isLoadingDevices := false; lastPollTime := 0%float;
     isLinkHealthy := unhealthy |}.

Definition setDevices (d : list Device) (st : State) : State :=
  {| devices := d; isLoadingDevices := isLoadingDevices st;
     lastPollTime := lastPollTime st; isLinkHealthy := isLinkHealthy st |}.

Definition setIsLoadingDevices (b : bool) (st : State) : State :=
  {| devices := devices st; isLoadingDevices := b;
     lastPollTime := lastPollTime st; isLinkHealthy := isLinkHealthy st |}.

Definition setLastPollTime (t : number) (st : State) : State :=
  {| devices := devices st; isLoadingDevices := isLoadingDevices st;
     lastPollTime := t; isLinkHealthy := isLinkHealthy st |}.

Definition setIsLinkHealthy (h : LinkHealth) (st : State) : State :=
  {| devices := devices st; isLoadingDevices := isLoadingDevices st;
     lastPollTime := lastPollTime st; isLinkHealthy := h |}.

(** How [await getProjectTopology(appSettings)] settles: with a response
    (possibly a falsy one, hence the [response &&] tests) or by throwing. *)
Inductive Settled : Type :=
| Fulfilled (response : option TopologyResponse)
| Rejected.

(** [response.code === 200401 || String(response.message).includes('401')] *)
Definition auth_signal (response : TopologyResponse) : bool :=
  strict_eq_number (code response) 200401%float || includes "401" (message response).

(** The branch [fetchDevices] takes, as the health it sets. *)
Definition classify (r : Settled) : LinkHealth :=
  match r with
  | Fulfilled (Some response) =>
      if strict_eq_number (code response) 0%float then healthy
      else if auth_signal response then unauthorized
      else unhealthy
  | Fulfilled None => unhealthy
  | Rejected => unhealthy
  end.

(** [fetchDevices] up to its [await]. *)
Definition fetchDevices_issue (isBackground : bool) (st : State) : State :=
  if negb isBackground then setIsLoadingDevices true st else st.

(** [fetchDevices] from the [await] on; [now] is [Date.now()]. *)
Definition fetchDevices_settle (isBackground : bool) (now : number) (r : Settled)
    (st : State) : State :=
  let st :=
    match r with
    | Fulfilled (Some response) =>
        if strict_eq_number (code response) 0%float
        then setIsLinkHealthy healthy (setLastPollTime now (setDevices (data response) st))
        else if auth_signal response
        then setIsLinkHealthy unauthorized st
        else setIsLinkHealthy unhealthy st
    | Fulfilled None => setIsLinkHealthy unhealthy st
    | Rejected => setIsLinkHealthy unhealthy st
    end in
  if negb isBackground then setIsLoadingDevices false st else st.

(** The event loop runs the two halves of every call as separate,
    atomic steps. A fetch is tagged with the order in which it was
    issued; the source keeps no such number, so [seq] is read by
    nothing. *)
Record Fetch : Type := {
  seq : nat;
  isBackground : bool
}.

Inductive Event : Type :=
| Issue (f : Fetch)
| Complete (f : Fetch) (now : number) (r : Settled).

Definition step (st : State) (e : Event) : State :=
  match e with
  | Issue f => fetchDevices_issue (isBackground f) st
  | Complete f now r => fetchDevices_settle (isBackground f) now r st
  end.

Definition run (st : State) (trace : list Event) : State := fold_left step trace st.

(** One whole cycle against the upstream: the topology call never
    throws, it answers with a response object. *)
Definition poll {E : Engine} (isBackground : bool) (now : number)
    (outcome : apiService.FetchResult) (st : State) : State :=
  fetchDevices_settle isBackground now
    (Fulfilled (Some (apiService.getProjectTopology outcome)))
    (fetchDevices_issue isBackground st).

End App.

(* ===================================================================== *)
(** * MapPicker: the device-marker effect                                 *)
(* ===================================================================== *)

Module MapPicker.
Import JS.

(** [createIcon()]: the [L.divIcon] is determined by the rotation and by
    the two status-dependent parts of its markup. *)
Record DivIcon : Type := {
  rotate : number;
  color : string;
  opacity : number
}.

Definition createIcon (device : Device) (yaw : number) : DivIcon :=
  {| rotate := yaw;
     color := if status device then "#10b981" else "#ef4444";
     opacity := if status device then 1%float else 0.7%float |}.

(** [popupContent]: the template is fixed, so the markup is determined by
    the values interpolated into it ([m] and [s] both come from
    [flightTime]). The battery value reaches the template as the
    normaliser stored it, and the template converts it twice: [batt < 20]
    picks the style and [${batt}] prints it. *)
Record PopupContent : Type := {
  popup_nickname : string;
  popup_model : string;
  popup_status : bool;
  popup_lat : number;
  popup_lon : number;
  popup_speed : number;
  popup_height : number;
  popup_batt_low : bool;
  popup_batt : string;
  popup_flightTime : number;
  popup_signal : number;
  popup_sn : string
}.

(** [device.status ? 1000 : 500] *)
Definition zIndexFor (device : Device) : Z := if status device then 1000 else 500.

(** A Leaflet marker as the effect sees it. Whether its popup is open is
    decided by the user, never by the effect. *)
Record Marker : Type := {
  latlng : number * number;
  icon : DivIcon;
  zIndexOffset : Z;
  popup : PopupContent;
  popupOpen : bool
}.

(** The Leaflet calls the effect makes, each on the marker tracked under
    a serial number. *)
Inductive Call : Type :=
| L_marker (sn : string) (at_ : number * number) (i : DivIcon) (z : Z)
| bindPopup (sn : string) (content : PopupContent)
| addTo (sn : string)
| setLatLng (sn : string) (to : number * number)
| setIcon (sn : string) (i : DivIcon)
| setContent (sn : string) (content : PopupContent)
| setZIndexOffset (sn : string) (z : Z)
| remove (sn : string).

(** Leaflet's [LatLng] constructor, reached from [L.marker] and from
    [setLatLng], throws on a [NaN] coordinate. *)
Definition toLatLng (lat lon : number) : option (number * number) :=
  if isNaN lat || isNaN lon then None else Some (lat, lon).

(** The local state of one run of the effect. *)
Record Run : Type := {
  markersMap : gmap string Marker;
  activeSns : gset string;
  calls : list Call
}.

(** The guard of the [forEach] callback. *)
Definition renderable (device : Device) : bool :=
  match telemetry device with
  | Some t => nonzero (latitude t) || nonzero (longitude t)
  | None => false
  end.

(** The effect has no [try]: what throws inside it ends the run. *)
Definition returned {A : Type} (c : completion A) : option A :=
  match c with
  | normal a => Some a
  | throw _ => None
  end.

Section WithEngine.
Context {E : Engine}.

(** The template literal. [batt] is [battery_percent ?? 0]; [batt < 20]
    converts it to a primitive and then to a number, [${batt}] to a
    string, and either conversion throws a [TypeError] for a value that
    has no primitive (an object with a member [toString] of its own). *)
Definition popupContent (device : Device) (t : DeviceTelemetry) : completion PopupContent :=
  let batt := coalesce (battery_percent t) (JNumber 0%float) in
  n ← ToNumber batt;
  text ← ToString batt;
  mret {| popup_nickname := nickname device;
          popup_model := device_model device;
          popup_status := status device;
          popup_lat := latitude t;
          popup_lon := longitude t;
          popup_speed := speed t;
          popup_height := height t;
          popup_batt_low := PrimFloat.ltb n 20%float;
          popup_batt := text;
          popup_flightTime := flight_time t;
          popup_signal := link_signal_quality t;
          popup_sn := device_sn device |}.

(** The branch for a marker already in the table. *)
Definition updateMarker (device : Device) (t : DeviceTelemetry) (content : PopupContent)
    (marker : Marker) : option (Marker * list Call) :=
  let sn := device_sn device in
  let lat := latitude t in
  let lon := longitude t in
  let i := createIcon device (yaw t) in
  let z := zIndexFor device in
  moved ←
    (if negb (number_eq (fst (latlng marker)) lat) || negb (number_eq (snd (latlng marker)) lon)
     then p ← toLatLng lat lon; Some (p, [setLatLng sn p])
     else Some (latlng marker, []));
  Some ({| latlng := fst moved; icon := i; zIndexOffset := z;
           popup := content; popupOpen := popupOpen marker |},
        snd moved ++ [setIcon sn i;
                      if popupOpen marker then setContent sn content
                      else bindPopup sn content;
                      setZIndexOffset sn z]).

(** The branch that creates a marker. *)
Definition createMarker (device : Device) (t : DeviceTelemetry) (content : PopupContent)
    : option (Marker * list Call) :=
  let sn := device_sn device in
  let i := createIcon device (yaw t) in
  let z := zIndexFor device in
  p ← toLatLng (latitude t) (longitude t);
  Some ({| latlng := p; icon := i; zIndexOffset := z;
           popup := content; popupOpen := false |},
        [L_marker sn p i z; bindPopup sn content; addTo sn]).

(** [if (marker) { ... } else { ... }] on [markersMap.get(sn)]: the marker
    tracked afterwards and the calls made. *)
Definition placeMarker (device : Device) (t : DeviceTelemetry) (content : PopupContent)
    (found : option Marker) : option (Marker * list Call) :=
  match found with
  | Some marker => updateMarker device t content marker
  | None => createMarker device t content
  end.

(** The callback of [devices.forEach]; [None] when the template or
    Leaflet throws. The template is evaluated before the table is
    looked up. *)
Definition renderDevice (device : Device) (r : Run) : option Run :=
  match telemetry device with
  | Some t =>
      if nonzero (latitude t) || nonzero (longitude t)
      then
        let sn := device_sn device in
        let active := {[sn]} ∪ activeSns r in
        content ← returned (popupContent device t);
        '(marker, made) ← placeMarker device t content (markersMap r !! sn);
        Some {| markersMap := <[sn := marker]> (markersMap r);
                activeSns := active;
                calls := calls r ++ made |}
      else Some r
  | None => Some r
  end.

Fixpoint forEach (devices : list Device) (r : Run) : option Run :=
  match devices with
  | [] => Some r
  | device :: rest => r' ← renderDevice device r; forEach rest r'
  end.

(** [markersMap.forEach(...)]: every entry whose serial number is not
    active is removed from the map surface and from the table. A [Map]
    is visited in insertion order; the table here is a finite map, so the
    [remove] calls are listed in its key order instead. *)
Definition stale (r : Run) : gmap string Marker :=
  filter (λ kv, kv.1 ∉ activeSns r) (markersMap r).

Definition sweep (r : Run) : list Call * gmap string Marker :=
  (calls r ++ (remove <$> (map_to_list (stale r)).*1),
   filter (λ kv, kv.1 ∈ activeSns r) (markersMap r)).

(** The effect on [devices]. [mapInstance] tells whether
    [mapInstanceRef.current] is set, [table] is [deviceMarkersRef.current];
    the result is the calls made and the table afterwards, or [None] when
    the effect throws. *)
Definition deviceMarkerEffect (mapInstance : bool) (table : gmap string Marker)
    (devices : list Device) : option (list Call * gmap string Marker) :=
  if negb mapInstance then Some ([], table) else
  r ← forEach devices {| markersMap := table; activeSns := ∅; calls := [] |};
  Some (sweep r).

End WithEngine.

End MapPicker.

(* ===================================================================== *)
(** * A reference engine                                                  *)
(* ===================================================================== *)

(** The theorems below hold for every [JS.Engine]. To evaluate the model on
    concrete listings one engine is spelled out here: [Number(s)] reads the
    numeric literals of the language and rounds them to the nearest
    binary64 value, [String(n)] prints the shortest decimal that reads back
    as [n]. *)
Module ReferenceEngine.
Import JS.
Local Open Scope Z_scope.

(** ** Rounding decimals *)

(** [m * 10^e] for [m >= 0], rounded to nearest, ties to even. Exponents
    beyond the range of binary64 are cut off before any power is
    computed. *)
Definition round_decimal (m e : Z) : number :=
  match m with
  | Zpos p =>
      let digits := Z.of_nat (String.length (string_of_N (Npos p))) in
      if 310 <? digits + e then infinity
      else if digits + e <? -330 then 0%float
      else if 0 <=? e then number_of_Z (m * 10 ^ e)
      else
        match 10 ^ (- e) with
        | Zpos d => SF2Prim (SFdiv 53 1024 (S754_finite false p 0) (S754_finite false d 0))
        | _ => NaN
        end
  | _ => 0%float
  end.

(** ** [Number(s)] *)

Fixpoint trim_end (s : list ascii) : list ascii :=
  match s with
  | [] => []
  | c :: rest =>
      match trim_end rest with
      | [] => if is_white_space c then [] else [c]
      | rest' => c :: rest'
      end
  end.

(** All of [s] as digits of [radix]; [None] if some character is not. *)
Fixpoint all_digits (radix : Z) (acc : Z) (s : string) : option Z :=
  match s with
  | EmptyString => Some acc
  | String c rest =>
      match digit_value radix c with
      | Some d => all_digits radix (radix * acc + d) rest
      | None => None
      end
  end.

(** The leading decimal digits of [s]: their value, their number, and
    what follows them. *)
Fixpoint leading_digits (acc : Z) (count : Z) (s : string) : Z * Z * string :=
  match s with
  | EmptyString => (acc, count, s)
  | String c rest =>
      match digit_value 10 c with
      | Some d => leading_digits (10 * acc + d) (count + 1) rest
      | None => (acc, count, s)
      end
  end.

(** The exponent part [e<sign><digits>], or nothing. *)
Definition exponent_part (s : string) : option Z :=
  match s with
  | EmptyString => Some 0
  | String c rest =>
      if Ascii.eqb c "e" || Ascii.eqb c "E" then
        let '(negative, rest) :=
          match rest with
          | String "-"%char r => (true, r)
          | String "+"%char r => (false, r)
          | _ => (false, rest)
          end in
        match rest with
        | EmptyString => None
        | _ => x ← all_digits 10 0 rest; Some (if negative then - x else x)
        end
      else None
  end.

Definition unsigned_decimal (s : string) : number :=
  if String.eqb s "Infinity" then infinity else
  let '(int_part, int_count, rest) := leading_digits 0 0 s in
  let '(mantissa, frac_count, rest) :=
    match rest with
    | String "."%char r =>
        let '(m, n, r') := leading_digits int_part 0 r in (m, n, r')
    | _ => (int_part, 0, rest)
    end in
  if (int_count + frac_count =? 0) then NaN else
  match exponent_part rest with
  | Some e => round_decimal mantissa (e - frac_count)
  | None => NaN
  end.

Definition prefixed_integer (radix : Z) (digits : string) : number :=
  match digits with
  | EmptyString => NaN
  | _ => match all_digits radix 0 digits with
         | Some z => number_of_Z z
         | None => NaN
         end
  end.

Definition StringToNumber (s : string) : number :=
  let s := string_of_list_ascii (trim_end (list_ascii_of_string (trim_start s))) in
  match s with
  | EmptyString => 0%float
  | String "0"%char (String c rest) =>
      if Ascii.eqb c "x" || Ascii.eqb c "X" then prefixed_integer 16 rest
      else if Ascii.eqb c "o" || Ascii.eqb c "O" then prefixed_integer 8 rest
      else if Ascii.eqb c "b" || Ascii.eqb c "B" then prefixed_integer 2 rest
      else unsigned_decimal s
  | String "-"%char rest => PrimFloat.opp (unsigned_decimal rest)
  | String "+"%char rest => unsigned_decimal rest
  | _ => unsigned_decimal s
  end.

(** ** [String(n)] *)

(** [num / den >= 10^p] *)
Definition at_least_pow10 (num den p : Z) : bool :=
  if 0 <=? p then den * 10 ^ p <=? num else den <=? num * 10 ^ (- p).

(** The [n] with [10^(n-1) <= num/den < 10^n], searched around the
    estimate given by the binary logarithm. *)
Definition decimal_exponent (num den : Z) : Z :=
  let estimate := (Z.log2 num - Z.log2 den) * 30103 / 100000 in
  let fix search (fuel : nat) (n : Z) : Z :=
    match fuel with
    | O => n
    | S fuel' => if at_least_pow10 num den n then search fuel' (n + 1) else n
    end in
  search 8%nat (estimate - 2).

(** [|s * 10^e - num/den|] scaled by a common positive factor. *)
Definition distance (s e num den : Z) : Z :=
  if 0 <=? e then Z.abs (s * 10 ^ e * den - num)
  else Z.abs (s * den - num * 10 ^ (- e)).

(** The shortest digit string: for [k = 1, 2, ...] try the two integers
    around [x / 10^(n-k)] and keep the closer one that reads back as
    [x]. Returns the digits and the exponent [n]. *)
Fixpoint shortest (fuel : nat) (k : Z) (x : number) (num den n : Z) : Z * Z :=
  let e := n - k in
  let low := if 0 <=? e then num / (den * 10 ^ e) else (num * 10 ^ (- e)) / den in
  let high := low + 1 in
  let good s := (0 <? s) && PrimFloat.Leibniz.eqb (round_decimal s e) x in
  let pick s := if s =? 10 ^ k then (10 ^ (k - 1), n + 1) else (s, n) in
  match fuel with
  | O => pick low
  | S fuel' =>
      match good low, good high with
      | true, true =>
          if distance high e num den <? distance low e num den then pick high
          else if distance low e num den <? distance high e num den then pick low
          else if Z.even low then pick low else pick high
      | true, false => pick low
      | false, true => pick high
      | false, false => shortest fuel' (k + 1) x num den n
      end
  end.

Definition zeros (n : Z) : string := string_of_list_ascii (replicate (Z.to_nat n) "0"%char).

Definition format_digits (digits : string) (n : Z) : string :=
  let k := Z.of_nat (String.length digits) in
  if (k <=? n) && (n <=? 21) then digits +:+ zeros (n - k)
  else if (0 <? n) && (n <=? 21) then
    String.substring 0 (Z.to_nat n) digits +:+ "." +:+
    String.substring (Z.to_nat n) (Z.to_nat (k - n)) digits
  else if (-6 <? n) && (n <=? 0) then "0." +:+ zeros (- n) +:+ digits
  else
    let e := n - 1 in
    let exponent := (if e <? 0 then "e-" else "e+") +:+ string_of_N (Z.to_N (Z.abs e)) in
    match digits with
    | String c EmptyString => digits +:+ exponent
    | String c rest => String c ("." +:+ rest) +:+ exponent
    | EmptyString => exponent
    end.

Definition NumberToString (x : number) : string :=
  match Prim2SF x with
  | S754_nan => "NaN"
  | S754_zero _ => "0"
  | S754_infinity s => if s then "-Infinity" else "Infinity"
  | S754_finite s m e =>
      let num := if 0 <=? e then Zpos m * 2 ^ e else Zpos m in
      let den := if 0 <=? e then 1 else 2 ^ (- e) in
      let '(digits, n) :=
        shortest 17%nat 1 (PrimFloat.abs x) num den (decimal_exponent num den) in
      (if s then "-" else "") +:+ format_digits (string_of_N (Z.to_N digits)) n
  end.

(** The wording V8 uses for a member read that fails. *)
Definition TypeErrorText (site : string) : string :=
  "Cannot read properties of null (reading '" +:+ site +:+ "')".

Definition engine : Engine :=
  {| JS.StringToNumber := StringToNumber;
     JS.NumberToString := NumberToString;
     JS.TypeErrorText := TypeErrorText |}.

End ReferenceEngine.

(* ===================================================================== *)
(** * Readings used to state the properties                               *)
(* ===================================================================== *)

Module Readings.
Import JS.

(** A member of a record that may be missing: [undefined] when the record
    is not an object or has no such member. *)
Definition member (v : value) (k : string) : value :=
  match v with
  | JObject props => own_property k props
  | _ => JUndefined
  end.


(** The state record of a host record, [d.device_state], an empty record
    when the host has none. *)
Definition state_record (d : value) : value :=
  or (member d "device_state") (JObject []).

(** A numeric member as it is read: [Number(x || 0)]. *)
Definition reading {E : Engine} (v : value) : completion number :=
  ToNumber (or v (JNumber 0%float)).

(** Position resolution in words: [(lat, lng)] is the live pair read from
    the state record of [d]; when both live values are exactly 0 it is the
    pair read from the offline position if [d] records one, and the live
    zeros otherwise. *)
Definition position_resolved {E : Engine} (d : value) (lat lng : number) : Prop :=
  ∃ live_lat live_lng,
    reading (member (state_record d) "latitude") = normal live_lat ∧
    reading (member (state_record d) "longitude") = normal live_lng ∧
    let offline := member d "device_offline_position" in
    if number_eq live_lat 0%float && number_eq live_lng 0%float
    then if truthy offline
         then reading (member offline "latitude") = normal lat ∧
              reading (member offline "longitude") = normal lng
         else lat = live_lat ∧ lng = live_lng
    else lat = live_lat ∧ lng = live_lng.

(** The domain code in words: the number of the explicit [domain] member;
    when the host has none, of the [domain] member of its [device_model];
    when that has none either, the integer the [device_model_key] starts
    with, before its first dash. A member that is [null] or [undefined] is
    one the host does not have; a host with none of the three has no
    code, which is [NaN]. *)
Definition domain_chain {E : Engine} (d : value) : completion number :=
  let explicit := member d "domain" in
  let of_model := member (member d "device_model") "domain" in
  if negb (nullish explicit) then ToNumber explicit
  else if negb (nullish of_model) then ToNumber of_model
  else match member d "device_model_key" with
       | JString key => normal (parseInt (split_first "-"%char key))
       | _ => normal NaN
       end.

(** Battery resolution in words: [percent] is the direct
    [capacity_percent] of the battery record when that member is present
    and is not 0; when it is 0 or absent, it is the [capacity_percent] of
    the first entry of a non-empty [batteries] list (0 when that entry has
    none); otherwise it is 0. *)
Definition battery_resolved (state percent : value) : Prop :=
  let battery := member state "battery" in
  let direct := member battery "capacity_percent" in
  let batteries := member battery "batteries" in
  if negb (nullish direct) && negb (strict_eq_number direct 0%float)
  then percent = direct
  else match batteries with
       | JArray (first :: _) =>
           percent = coalesce (member first "capacity_percent") (JNumber 0%float)
       | _ => strict_eq_number percent 0%float = true
       end.

(** The host list of an answer that passes the structure check of
    [getProjectTopology]: the body is JSON, it and its [data] member are
    truthy, and [data.list] is an array. *)
Definition host_list (response : apiService.Response) : option (list value) :=
  match apiService.json response with
  | Some rawData =>
      if truthy rawData && truthy (member rawData "data")
      then match member (member rawData "data") "list" with
           | JArray items => Some items
           | _ => None
           end
      else None
  | None => None
  end.

(** The [code] member of the body, [undefined] when there is none. *)
Definition embedded_code (response : apiService.Response) : value :=
  member (default JNull (apiService.json response)) "code".

(** A completion that publishes a snapshot: the first branch of
    [fetchDevices]. *)
Definition publishes (e : App.Event) : bool :=
  match e with
  | App.Complete _ _ (App.Fulfilled (Some response)) => strict_eq_number (code response) 0%float
  | _ => false
  end.

(** The serial numbers the marker effect renders from a snapshot. *)
Definition rendered_serials (devices : list Device) : list string :=
  device_sn <$> filter (λ device, MapPicker.renderable device = true) devices.

(** A marker shows what a device reports: it stands where the device is
    (up to [===]) and has its icon, z-order and popup content. *)
Definition shows {E : Engine} (device : Device) (t : DeviceTelemetry)
    (marker : MapPicker.Marker) : Prop :=
  number_eq (fst (MapPicker.latlng marker)) (latitude t) = true ∧
  number_eq (snd (MapPicker.latlng marker)) (longitude t) = true ∧
  MapPicker.icon marker = MapPicker.createIcon device (yaw t) ∧
  MapPicker.zIndexOffset marker = MapPicker.zIndexFor device ∧
  MapPicker.popupContent device t = normal (MapPicker.popup marker).

(** A call that writes back what the tracked marker already has: the same
    icon, the same z-order, or the same popup content (rebound when the
    popup is closed, pushed in place when it is open). *)
Definition rewrites_same (table : gmap string MapPicker.Marker) (c : MapPicker.Call) : Prop :=
  match c with
  | MapPicker.setIcon sn i => MapPicker.icon <$> table !! sn = Some i
  | MapPicker.setZIndexOffset sn z => MapPicker.zIndexOffset <$> table !! sn = Some z
  | MapPicker.bindPopup sn content =>
      table !! sn ≫= (λ m, if MapPicker.popupOpen m then None else Some (MapPicker.popup m))
      = Some content
  | MapPicker.setContent sn content =>
      table !! sn ≫= (λ m, if MapPicker.popupOpen m then Some (MapPicker.popup m) else None)
      = Some content
  | _ => False
  end.

(** The calls that create a marker or take one off the map. *)
Definition creates_or_removes (c : MapPicker.Call) : bool :=
  match c with
  | MapPicker.L_marker _ _ _ _ | MapPicker.addTo _ | MapPicker.remove _ => true
  | _ => false
  end.

End Readings.

(* ===================================================================== *)
(** * Sample upstream data                                                *)
(* ===================================================================== *)

Module Samples.
Import JS apiService.

(** [{capacity_percent: 0, batteries: [{capacity_percent: 55}]}] *)
Definition battery_fallback : value :=
  JObject [("capacity_percent", JNumber 0%float);
           ("batteries", JArray [JObject [("capacity_percent", JNumber 55%float)]])].

(** [{capacity_percent: 40}] *)
Definition battery_direct : value :=
  JObject [("capacity_percent", JNumber 40%float)].

(** An offline drone with no live fix and a last known position. *)
Definition parked_drone : value :=
  JObject [("domain", JNumber 0%float);
           ("device_sn", JString "1581F5BKD2250");
           ("device_online_status", JBool false);
           ("device_state",
             JObject [("latitude", JNumber 0%float);
                      ("longitude", JNumber 0%float);
                      ("battery", battery_fallback)]);
           ("device_offline_position",
             JObject [("latitude", JNumber 12.3%float);
                      ("longitude", JNumber 45.6%float)])].

(** An online drone that has no position fix yet; its domain is given by
    the model key only. *)
Definition airborne_no_fix : value :=
  JObject [("device_model_key", JString "0-67-0");
           ("sn", JString "1581F4BND2231");
           ("device_online_status", JNumber 1%float);
           ("device_state", JObject [("battery", battery_direct)])].

(** An offline drone that was never located. *)
Definition dark_drone : value :=
  JObject [("domain", JNumber 0%float);
           ("device_sn", JString "1581F6Q8D2402");
           ("device_online_status", JNumber 0%float)].

(** A dock (domain 3). *)
Definition dock : value :=
  JObject [("device_model_key", JString "3-1-0");
           ("sn", JString "4TADK7E001002P")].

Definition entry (host : value) : value := JObject [("host", host)].

(** An HTTP 200 answer whose body is [{code, data: {list}}]. *)
Definition listing (code : value) (items : list value) : FetchResult :=
  Responded {| ok := true; http_status := 200; text := "";
               json := Some (JObject [("code", code);
                                      ("data", JObject [("list", JArray items)])]) |}.

Definition fleet : FetchResult :=
  listing (JNumber 0%float)
    [entry parked_drone; entry dock; entry airborne_no_fix; entry dark_drone].

(** An HTTP 200 answer that reports an authorisation failure and carries
    no listing: [{code: 200401, message: "Unauthorized"}]. *)
Definition rejected_token : FetchResult :=
  Responded {| ok := true; http_status := 200;
               text := "";
               json := Some (JObject [("code", JNumber 200401%float);
                                      ("message", JString "Unauthorized")]) |}.

(** The devices the reference engine normalises [fleet] to. *)
Definition fleet_devices : list Device :=
  Eval vm_compute in data (@getProjectTopology ReferenceEngine.engine fleet).

Definition no_device : Device :=
  {| device_sn := ""; nickname := ""; device_model := ""; status := false;
     domain := 0%float; telemetry := None; raw := JNull |}.

(** The parked drone and the airborne one as devices of [fleet_devices]. *)
Definition parked_device : Device :=
  Eval vm_compute in default no_device (fleet_devices !! 0%nat).

Definition airborne_device : Device :=
  Eval vm_compute in default no_device (fleet_devices !! 1%nat).

(** The same fleet when only the parked drone answers. *)
Definition fleet_later : FetchResult :=
  listing (JNumber 0%float) [entry parked_drone].

Definition later_devices : list Device :=
  Eval vm_compute in data (@getProjectTopology ReferenceEngine.engine fleet_later).

Definition success (devices : list Device) : App.Settled :=
  App.Fulfilled (Some {| code := JNumber 0%float; message := "Success"; data := devices |}).

(** Two overlapping background polls: the first one issued is answered
    last. *)
Definition first_fetch : App.Fetch := {| App.seq := 1; App.isBackground := true |}.
Definition second_fetch : App.Fetch := {| App.seq := 2; App.isBackground := true |}.

Definition overtaken : list App.Event :=
  [App.Issue first_fetch; App.Issue second_fetch;
   App.Complete second_fetch 2000%float (success later_devices);
   App.Complete first_fetch 2100%float (success fleet_devices)].

(** The calls of a first run of the effect on [fleet_devices], and the
    marker table it leaves. *)
Definition fleet_calls : list MapPicker.Call :=
  default [] (fst <$> @MapPicker.deviceMarkerEffect ReferenceEngine.engine true ∅
                        fleet_devices).

Definition fleet_markers : gmap string MapPicker.Marker :=
  default ∅ (snd <$> @MapPicker.deviceMarkerEffect ReferenceEngine.engine true ∅
                       fleet_devices).

(** A successful answer that lists no drone. *)
Definition no_drones : TopologyResponse :=
  {| code := JNumber 0%float; message := "No drones detected"; data := [] |}.

End Samples.

(* ===================================================================== *)
(** * Further readings                                                    *)
(* ===================================================================== *)

Module Listing.
Import JS.

(** The host records of the entries of a listing, in order ([undefined]
    for an entry that has none). *)
Definition hosts (items : list value) : list value :=
  (λ item, Readings.member item "host") <$> items.

(** The serial number a host record is keyed by: [d.device_sn || d.sn]. *)
Definition serial (d : value) : value :=
  or (Readings.member d "device_sn") (Readings.member d "sn").

(** [d.device_model?.name || d.device_model?.key || "Drone"] *)
Definition display_name (d : value) : value :=
  let model := Readings.member d "device_model" in
  or (or (Readings.member model "name") (Readings.member model "key")) (JString "Drone").

(** [d.device_project_callsign || d.device_organization_callsign || modelName] *)
Definition callsign (d : value) : value :=
  or (or (Readings.member d "device_project_callsign")
         (Readings.member d "device_organization_callsign"))
     (display_name d).

(** The serial numbers for which a run of the marker effect called
    [L.marker], in call order. *)
Definition created (made : list MapPicker.Call) : list string :=
  omap (λ c, match c with MapPicker.L_marker sn _ _ _ => Some sn | _ => None end) made.

(** The serial numbers whose marker a run of the effect removed. *)
Definition removed (made : list MapPicker.Call) : list string :=
  omap (λ c, match c with MapPicker.remove sn => Some sn | _ => None end) made.

(** An event that is not the completion of a fetch. *)
Definition is_issue (e : App.Event) : bool :=
  match e with
  | App.Issue _ => true
  | App.Complete _ _ _ => false
  end.

End Listing.

(* ===================================================================== *)
(** * Further sample data                                                 *)
(* ===================================================================== *)

Module MoreSamples.
Import JS apiService.

(** An online drone whose state reports its latitude as a word. *)
Definition uncharted_drone : value :=
  JObject [("domain", JNumber 0%float);
           ("device_sn", JString "1581F7UNC0001");
           ("device_online_status", JBool true);
           ("device_state",
             JObject [("latitude", JString "north");
                      ("longitude", JNumber 45.6%float)])].

(** The devices the reference engine normalises a listing of the parked
    drone and that one to. *)
Definition uncharted_devices : list Device :=
  Eval vm_compute in
    data (@getProjectTopology ReferenceEngine.engine
            (Samples.listing (JNumber 0%float)
               [Samples.entry Samples.parked_drone; Samples.entry uncharted_drone])).

Definition uncharted_device : Device :=
  Eval vm_compute in default Samples.no_device (uncharted_devices !! 1%nat).




(** A dock whose model record has a [domain] that is [null]; its model
    key starts with 3. *)
Definition unclassed_dock : value :=
  JObject [("device_model", JObject [("domain", JNull)]);
           ("device_model_key", JString "3-1-0");
           ("sn", JString "4TADK7E001003Q")].

(** A second drone, online and located. *)
Definition relief_drone : value :=
  JObject [("domain", JNumber 0%float);
           ("device_sn", JString "1581F8REL0042");
           ("device_online_status", JBool true);
           ("device_state",
             JObject [("latitude", JNumber 12.31%float);
                      ("longitude", JNumber 45.61%float);
                      ("battery", Samples.battery_direct)])].

(** The snapshot when the relief drone has taken over from the parked
    one. *)
Definition relief_devices : list Device :=
  Eval vm_compute in
    data (@getProjectTopology ReferenceEngine.engine
            (Samples.listing (JNumber 0%float) [Samples.entry relief_drone])).

Definition relief_device : Device :=
  Eval vm_compute in default Samples.no_device (relief_devices !! 0%nat).

(** A run of the marker effect on [relief_devices] over the table the
    fleet left. *)
Definition relief_calls : list MapPicker.Call :=
  default [] (fst <$> @MapPicker.deviceMarkerEffect ReferenceEngine.engine true Samples.fleet_markers relief_devices).

Definition relief_markers : gmap string MapPicker.Marker :=
  default ∅ (snd <$> @MapPicker.deviceMarkerEffect ReferenceEngine.engine true Samples.fleet_markers relief_devices).

(** The table of the fleet after the user opened every popup. *)
Definition watched_markers : gmap string MapPicker.Marker :=
  (λ marker, {| MapPicker.latlng := MapPicker.latlng marker;
                MapPicker.icon := MapPicker.icon marker;
                MapPicker.zIndexOffset := MapPicker.zIndexOffset marker;
                MapPicker.popup := MapPicker.popup marker;
                MapPicker.popupOpen := true |}) <$> Samples.fleet_markers.

Definition watched_calls : list MapPicker.Call :=
  default [] (fst <$> @MapPicker.deviceMarkerEffect ReferenceEngine.engine true watched_markers Samples.fleet_devices).

Definition watched_after : gmap string MapPicker.Marker :=
  default ∅ (snd <$> @MapPicker.deviceMarkerEffect ReferenceEngine.engine true watched_markers Samples.fleet_devices).

End MoreSamples.

(* ===================================================================== *)
(** * Library methods the handlers call                                   *)
(* ===================================================================== *)

Module Prototype.
Import JS.
Local Open Scope Z_scope.

(** [n] printed with [f] digits after the point: the decimal digits of
    [n], padded on the left with zeros up to [f + 1] digits, and a point
    before the last [f] of them. *)
Definition point (f : nat) (n : N) : string :=
  let m := string_of_N n in
  let k := String.length m in
  let m := if (k <=? f)%nat then string_of_list_ascii (replicate (f + 1 - k) "0"%char) +:+ m
           else m in
  let k := String.length m in
  if (f =? 0)%nat then m
  else String.substring 0 (k - f) m +:+ "." +:+ String.substring (k - f) f m.

(** The integer [n] for which [n / 10^f - m * 2^e] is closest to zero, the
    larger one when there are two. *)
Definition nearest (f : nat) (m e : Z) : Z :=
  if 0 <=? e then m * 2 ^ e * 10 ^ Z.of_nat f
  else (2 * m * 10 ^ Z.of_nat f + 2 ^ (- e)) / 2 ^ (- e + 1).

(** [m * 2^e >= 10^21] *)
Definition at_least_1e21 (m e : Z) : bool :=
  if 0 <=? e then 10 ^ 21 <=? m * 2 ^ e else 10 ^ 21 * 2 ^ (- e) <=? m.

(** [x.toFixed(f)] for [0 <= f <= 100]. *)
Definition toFixed {E : Engine} (f : nat) (x : number) : string :=
  match Prim2SF x with
  | S754_nan | S754_infinity _ => NumberToString x
  | S754_zero _ => point f 0
  | S754_finite sign m e =>
      (if sign then "-" else "") +:+
      (if at_least_1e21 (Zpos m) e then NumberToString (abs x)
       else point f (Z.to_N (nearest f (Zpos m) e)))
  end.

(** [s.trim()], white space being that of the Latin-1 range. *)
Fixpoint trim_end (s : string) : string :=
  match s with
  | EmptyString => EmptyString
  | String c rest =>
      match trim_end rest with
      | EmptyString => if is_white_space c then EmptyString else String c EmptyString
      | rest' => String c rest'
      end
  end.

Definition trim (s : string) : string := trim_end (trim_start s).

(** [s.replace(/[-:T.]/g, '')] *)
Fixpoint strip_punctuation (s : string) : string :=
  match s with
  | EmptyString => EmptyString
  | String c rest =>
      if (Ascii.eqb c "-" || Ascii.eqb c ":" || Ascii.eqb c "T" || Ascii.eqb c ".")%bool
      then strip_punctuation rest
      else String c (strip_punctuation rest)
  end.

(** [s.slice(0, n)] *)
Definition slice_to (n : nat) (s : string) : string := String.substring 0 n s.

End Prototype.

(* ===================================================================== *)
(** * The workflow trigger ([sendWorkflowAlert])                          *)
(* ===================================================================== *)

Module Workflow.
Import JS.

(** The [params] of a [WorkflowRequest], as [handleTrigger] fills them. *)
Record Params : Type := {
  creator : string;
  latitude : number;
  longitude : number;
  level : value;
  desc : string
}.

Record Request : Type := {
  workflow_uuid : string;
  trigger_type : number;
  name : string;
  params : Params
}.

(** What [sendWorkflowAlert] reads of the [Response]. Reading the body can
    fail, so [json()] and [text()] are completions. *)
Record Response : Type := {
  ok : bool;
  http_status : N;
  statusText : string;
  contentType : option string;     (* [headers.get("content-type")] *)
  json : completion value;
  text : completion string
}.

(** How [await fetch(targetUrl, ...)] settles. The request itself (the
    proxy URL, the headers, [JSON.stringify(payload)]) is built from
    strings and is not modelled. *)
Inductive FetchResult : Type :=
| Failed (e : exn)
| Responded (response : Response).

Section Service.
Context {E : Engine}.

(** [contentType && contentType.includes("application/json")] *)
Definition is_json (response : Response) : bool :=
  match contentType response with
  | Some ct => truthy (JString ct) && includes "application/json" ct
  | None => false
  end.

(** The [if]/[else] that reads the body. *)
Definition readBody (response : Response) : completion value :=
  if is_json response then json response
  else
    t ← text response;
    mret (JObject [("message", or (JString t) (JString (statusText response)))]).

(** [sendWorkflowAlert]: the [catch] logs and throws the error again. *)
Definition sendWorkflowAlert (outcome : FetchResult) : completion value :=
  match outcome with
  | Failed e => throw e
  | Responded response =>
      responseData ← readBody response;
      if negb (ok response) then
        m ← get responseData "message";
        msg ← ToString (or m (JString ("HTTP Error: " +:+ string_of_N (http_status response))));
        throw (Error msg)
      else mret responseData
  end.

End Service.
End Workflow.

(* ===================================================================== *)
(** * The handlers of [App]                                               *)
(* ===================================================================== *)

Module Console.
Import JS.

Local Abbreviation fix_latitude := latitude (only parsing).
Local Abbreviation fix_longitude := longitude (only parsing).

Inductive ConnectionStatus : Type := IDLE | SENDING | SUCCESS | ERROR.

Inductive LogType : Type := info | request | success | error.

(** What is passed as [details]: the payload, the result of the call, or
    [{ error: ... }]. *)
Inductive Details : Type :=
| Payload (p : Workflow.Request)
| Result (r : value)
| Failure (message : string).

Record LogEntry : Type := {
  id : string;
  timestamp : string;
  type : LogType;
  message : string;
  details : option Details
}.

(** What [addLog] takes from its environment:
    [Math.random().toString(36).substring(7)] and
    [new Date().toLocaleTimeString()]. *)
Record Stamp : Type := {
  random_id : string;
  time_of_day : string
}.

Record AppSettings : Type := {
  userToken : string;
  projectUuid : string;
  workflowUuid : string;
  creatorId : string;
  apiUrl : string
}.

(** The state of the component; [poller] is what [fetchDevices] writes. *)
Record State : Type := {
  status : ConnectionStatus;
  logs : list LogEntry;
  poller : App.State;
  flyTo : option (number * number);
  selectedDeviceSn : option string;
  appSettings : AppSettings;
  latitude : number;
  longitude : number;
  desc : string;
  level : value;
  requesterName : string
}.

Definition setStatus (s : ConnectionStatus) (st : State) : State :=
  {| status := s; logs := logs st; poller := poller st; flyTo := flyTo st;
     selectedDeviceSn := selectedDeviceSn st; appSettings := appSettings st;
     latitude := latitude st; longitude := longitude st; desc := desc st;
     level := level st; requesterName := requesterName st |}.

Definition setLogs (l : list LogEntry) (st : State) : State :=
  {| status := status st; logs := l; poller := poller st; flyTo := flyTo st;
     selectedDeviceSn := selectedDeviceSn st; appSettings := appSettings st;
     latitude := latitude st; longitude := longitude st; desc := desc st;
     level := level st; requesterName := requesterName st |}.

Definition setPoller (p : App.State) (st : State) : State :=
  {| status := status st; logs := logs st; poller := p; flyTo := flyTo st;
     selectedDeviceSn := selectedDeviceSn st; appSettings := appSettings st;
     latitude := latitude st; longitude := longitude st; desc := desc st;
     level := level st; requesterName := requesterName st |}.

Definition setFlyTo (p : number * number) (st : State) : State :=
  {| status := status st; logs := logs st; poller := poller st; flyTo := Some p;
     selectedDeviceSn := selectedDeviceSn st; appSettings := appSettings st;
     latitude := latitude st; longitude := longitude st; desc := desc st;
     level := level st; requesterName := requesterName st |}.

Definition setSelectedDeviceSn (sn : option string) (st : State) : State :=
  {| status := status st; logs := logs st; poller := poller st; flyTo := flyTo st;
     selectedDeviceSn := sn; appSettings := appSettings st;
     latitude := latitude st; longitude := longitude st; desc := desc st;
     level := level st; requesterName := requesterName st |}.

Definition setLatitude (x : number) (st : State) : State :=
  {| status := status st; logs := logs st; poller := poller st; flyTo := flyTo st;
     selectedDeviceSn := selectedDeviceSn st; appSettings := appSettings st;
     latitude := x; longitude := longitude st; desc := desc st;
     level := level st; requesterName := requesterName st |}.

Definition setLongitude (x : number) (st : State) : State :=
  {| status := status st; logs := logs st; poller := poller st; flyTo := flyTo st;
     selectedDeviceSn := selectedDeviceSn st; appSettings := appSettings st;
     latitude := latitude st; longitude := x; desc := desc st;
     level := level st; requesterName := requesterName st |}.

Definition setRequesterName (s : string) (st : State) : State :=
  {| status := status st; logs := logs st; poller := poller st; flyTo := flyTo st;
     selectedDeviceSn := selectedDeviceSn st; appSettings := appSettings st;
     latitude := latitude st; longitude := longitude st; desc := desc st;
     level := level st; requesterName := s |}.

Definition devices (st : State) : list Device := App.devices (poller st).

(** [addLog]: [setLogs(prev => [...prev, newLog])] *)
Definition addLog (stamp : Stamp) (type : LogType) (message : string)
    (details : option Details) (st : State) : State :=
  let newLog := {| id := random_id stamp; timestamp := time_of_day stamp;
                   type := type; message := message; details := details |} in
  setLogs (logs st ++ [newLog]) st.

Definition handleLocationSelect (lat lng : number) (st : State) : State :=
  setLongitude lng (setLatitude lat st).

Definition handleDeviceSelect (device : Device) (stamp : Stamp) (st : State) : State :=
  let st := setSelectedDeviceSn (Some (device_sn device)) st in
  match telemetry device with
  | Some t =>
      if nonzero (fix_latitude t) || nonzero (fix_longitude t)
      then addLog stamp info ("Uplink established with drone: " +:+ nickname device) None
             (setFlyTo (fix_latitude t, fix_longitude t) st)
      else st
  | None => st
  end.

(** [devices.find(d => d.device_sn === selectedDeviceSn)] *)
Definition selectedDevice (st : State) : option Device :=
  match selectedDeviceSn st with
  | Some sn => List.find (λ d, String.eqb (device_sn d) sn) (devices st)
  | None => None
  end.

Section Handlers.
Context {E : Engine}.

Definition syncToDrone (stamp : Stamp) (st : State) : State :=
  match selectedDevice st with
  | Some device =>
      match telemetry device with
      | Some t =>
          addLog stamp info ("Coordinates synchronized to drone: " +:+ nickname device) None
            (setLongitude (StringToNumber (Prototype.toFixed 6 (fix_longitude t)))
               (setLatitude (StringToNumber (Prototype.toFixed 6 (fix_latitude t))) st))
      | None => st
      end
  | None => st
  end.

End Handlers.

(** ** [handleTrigger] *)

(** [new Date().toISOString().replace(/[-:T.]/g, '').slice(0, 14)], the
    ISO string being given. *)
Definition stampOf (iso : string) : string :=
  Prototype.slice_to 14 (Prototype.strip_punctuation iso).

Definition alertName (st : State) (iso : string) : string :=
  if truthy (JString (Prototype.trim (requesterName st)))
  then Prototype.trim (requesterName st)
  else "Alert-" +:+ stampOf iso.

Definition payload (st : State) (iso : string) : Workflow.Request :=
  {| Workflow.workflow_uuid := workflowUuid (appSettings st);
     Workflow.trigger_type := 0%float;
     Workflow.name := alertName st iso;
     Workflow.params :=
       {| Workflow.creator := creatorId (appSettings st);
          Workflow.latitude := latitude st;
          Workflow.longitude := longitude st;
          Workflow.level := level st;
          Workflow.desc := desc st |} |}.

Definition is_sending (s : ConnectionStatus) : bool :=
  match s with
  | SENDING => true
  | _ => false
  end.

(** [handleTrigger] up to its [await]: the state it leaves and the
    payload it sends, [None] when the guard returns. *)
Definition handleTrigger_start (stamp : Stamp) (iso : string) (st : State)
    : State * option Workflow.Request :=
  if is_sending (status st) then (st, None)
  else
    let p := payload st iso in
    (addLog stamp request ("TRANSMITTING ALERT: " +:+ alertName st iso) (Some (Payload p))
       (setStatus SENDING st),
     Some p).

Section Settle.
Context {E : Engine}.

(** [error instanceof Error ? error.message : 'Unknown']: every exception
    of the model is an [Error]. *)
Definition error_message (e : exn) : string :=
  match e with
  | TypeError site => TypeErrorText site
  | Error msg => msg
  end.

(** [handleTrigger] from the [await] on, up to the [setTimeout]. *)
Definition handleTrigger_settle (stamp : Stamp) (result : completion value) (st : State)
    : State :=
  match result with
  | normal r =>
      setStatus SUCCESS
        (addLog stamp success "Workflow Transmission Successful" (Some (Result r)) st)
  | throw e =>
      setStatus ERROR
        (addLog stamp error "Transmission Failed" (Some (Failure (error_message e))) st)
  end.

End Settle.

(** The callback of [setTimeout(..., 2000)]. *)
Definition handleTrigger_timer (st : State) : State :=
  setStatus (if is_sending (status st) then IDLE else status st) st.

(** What happens to the component, one atomic step each. The inputs of
    the description, the level and the two coordinate fields only store
    what is typed and are left out. A [Settle] is the continuation of an
    accepted click, a [Timer] the callback that continuation scheduled;
    the type does not enforce that order, so what holds of every trace
    holds of the traces that can occur. *)
Inductive Event : Type :=
| Click (stamp : Stamp) (iso : string)
| Settle (stamp : Stamp) (outcome : Workflow.FetchResult)
| Timer
| Select (device : Device) (stamp : Stamp)
| Sync (stamp : Stamp)
| Locate (lat lng : number)
| Deselect
| Rename (requester : string)
| Poll (e : App.Event).

Section Steps.
Context {E : Engine}.

Definition step (st : State) (e : Event) : State :=
  match e with
  | Click stamp iso => fst (handleTrigger_start stamp iso st)
  | Settle stamp outcome => handleTrigger_settle stamp (Workflow.sendWorkflowAlert outcome) st
  | Timer => handleTrigger_timer st
  | Select device stamp => handleDeviceSelect device stamp st
  | Sync stamp => syncToDrone stamp st
  | Locate lat lng => handleLocationSelect lat lng st
  | Deselect => setSelectedDeviceSn None st
  | Rename requester => setRequesterName requester st
  | Poll e => setPoller (App.step (poller st) e) st
  end.

Definition run (st : State) (trace : list Event) : State := fold_left step trace st.

End Steps.

End Console.

(* ===================================================================== *)
(** * The target marker of [MapPicker]                                    *)
(* ===================================================================== *)

Module TargetMarker.
Import JS.

(** The Leaflet calls of the effect on [[lat, lng]]. *)
Inductive Call : Type :=
| setLatLng (to : number * number)
| flyTo (to : number * number).

(** [mapInstanceRef.current] (set or not) and the position of
    [targetMarkerRef.current], when there is one. *)
Record Refs : Type := {
  mapInstance : bool;
  targetMarker : option (number * number)
}.

Section Effect.
(** [map.distance(a, b)], in metres. *)
Variable distance : number * number → number * number → number.

(** Whether Leaflet's calls on a position return. [marker.setLatLng] moves
    the marker and, while its popup is open (it is opened on mount), pans
    the map to keep the popup in view; [map.flyTo] moves the view. Either
    throws when the view it leads to cannot be drawn, as it does for an
    infinite coordinate. Which positions Leaflet takes is Leaflet's to
    say, so it is given. *)
Variable lands : number * number → bool.

(** The effect on [[lat, lng]]: the calls made and the references
    afterwards, [None] when a call throws: [setLatLng] on a [NaN]
    coordinate, or [setLatLng] or [flyTo] on a position Leaflet does not
    take. *)
Definition targetEffect (refs : Refs) (lat lng : number) : option (list Call * Refs) :=
  if mapInstance refs then
    match targetMarker refs with
    | Some currentLatLng =>
        if negb (number_eq (fst currentLatLng) lat) || negb (number_eq (snd currentLatLng) lng)
        then
          p ← MapPicker.toLatLng lat lng;
          if lands p
          then Some (setLatLng p ::
                     (if PrimFloat.ltb 500%float (distance (lat, lng) currentLatLng)
                      then [flyTo p] else []),
                     {| mapInstance := mapInstance refs; targetMarker := Some p |})
          else None
        else Some ([], refs)
    | None => Some ([], refs)
    end
  else Some ([], refs).
End Effect.

(** The [dragend] listener: what it passes to [onLocationSelect] for a
    marker dropped at [position]. *)
Definition dragend (position : number * number) : number * number := position.

(** The [contextmenu] listener: what it passes to [onLocationSelect] for
    a click at [(lat, lng)]. *)
Definition contextmenu {E : Engine} (lat lng : number) : number * number :=
  (StringToNumber (Prototype.toFixed 6 lat), StringToNumber (Prototype.toFixed 6 lng)).

End TargetMarker.

(* ===================================================================== *)
(** * Readings of traces                                                  *)
(* ===================================================================== *)

Module Traces.
Import JS.

(** A click on the transmit button. *)
Definition is_click (e : Console.Event) : bool :=
  match e with
  | Console.Click _ _ => true
  | _ => false
  end.

(** What can happen while a transmission is in flight without writing to
    the log or to the status: further clicks on the button, a new target,
    a new requester name, a cleared selection, the poller. *)
Definition quiet (e : Console.Event) : bool :=
  match e with
  | Console.Click _ _ | Console.Locate _ _ | Console.Rename _ | Console.Deselect
  | Console.Poll _ => true
  | _ => false
  end.

(** A step of a fetch that was not started in the background: the one
    made on mount, or a refresh. *)
Definition is_foreground (e : App.Event) : bool :=
  match e with
  | App.Issue f | App.Complete f _ _ => negb (App.isBackground f)
  end.

(** The steps of [fetchDevices] in a trace. *)
Definition polls (trace : list Console.Event) : list App.Event :=
  omap (λ e, match e with Console.Poll e => Some e | _ => None end) trace.

(** The ISO string of a date of the years 0 to 9999. *)
Definition iso (year month day hours minutes seconds millis : string) : string :=
  year +:+ "-" +:+ month +:+ "-" +:+ day +:+ "T" +:+ hours +:+ ":" +:+ minutes +:+ ":"
  +:+ seconds +:+ "." +:+ millis +:+ "Z".

(** A string of [n] decimal digits. *)
Definition digits (n : nat) (s : string) : bool :=
  (String.length s =? n)%nat
  && forallb (λ c, (48 <=? N_of_ascii c)%N && (N_of_ascii c <=? 57)%N) (list_ascii_of_string s).

End Traces.

Module DeskSamples.
Import JS.

Definition settings : Console.AppSettings :=
  {| Console.userToken := "token"; Console.projectUuid := "project";
     Console.workflowUuid := "workflow"; Console.creatorId := "creator";
     Console.apiUrl := "https://example.invalid/openapi/v0.1/workflow" |}.

(** The component when the fleet has been published and nothing else has
    happened. *)
Definition desk : Console.State :=
  {| Console.status := Console.IDLE;
     Console.logs := [];
     Console.poller := App.run App.initial Samples.overtaken;
     Console.flyTo := None;
     Console.selectedDeviceSn := None;
     Console.appSettings := settings;
     Console.latitude := 12%float;
     Console.longitude := 45%float;
     Console.desc := "Report";
     Console.level := JNumber 3%float;
     Console.requesterName := "  Mission 7 " |}.

Definition stamp (n : string) : Console.Stamp :=
  {| Console.random_id := n; Console.time_of_day := "12:00:00 AM" |}.

(** A 200 answer with a JSON body. *)
Definition accepted : Workflow.FetchResult :=
  Workflow.Responded
    {| Workflow.ok := true; Workflow.http_status := 200; Workflow.statusText := "OK";
       Workflow.contentType := Some "application/json; charset=utf-8";
       Workflow.json := normal (JObject [("code", JNumber 0%float)]);
       Workflow.text := normal "" |}.

(** A 403 answer with a plain-text body. *)
Definition refused : Workflow.FetchResult :=
  Workflow.Responded
    {| Workflow.ok := false; Workflow.http_status := 403; Workflow.statusText := "Forbidden";
       Workflow.contentType := Some "text/plain";
       Workflow.json := throw (Error "Unexpected token");
       Workflow.text := normal "" |}.

End DeskSamples.

(* ===================================================================== *)
(** * Telemetry normaliser: what a kept entry looks like                  *)
(* ===================================================================== *)

Section Normaliser.
Import JS apiService.
Context {E : Engine}.

Lemma bind_normal {A B} (c : completion A) (k : A → completion B) (b : B) :
  (c ≫= k) = normal b → ∃ a, c = normal a ∧ k a = normal b.
Proof. destruct c as [a|e]; simpl; [eauto | discriminate]. Qed.

Lemma get_member (v : value) (k : string) (x : value) :
  get v k = normal x → x = Readings.member v k.
Proof. destruct v; simpl; congruence. Qed.

Lemma get_opt_member (v : value) (k : string) (x : value) :
  get_opt v k = normal x → x = Readings.member v k.
Proof. unfold get_opt. destruct v; simpl; congruence. Qed.

(** Peels the binds of a computation known to complete normally. *)
Ltac peel H :=
  repeat match type of H with
    | (_ ≫= _) = normal _ =>
        let a := fresh "a" in
        let Ha := fresh "Ha" in
        apply bind_normal in H as (a & Ha & H)
    | (let '(_, _) := ?p in _) = normal _ => destruct p
    | mret _ = normal _ => injection H as H
    | normal _ = normal _ => injection H as H
    end.

Lemma buildTelemetry_fields state lat lng bp t :
  buildTelemetry state lat lng bp = normal t →
  latitude t = lat ∧ longitude t = lng ∧ battery_percent t = bp.
Proof.
  unfold buildTelemetry. intros H. peel H. subst t. auto.
Qed.

Lemma processHost_kept d device :
  processHost d = normal (Some device) →
  ∃ n state lat lng bp,
    domain_code d = normal n ∧ nonzero n = false ∧
    isOnline d = normal (status device) ∧
    deviceState d = normal state ∧
    position d state = normal (lat, lng) ∧
    batteryPercent state = normal bp ∧
    raw device = d ∧
    (if nonzero lat || nonzero lng || status device
     then ∃ t, telemetry device = Some t ∧ buildTelemetry state lat lng bp = normal t
     else telemetry device = None).
Proof.
  unfold processHost. intros H.
  apply bind_normal in H as (n & Hn & H).
  destruct (nonzero n) eqn:Hz; [discriminate|].
  apply bind_normal in H as (sn1 & _ & H).
  apply bind_normal in H as (sn2 & _ & H).
  destruct (truthy (or sn1 sn2)); simpl in H; [|discriminate].
  apply bind_normal in H as (online & Honline & H).
  apply bind_normal in H as (mn & _ & H).
  apply bind_normal in H as (project & _ & H).
  apply bind_normal in H as (organization & _ & H).
  apply bind_normal in H as (state & Hstate & H).
  apply bind_normal in H as ([lat lng] & Hpos & H).
  apply bind_normal in H as (bp & Hbp & H).
  apply bind_normal in H as (tel & Htel & H).
  peel H. subst device. simpl.
  exists n, state, lat, lng, bp. repeat split; try assumption.
  destruct (nonzero lat || nonzero lng || online).
  - apply bind_normal in Htel as (t & Ht & Htel). injection Htel as <-. eauto.
  - injection Htel as <-. reflexivity.
Qed.

Lemma processItem_kept item device :
  processItem item = normal (Some device) →
  processHost (raw device) = normal (Some device).
Proof.
  unfold processItem. intros H.
  apply bind_normal in H as (d & _ & H).
  destruct (truthy d); simpl in H; [|discriminate].
  pose proof (processHost_kept _ _ H) as (? & ? & ? & ? & ? & _ & _ & _ & _ & _ & _ & Hraw & _).
  by rewrite Hraw.
Qed.

Lemma forEach_kept items acc out device :
  forEach items acc = normal out → device ∈ out →
  device ∈ acc ∨ ∃ item, item ∈ items ∧ processItem item = normal (Some device).
Proof.
  revert acc. induction items as [|item rest IH]; intros acc H Hin; simpl in H.
  - injection H as <-. by left.
  - apply bind_normal in H as (r & Hr & H).
    destruct (IH _ H Hin) as [Hacc | (item' & Hin' & Hitem')].
    + destruct r as [dev|]; [|by left].
      apply elem_of_app in Hacc as [Hacc | Hnew]; [by left|].
      apply list_elem_of_singleton in Hnew as ->.
      right. exists item. split; [left | assumption].
    + right. exists item'. split; [by right | assumption].
Qed.

(** Every device of a published listing is the image of its own [raw]
    host record. *)
Lemma getProjectTopology_kept outcome device :
  device ∈ data (getProjectTopology outcome) →
  processHost (raw device) = normal (Some device).
Proof.
  unfold getProjectTopology.
  destruct (tryTopology outcome) as [r|e] eqn:Htry; simpl; [|by intros ?%elem_of_nil].
  intros Hin. unfold tryTopology in Htry.
  destruct outcome as [e|response]; [discriminate|].
  destruct (ok response); simpl in Htry.
  - destruct (truthy (default JNull (json response))); simpl in Htry; [|discriminate].
    apply bind_normal in Htry as (rawDataData & _ & Htry).
    destruct (truthy rawDataData); simpl in Htry; [|discriminate].
    apply bind_normal in Htry as (list & _ & Htry).
    destruct list; try discriminate.
    apply bind_normal in Htry as (processed & Hprocessed & Htry).
    apply bind_normal in Htry as (rawCode & _ & Htry).
    injection Htry as <-. simpl in Hin.
    destruct (forEach_kept _ _ _ _ Hprocessed Hin) as [Hnil | (item & _ & Hitem)].
    + by apply elem_of_nil in Hnil.
    + eauto using processItem_kept.
  - injection Htry as <-. simpl in Hin. by apply elem_of_nil in Hin.
Qed.

(** ** Characterising the two resolutions *)

Lemma deviceState_member d state :
  deviceState d = normal state →
  state = or (Readings.member d "device_state") (JObject []).
Proof.
  unfold deviceState. intros H.
  apply bind_normal in H as (ds & Hds & H). injection H as <-.
  by rewrite (get_member _ _ _ Hds).
Qed.

Lemma position_cases d state lat lng :
  position d state = normal (lat, lng) →
  ∃ live_lat live_lng,
    number_or_zero (Readings.member state "latitude") = normal live_lat ∧
    number_or_zero (Readings.member state "longitude") = normal live_lng ∧
    let offline := Readings.member d "device_offline_position" in
    if number_eq live_lat 0%float && number_eq live_lng 0%float && truthy offline
    then number_or_zero (Readings.member offline "latitude") = normal lat ∧
         number_or_zero (Readings.member offline "longitude") = normal lng
    else lat = live_lat ∧ lng = live_lng.
Proof.
  unfold position. intros H.
  apply bind_normal in H as (la & Hla & H).
  apply bind_normal in H as (live_lat & Hlat & H).
  apply bind_normal in H as (lo & Hlo & H).
  apply bind_normal in H as (live_lng & Hlng & H).
  apply bind_normal in H as (offline & Hoff & H).
  apply get_member in Hla as ->. apply get_member in Hlo as ->.
  apply get_member in Hoff as ->.
  exists live_lat, live_lng. split; [assumption|]. split; [assumption|]. simpl.
  destruct (number_eq live_lat 0 && number_eq live_lng 0
            && truthy (Readings.member d "device_offline_position")).
  - apply bind_normal in H as (la' & Hla' & H).
    apply bind_normal in H as (lat' & Hlat' & H).
    apply bind_normal in H as (lo' & Hlo' & H).
    apply bind_normal in H as (lng' & Hlng' & H).
    apply get_member in Hla' as ->. apply get_member in Hlo' as ->.
    injection H as <- <-. auto.
  - injection H as <- <-. auto.
Qed.

Lemma batteryPercent_cases state bp :
  batteryPercent state = normal bp → Readings.battery_resolved state bp.
Proof.
  unfold batteryPercent, Readings.battery_resolved. intros H.
  apply bind_normal in H as (battery & Hbattery & H).
  apply get_member in Hbattery as ->. simpl.
  set (battery := Readings.member state "battery") in *.
  destruct (truthy battery) eqn:Htruthy.
  - apply bind_normal in H as (direct & Hdirect & H).
    apply bind_normal in H as (batteries & Hbatteries & H).
    apply get_member in Hdirect as ->. apply get_member in Hbatteries as ->.
    set (direct := Readings.member battery "capacity_percent") in *.
    set (batteries := Readings.member battery "batteries") in *.
    destruct (nullish direct) eqn:Hnull; simpl.
    + unfold coalesce in H. rewrite Hnull in H. simpl in H.
      destruct batteries as [| | | | |[|first rest]|]; simpl in H;
        try (injection H as <-; reflexivity).
      apply bind_normal in H as (c & Hc & H). apply get_member in Hc as ->.
      by injection H as <-.
    + unfold coalesce in H. rewrite Hnull in H.
      destruct (strict_eq_number direct 0) eqn:Hzero; simpl in *.
      * destruct batteries as [| | | | |[|first rest]|]; simpl in H;
          try (injection H as <-; assumption).
        apply bind_normal in H as (c & Hc & H). apply get_member in Hc as ->.
        by injection H as <-.
      * by injection H as <-.
  - injection H as <-.
    destruct battery as [| |[]|n|s| |]; simpl in *; try discriminate; try reflexivity.
Qed.

(** ** The properties of the normaliser *)


(** C7. For a device of the published listing, the battery percentage in
    its telemetry is the direct [capacity_percent] of the battery record of
    the host's [device_state] when that member is present and is not 0;
    when it is 0 or absent it is the [capacity_percent] of the first entry
    of a non-empty [batteries] list (0 when that entry has none); and it is
    0 otherwise. The two listed inputs, as the battery record of a host,
    give 55 and 40. *)
Theorem battery_resolution :
  (∀ outcome device t,
     device ∈ data (getProjectTopology outcome) →
     telemetry device = Some t →
     Readings.battery_resolved (Readings.state_record (raw device)) (battery_percent t)) ∧
  (∃ device t,
     Readings.member (Readings.state_record Samples.parked_drone) "battery"
     = Samples.battery_fallback ∧
     processHost Samples.parked_drone = normal (Some device) ∧
     telemetry device = Some t ∧
     battery_percent t = JNumber 55%float) ∧
  (∃ device t,
     Readings.member (Readings.state_record Samples.airborne_no_fix) "battery"
     = Samples.battery_direct ∧
     processHost Samples.airborne_no_fix = normal (Some device) ∧
     telemetry device = Some t ∧
     battery_percent t = JNumber 40%float).
Proof.
  split; [|split; eexists _, _; vm_compute; repeat split; reflexivity].
  intros outcome device t Hin Ht. apply getProjectTopology_kept in Hin.
  apply processHost_kept in Hin
    as (n & state & lat & lng & bp & _ & _ & _ & Hstate & _ & Hbp & Hraw & Htel).
  apply deviceState_member in Hstate. unfold Readings.state_record. rewrite <- Hstate.
  assert (battery_percent t = bp) as ->.
  { destruct (nonzero lat || nonzero lng || status device).
    - destruct Htel as (t' & Ht' & Hbuild). rewrite Ht in Ht'. injection Ht' as <-.
      by apply buildTelemetry_fields in Hbuild as (_ & _ & ?).
    - congruence. }
  by apply batteryPercent_cases.
Qed.

(** C8. For a device of the published listing that has telemetry, the
    position is the live latitude and longitude of the host's
    [device_state], except that when both are exactly 0 and an offline
    position is recorded the position is the one recorded there; with both
    0 and no offline position the zeros stay. A live (0, 0) with offline
    position (12.3, 45.6) gives (12.3, 45.6). *)
Theorem position_resolution :
  (∀ outcome device t,
     device ∈ data (getProjectTopology outcome) →
     telemetry device = Some t →
     Readings.position_resolved (raw device) (latitude t) (longitude t)) ∧
  (∃ device t,
     Readings.member (Readings.state_record Samples.parked_drone) "latitude"
     = JNumber 0%float ∧
     Readings.member (Readings.state_record Samples.parked_drone) "longitude"
     = JNumber 0%float ∧
     processHost Samples.parked_drone = normal (Some device) ∧
     telemetry device = Some t ∧
     latitude t = 12.3%float ∧ longitude t = 45.6%float).
Proof.
  split.
  - intros outcome device t Hin Ht. apply getProjectTopology_kept in Hin.
    apply processHost_kept in Hin
      as (n & state & lat & lng & bp & _ & _ & _ & Hstate & Hpos & _ & Hraw & Htel).
    assert (latitude t = lat ∧ longitude t = lng) as [-> ->].
    { destruct (nonzero lat || nonzero lng || status device).
      - destruct Htel as (t' & Ht' & Hbuild). rewrite Ht in Ht'. injection Ht' as <-.
        apply buildTelemetry_fields in Hbuild as (? & ? & _). auto.
      - congruence. }
    apply deviceState_member in Hstate.
    apply position_cases in Hpos as (live_lat & live_lng & Hlat & Hlng & Hcases).
    exists live_lat, live_lng. unfold Readings.state_record, Readings.reading.
    rewrite <- Hstate. unfold number_or_zero in *.
    repeat (split; [assumption|]).
    simpl in *.
    destruct (number_eq live_lat 0 && number_eq live_lng 0); simpl in Hcases;
      [destruct (truthy _)|]; assumption.
  - eexists _, _. vm_compute. repeat split; reflexivity.
Qed.

(** The guard on the domain code: every device of a published listing has
    [Number(domainVal)] 0, and a listing yields the same devices with or
    without an entry for which it is not 0. *)
Lemma nonzero_code_is_skipped :
  (∀ outcome device,
     device ∈ data (getProjectTopology outcome) →
     ∃ n, domain_code (raw device) = normal n ∧ nonzero n = false) ∧
  (∀ item d n before after processedDevices,
     get item "host" = normal d →
     domain_code d = normal n →
     nonzero n = true →
     processItem item = normal None ∧
     forEach (before ++ item :: after) processedDevices
     = forEach (before ++ after) processedDevices).
Proof.
  split.
  - intros outcome device Hin. apply getProjectTopology_kept in Hin.
    apply processHost_kept in Hin as (n & ? & ? & ? & ? & Hn & Hz & _).
    eauto.
  - intros item d n before after acc Hd Hn Hz.
    assert (processItem item = normal None) as Hskip.
    { unfold processItem. rewrite Hd. simpl.
      destruct (truthy d); simpl; [|reflexivity].
      unfold processHost. rewrite Hn. simpl. by rewrite Hz. }
    split; [assumption|].
    revert acc. induction before as [|x before IH]; intros acc; simpl.
    + by rewrite Hskip.
    + destruct (processItem x) as [r|e]; simpl; [apply IH | reflexivity].
Qed.

(** C9 does not hold of the code. The dock below has no [domain] of its
    own, the [domain] of its model record is [null], and its model key
    starts with 3, so the domain code the claim resolves is 3. The source
    takes [d.domain ?? d.device_model?.domain], which is [null], reads the
    model key only when that value [=== undefined], and compares
    [Number(null)], which is 0: the dock is published as a drone. *)
Theorem null_model_domain_publishes_dock :
  Readings.domain_chain MoreSamples.unclassed_dock = normal 3%float ∧
  nonzero 3%float = true ∧
  domain_code MoreSamples.unclassed_dock = normal 0%float ∧
  ∃ device,
    processItem (Samples.entry MoreSamples.unclassed_dock) = normal (Some device) ∧
    raw device = MoreSamples.unclassed_dock ∧
    device_sn device = "4TADK7E001003Q" ∧
    data (getProjectTopology
            (Samples.listing (JNumber 0%float) [Samples.entry MoreSamples.unclassed_dock]))
    = [device].
Proof.
  split; [reflexivity|]. split; [reflexivity|]. split; [reflexivity|].
  eexists. split; [reflexivity|]. split; [reflexivity|]. split; reflexivity.
Qed.

End Normaliser.

(** ** The properties at the sample fleet *)


Lemma battery_resolution_witness :
  Samples.parked_device
  ∈ data (@apiService.getProjectTopology ReferenceEngine.engine Samples.fleet) ∧
  ∃ t, telemetry Samples.parked_device = Some t ∧
       Readings.member (Readings.state_record (raw Samples.parked_device)) "battery"
       = Samples.battery_fallback ∧
       Readings.battery_resolved (Readings.state_record (raw Samples.parked_device))
         (battery_percent t).
Proof.
  assert (Samples.parked_device
          ∈ data (@apiService.getProjectTopology ReferenceEngine.engine Samples.fleet)) as H.
  { vm_compute. left. }
  split; [exact H|].
  eexists. split; [reflexivity|]. split; [reflexivity|].
  exact (proj1 (@battery_resolution ReferenceEngine.engine) Samples.fleet
           Samples.parked_device _ H eq_refl).
Defined.

Lemma position_resolution_witness :
  MoreSamples.relief_device
  ∈ data (@apiService.getProjectTopology ReferenceEngine.engine
            (Samples.listing (JS.JNumber 0%float) [Samples.entry MoreSamples.relief_drone])) ∧
  Readings.member (Readings.state_record (raw MoreSamples.relief_device)) "latitude"
  = JS.JNumber 12.31%float ∧
  ∃ t, telemetry MoreSamples.relief_device = Some t ∧
    @Readings.position_resolved ReferenceEngine.engine (raw MoreSamples.relief_device)
      (latitude t) (longitude t).
Proof.
  assert (MoreSamples.relief_device
          ∈ data (@apiService.getProjectTopology ReferenceEngine.engine
                    (Samples.listing (JS.JNumber 0%float)
                       [Samples.entry MoreSamples.relief_drone]))) as H.
  { vm_compute. left. }
  split; [exact H|]. split; [reflexivity|].
  eexists. split; [reflexivity|].
  exact (proj1 (@position_resolution ReferenceEngine.engine) _
           MoreSamples.relief_device _ H eq_refl).
Defined.

(* ===================================================================== *)
(** * Poller: what one cycle and a sequence of cycles publish             *)
(* ===================================================================== *)

Section Poller.
Import JS App.

Lemma settle_health isBackground now r st :
  isLinkHealthy (fetchDevices_settle isBackground now r st) = classify r.
Proof.
  unfold fetchDevices_settle, classify.
  destruct r as [[response|]|]; destruct isBackground; simpl;
    repeat (match goal with |- context [if ?b then _ else _] => destruct b end; simpl);
    reflexivity.
Qed.

Lemma settle_published isBackground now response st :
  strict_eq_number (code response) 0%float = true →
  devices (fetchDevices_settle isBackground now (Fulfilled (Some response)) st)
  = data response.
Proof.
  intros Hcode. unfold fetchDevices_settle. rewrite Hcode.
  by destruct isBackground.
Qed.

Lemma settle_kept isBackground now r st :
  classify r ≠ healthy →
  devices (fetchDevices_settle isBackground now r st) = devices st ∧
  lastPollTime (fetchDevices_settle isBackground now r st) = lastPollTime st.
Proof.
  unfold fetchDevices_settle, classify.
  destruct r as [[response|]|]; destruct isBackground; simpl;
    repeat (match goal with |- context [if ?b then _ else _] => destruct b end; simpl);
    intros H; try (by destruct H); auto.
Qed.

Lemma issue_devices isBackground st :
  devices (fetchDevices_issue isBackground st) = devices st ∧
  lastPollTime (fetchDevices_issue isBackground st) = lastPollTime st.
Proof. by destruct isBackground. Qed.

Lemma step_kept st e :
  Readings.publishes e = false → devices (step st e) = devices st.
Proof.
  destruct e as [f | f now r]; simpl; intros Hp.
  - apply issue_devices.
  - apply settle_kept. unfold classify.
    destruct r as [[response|]|]; simpl in *; try discriminate.
    rewrite Hp. by destruct (auth_signal response).
Qed.

Lemma run_kept st trace :
  Forall (λ e, Readings.publishes e = false) trace → devices (run st trace) = devices st.
Proof.
  unfold run. revert st. induction trace as [|e trace IH]; intros st Hall; simpl.
  - reflexivity.
  - inversion Hall as [|? ? He Hrest]; subst.
    rewrite (IH _ Hrest). by apply step_kept.
Qed.

(** A cycle whose topology call threw inside its [try] block (no
    connection, a body without a host list, an entry that throws) answers
    with code -1 and is never classified healthy. *)
Lemma thrown_not_healthy {E : Engine} outcome error :
  apiService.tryTopology outcome = throw error →
  classify (Fulfilled (Some (apiService.getProjectTopology outcome))) ≠ healthy.
Proof.
  intros Hthrow. unfold apiService.getProjectTopology. rewrite Hthrow.
  unfold classify. simpl.
  by destruct (auth_signal _).
Qed.

(** C3. A cycle that is classified unauthorized or unhealthy leaves the
    published devices (and the time of the last successful poll) as they
    were and records its classification as the link health; a foreground
    cycle also clears its loading flag. This holds for every way the
    awaited call can settle, and so for a whole cycle against the
    upstream; a cycle whose topology call throws inside its [try] block
    (no connection, a body without a host list, an entry that throws) is
    such a cycle. *)
Theorem failed_poll_keeps_snapshot :
  (∀ isBackground now r st,
     classify r ≠ healthy →
     let st' := fetchDevices_settle isBackground now r st in
     devices st' = devices st ∧
     lastPollTime st' = lastPollTime st ∧
     isLinkHealthy st' = classify r ∧
     isLoadingDevices st' = isBackground && isLoadingDevices st) ∧
  (∀ (E : Engine) isBackground now outcome st,
     isLinkHealthy (poll isBackground now outcome st) ≠ healthy →
     devices (poll isBackground now outcome st) = devices st ∧
     lastPollTime (poll isBackground now outcome st) = lastPollTime st) ∧
  (∀ (E : Engine) isBackground now outcome error st,
     apiService.tryTopology outcome = throw error →
     isLinkHealthy (poll isBackground now outcome st) ≠ healthy ∧
     devices (poll isBackground now outcome st) = devices st).
Proof.
  assert (∀ (E : Engine) isBackground now outcome st,
     isLinkHealthy (poll isBackground now outcome st) ≠ healthy →
     devices (poll isBackground now outcome st) = devices st ∧
     lastPollTime (poll isBackground now outcome st) = lastPollTime st) as Hpoll.
  { intros E isBackground now outcome st. unfold poll.
    rewrite settle_health. intros Hr.
    destruct (settle_kept isBackground now _ (fetchDevices_issue isBackground st) Hr) as [-> ->].
    apply issue_devices. }
  split; [|split].
  - intros isBackground now r st Hr. simpl.
    destruct (settle_kept isBackground now r st Hr) as [Hd Ht].
    repeat split; [assumption | assumption | apply settle_health |].
    unfold fetchDevices_settle.
    destruct isBackground; simpl; [|reflexivity].
    destruct r as [[response|]|]; simpl;
      repeat (match goal with |- context [if ?b then _ else _] => destruct b end; simpl);
      reflexivity.
  - exact Hpoll.
  - intros E isBackground now outcome error st Hthrow.
    assert (isLinkHealthy (poll isBackground now outcome st) ≠ healthy) as Hr.
    { unfold poll. rewrite settle_health. eapply thrown_not_healthy, Hthrow. }
    split; [exact Hr | by apply Hpoll].
Qed.

Lemma failed_poll_keeps_snapshot_witness :
  classify (Fulfilled (Some (@apiService.getProjectTopology ReferenceEngine.engine
                               Samples.rejected_token))) ≠ healthy ∧
  devices (fetchDevices_settle true 3000%float
             (Fulfilled (Some (@apiService.getProjectTopology ReferenceEngine.engine
                                 Samples.rejected_token)))
             (run initial Samples.overtaken))
  = devices (run initial Samples.overtaken).
Proof.
  assert (classify (Fulfilled (Some (@apiService.getProjectTopology ReferenceEngine.engine
                                       Samples.rejected_token))) ≠ healthy) as H.
  { vm_compute. discriminate. }
  split; [exact H|].
  exact (proj1 (proj1 failed_poll_keeps_snapshot true 3000%float _
                  (run initial Samples.overtaken) H)).
Defined.

(** What the topology call answers for an HTTP 2xx body that passes the
    structure check and whose entries normalise without throwing. *)
Lemma getProjectTopology_listing {E : Engine} response items processedDevices :
  apiService.ok response = true →
  Readings.host_list response = Some items →
  apiService.forEach items [] = normal processedDevices →
  apiService.getProjectTopology (apiService.Responded response)
  = {| code := or (Readings.embedded_code response) (JNumber 0%float);
       message := match processedDevices with [] => "No drones detected" | _ => "Success" end;
       data := processedDevices |}.
Proof.
  intros Hok Hlist Hitems.
  unfold apiService.getProjectTopology, apiService.tryTopology.
  unfold Readings.host_list, Readings.embedded_code in *.
  rewrite Hok. simpl.
  destruct (apiService.json response) as [rawData|]; [|discriminate]. simpl in *.
  destruct (truthy rawData) eqn:Hraw; simpl in *; [|discriminate].
  destruct (truthy (Readings.member rawData "data")) eqn:Hdata; [|discriminate].
  destruct rawData as [| | | | | |props]; simpl in Hdata; try discriminate.
  simpl in *. rewrite Hdata. simpl.
  destruct (own_property "data" props) as [| | | | | |dprops]; simpl in Hlist; try discriminate.
  simpl.
  destruct (own_property "list" dprops); try discriminate.
  injection Hlist as ->. simpl. by rewrite Hitems.
Qed.

(** What it answers for an HTTP 2xx body that fails the structure check. *)
Lemma getProjectTopology_invalid {E : Engine} response :
  apiService.ok response = true →
  Readings.host_list response = None →
  apiService.getProjectTopology (apiService.Responded response)
  = {| code := JNumber (-1)%float;
       message := "Error: Invalid topology response structure";
       data := [] |}.
Proof.
  intros Hok Hlist.
  unfold apiService.getProjectTopology, apiService.tryTopology.
  unfold Readings.host_list in Hlist.
  rewrite Hok. simpl.
  destruct (apiService.json response) as [rawData|]; simpl; [|reflexivity].
  destruct (truthy rawData) eqn:Hraw; simpl in *; [|reflexivity].
  destruct rawData as [| | | | | |props]; simpl in *; try reflexivity; try discriminate.
  destruct (truthy (own_property "data" props)) eqn:Hdata; simpl; [|reflexivity].
  destruct (own_property "data" props) as [| | | | | |dprops]; simpl in *;
    try reflexivity; try discriminate.
  destruct (own_property "list" dprops); try reflexivity; discriminate.
Qed.

(** Where the authorisation signal is read. A response object whose code
    is not 0 and that carries the signal (code 200401, or a message
    containing "401") is classified unauthorized, and the snapshot is
    kept; an HTTP 200 answer whose body has a well-formed host list, the
    embedded code 200401, and entries that normalise without throwing
    reaches that branch whatever the list holds. *)
Lemma auth_signal_is_unauthorized :
  (∀ isBackground now response st,
     strict_eq_number (code response) 0%float = false →
     auth_signal response = true →
     let st' := fetchDevices_settle isBackground now (Fulfilled (Some response)) st in
     isLinkHealthy st' = unauthorized ∧ devices st' = devices st) ∧
  (∀ (E : Engine) isBackground now response items processedDevices st,
     apiService.ok response = true →
     Readings.host_list response = Some items →
     Readings.embedded_code response = JNumber 200401%float →
     apiService.forEach items [] = normal processedDevices →
     let st' := poll isBackground now (apiService.Responded response) st in
     isLinkHealthy st' = unauthorized ∧ devices st' = devices st).
Proof.
  assert (∀ isBackground now response st,
     strict_eq_number (code response) 0%float = false →
     auth_signal response = true →
     let st' := fetchDevices_settle isBackground now (Fulfilled (Some response)) st in
     isLinkHealthy st' = unauthorized ∧ devices st' = devices st) as Hsettle.
  { intros isBackground now response st Hcode Hauth. simpl.
    assert (classify (Fulfilled (Some response)) = unauthorized) as Hc.
    { unfold classify. by rewrite Hcode, Hauth. }
    split.
    - by rewrite settle_health.
    - apply settle_kept. by rewrite Hc. }
  split; [exact Hsettle|].
  intros E isBackground now response items processed st Hok Hlist Hcode Hitems.
  unfold poll.
  rewrite (getProjectTopology_listing _ _ _ Hok Hlist Hitems), Hcode.
  destruct (Hsettle isBackground now
              {| code := or (JNumber 200401%float) (JNumber 0%float);
                 message := match processed with [] => "No drones detected" | _ => "Success" end;
                 data := processed |} (fetchDevices_issue isBackground st)) as [Hh Hd];
    [reflexivity | reflexivity |].
  simpl in *. split; [assumption|]. rewrite Hd. apply issue_devices.
Qed.

(** C4 does not hold of the code. An HTTP 200 answer whose body is
    [{"code": 200401, "message": "Unauthorized"}] embeds the
    authorisation failure code, but it has no host list:
    [getProjectTopology] throws at the structure check before it reads
    [rawData.code], answers code -1 with the text of that error, and the
    cycle sets the link health to unhealthy. *)
Theorem embedded_auth_code_without_list_is_unhealthy (E : Engine) :
  Samples.rejected_token
  = apiService.Responded
      {| apiService.ok := true; apiService.http_status := 200; apiService.text := "";
         apiService.json := Some (JObject [("code", JNumber 200401%float);
                                           ("message", JString "Unauthorized")]) |} ∧
  apiService.getProjectTopology Samples.rejected_token
  = {| code := JNumber (-1)%float;
       message := "Error: Invalid topology response structure";
       data := [] |} ∧
  ∀ isBackground now st,
    isLinkHealthy (poll isBackground now Samples.rejected_token st) = unhealthy ∧
    devices (poll isBackground now Samples.rejected_token st) = devices st.
Proof.
  split; [reflexivity|]. split; [reflexivity|].
  intros isBackground now st. unfold poll.
  assert (apiService.getProjectTopology Samples.rejected_token
          = {| code := JNumber (-1)%float;
               message := "Error: Invalid topology response structure";
               data := [] |}) as -> by reflexivity.
  set (r := Fulfilled (Some _)).
  assert (classify r = unhealthy) as Hr by reflexivity.
  split.
  - by rewrite settle_health.
  - destruct (settle_kept isBackground now r (fetchDevices_issue isBackground st))
      as [-> _]; [by rewrite Hr|].
    apply issue_devices.
Qed.

(** C2, as the source has it: completions are applied in the order in
    which they arrive. Whatever was issued or completed before, once a
    fetch completes with code 0 its data is the published snapshot until
    another fetch completes with code 0; issue order plays no part. *)
Theorem last_completed_success_is_published st before f now response after :
  strict_eq_number (code response) 0%float = true →
  Forall (λ e, Readings.publishes e = false) after →
  devices (run st (before ++ Complete f now (Fulfilled (Some response)) :: after))
  = data response.
Proof.
  intros Hcode Hafter. unfold run.
  rewrite fold_left_app. simpl.
  fold (run (fetchDevices_settle (isBackground f) now (Fulfilled (Some response))
               (fold_left step before st)) after).
  rewrite run_kept by assumption.
  by apply settle_published.
Qed.

Lemma last_completed_success_is_published_witness :
  strict_eq_number (JNumber 0%float) 0%float = true ∧
  devices (run initial Samples.overtaken) = Samples.fleet_devices.
Proof.
  split; [reflexivity|].
  exact (last_completed_success_is_published initial
           [Issue Samples.first_fetch; Issue Samples.second_fetch;
            Complete Samples.second_fetch 2000%float (Samples.success Samples.later_devices)]
           Samples.first_fetch 2100%float
           {| code := JNumber 0%float; message := "Success"; data := Samples.fleet_devices |}
           [] eq_refl (Forall_nil_2 _)).
Defined.

(** C2 as stated fails: fetch #1 is issued before fetch #2 and completes
    after it, both with code 0, and the snapshot left published is that of
    fetch #1. *)
Lemma stale_completion_overwrites :
  (App.seq Samples.first_fetch < App.seq Samples.second_fetch)%nat ∧
  Samples.overtaken
  = [Issue Samples.first_fetch; Issue Samples.second_fetch;
     Complete Samples.second_fetch 2000%float (Samples.success Samples.later_devices);
     Complete Samples.first_fetch 2100%float (Samples.success Samples.fleet_devices)] ∧
  devices (run initial Samples.overtaken) = Samples.fleet_devices ∧
  devices (run initial Samples.overtaken) ≠ Samples.later_devices.
Proof.
  split; [unfold Samples.first_fetch, Samples.second_fetch; simpl; lia|].
  split; [reflexivity|]. split; [reflexivity|].
  intros H. apply (f_equal length) in H. vm_compute in H. discriminate.
Qed.

End Poller.

(* ===================================================================== *)
(** * Marker reconciler: the table after a pass and the calls it makes    *)
(* ===================================================================== *)

Section Reconciler.
Import JS MapPicker.
Context {E : Engine}.

Implicit Types (device : Device) (t : DeviceTelemetry) (r : Run)
  (table : gmap string Marker) (sn : string).

Lemma renderable_spec device :
  renderable device = true ↔
  ∃ t, telemetry device = Some t ∧
       (nonzero (latitude t) = true ∨ nonzero (longitude t) = true).
Proof.
  unfold renderable. destruct (telemetry device) as [t|]; split.
  - intros H%orb_true_iff. eauto.
  - intros (t' & [= <-] & H). by apply orb_true_iff.
  - discriminate.
  - intros (t' & [=] & _).
Qed.

Lemma rendered_serials_cons device devices :
  Readings.rendered_serials (device :: devices)
  = if renderable device
    then device_sn device :: Readings.rendered_serials devices
    else Readings.rendered_serials devices.
Proof.
  unfold Readings.rendered_serials. rewrite filter_cons.
  destruct (renderable device); by case_decide.
Qed.

Lemma elem_of_rendered_serials sn devices :
  sn ∈ Readings.rendered_serials devices ↔
  ∃ device, device ∈ devices ∧ device_sn device = sn ∧ renderable device = true.
Proof.
  unfold Readings.rendered_serials. rewrite list_elem_of_fmap. split.
  - intros (device & -> & [? ?]%list_elem_of_filter). eauto.
  - intros (device & ? & <- & ?). exists device. split; [done|].
    by apply list_elem_of_filter.
Qed.

Lemma renderDevice_skip device r :
  renderable device = false → renderDevice device r = Some r.
Proof.
  unfold renderable, renderDevice.
  destruct (telemetry device) as [t|]; [intros ->|]; reflexivity.
Qed.

Lemma renderDevice_render device r r' :
  renderable device = true →
  renderDevice device r = Some r' →
  ∃ t content marker made,
    telemetry device = Some t ∧
    popupContent device t = normal content ∧
    placeMarker device t content (markersMap r !! device_sn device) = Some (marker, made) ∧
    r' = {| markersMap := <[device_sn device := marker]> (markersMap r);
            activeSns := {[device_sn device]} ∪ activeSns r;
            calls := calls r ++ made |}.
Proof.
  unfold renderable, renderDevice.
  destruct (telemetry device) as [t|]; [|discriminate].
  intros ->. intros (content & Hcontent & ([marker made] & Hplace & [= <-])%bind_Some)%bind_Some.
  destruct (popupContent device t) as [c|e] eqn:Hc; [|discriminate].
  injection Hcontent as ->. eauto 8.
Qed.


(** A device on which the callback throws ends the loop, wherever it
    stands in the list. *)
Lemma forEach_aborts devices device :
  device ∈ devices →
  (∀ r, renderDevice device r = None) →
  ∀ r, forEach devices r = None.
Proof.
  intros Hin Hthrows.
  induction devices as [|first rest IH]; intros r; [by apply elem_of_nil in Hin|].
  simpl. apply elem_of_cons in Hin as [<- | Hin].
  - by rewrite Hthrows.
  - destruct (renderDevice first r); simpl; [by apply IH | done].
Qed.

(** Whichever branch runs, the marker tracked afterwards shows the
    device. *)
Lemma placeMarker_shows device t content found marker made :
  popupContent device t = normal content →
  placeMarker device t content found = Some (marker, made) → Readings.shows device t marker.
Proof.
  intros Hcontent.
  unfold placeMarker, updateMarker, createMarker, toLatLng, Readings.shows, isNaN, number_eq.
  rewrite Hcontent.
  destruct found as [old|].
  - destruct (negb (PrimFloat.eqb (latlng old).1 (latitude t))
              || negb (PrimFloat.eqb (latlng old).2 (longitude t))) eqn:Hmoved; simpl.
    + destruct (PrimFloat.eqb (latitude t) (latitude t)) eqn:Hlat;
        destruct (PrimFloat.eqb (longitude t) (longitude t)) eqn:Hlon; simpl;
        try discriminate.
      intros [= <- <-]. simpl. auto.
    + intros [= <- <-]. simpl.
      apply orb_false_iff in Hmoved as [Hlat%negb_false_iff Hlon%negb_false_iff]. auto.
  - destruct (PrimFloat.eqb (latitude t) (latitude t)) eqn:Hlat;
      destruct (PrimFloat.eqb (longitude t) (longitude t)) eqn:Hlon; simpl;
      try discriminate.
    intros [= <- <-]. simpl. auto.
Qed.

(** A marker that already shows the device is left as it is: no move, and
    the three refreshing calls write back what it has. *)
Lemma placeMarker_settled device t table marker :
  table !! device_sn device = Some marker →
  Readings.shows device t marker →
  ∃ made, placeMarker device t (popup marker) (Some marker) = Some (marker, made) ∧
          Forall (Readings.rewrites_same table) made.
Proof.
  intros Hlookup (Hlat & Hlon & Hicon & Hz & Hpopup).
  unfold placeMarker, updateMarker. unfold number_eq in *.
  rewrite Hlat, Hlon. simpl.
  assert ({| latlng := latlng marker;
             icon := createIcon device (yaw t); zIndexOffset := zIndexFor device;
             popup := popup marker; popupOpen := popupOpen marker |} = marker) as ->.
  { rewrite <- Hicon, <- Hz. by destruct marker. }
  eexists. split; [reflexivity|].
  repeat constructor; simpl.
  - rewrite Hlookup. simpl. by rewrite Hicon.
  - destruct (popupOpen marker) eqn:Hopen; simpl; rewrite Hlookup; simpl;
      by rewrite Hopen.
  - rewrite Hlookup. simpl. by rewrite Hz.
Qed.

Lemma placeMarker_completes device t content found :
  isNaN (latitude t) = false → isNaN (longitude t) = false →
  is_Some (placeMarker device t content found).
Proof.
  intros Hlat Hlon. unfold placeMarker, updateMarker, createMarker, toLatLng.
  rewrite Hlat, Hlon. simpl.
  destruct found as [old|]; [|eauto].
  destruct (negb _ || negb _); simpl; eauto.
Qed.

(** ** The device loop *)

Lemma forEach_active devices r r' :
  forEach devices r = Some r' →
  activeSns r' = activeSns r ∪ list_to_set (Readings.rendered_serials devices).
Proof.
  revert r. induction devices as [|device rest IH]; intros r; simpl.
  - intros [= <-]. set_solver.
  - intros (r1 & Hrender & Hrest)%bind_Some.
    rewrite rendered_serials_cons, (IH _ Hrest).
    destruct (renderable device) eqn:Hr.
    + apply renderDevice_render in Hrender as (t & content & marker & made & _ & _ & _ & ->); [|done].
      simpl. set_solver.
    + rewrite renderDevice_skip in Hrender by done. injection Hrender as <-. done.
Qed.

Lemma forEach_dom devices r r' :
  forEach devices r = Some r' →
  dom (markersMap r') = dom (markersMap r) ∪ list_to_set (Readings.rendered_serials devices).
Proof.
  revert r. induction devices as [|device rest IH]; intros r; simpl.
  - intros [= <-]. set_solver.
  - intros (r1 & Hrender & Hrest)%bind_Some.
    rewrite rendered_serials_cons, (IH _ Hrest).
    destruct (renderable device) eqn:Hr.
    + apply renderDevice_render in Hrender as (t & content & marker & made & _ & _ & _ & ->); [|done].
      simpl. rewrite dom_insert_L. set_solver.
    + rewrite renderDevice_skip in Hrender by done. injection Hrender as <-. done.
Qed.

(** A serial number that no rendered device carries keeps its entry. *)
Lemma forEach_frame devices r r' sn :
  forEach devices r = Some r' →
  sn ∉ Readings.rendered_serials devices →
  markersMap r' !! sn = markersMap r !! sn.
Proof.
  revert r. induction devices as [|device rest IH]; intros r; simpl.
  - by intros [= <-].
  - intros (r1 & Hrender & Hrest)%bind_Some. rewrite rendered_serials_cons.
    destruct (renderable device) eqn:Hr.
    + intros Hsn. apply not_elem_of_cons in Hsn as [Hne Hsn].
      rewrite (IH _ Hrest Hsn).
      apply renderDevice_render in Hrender as (t & content & marker & made & _ & _ & _ & ->); [|done].
      simpl. by rewrite lookup_insert_ne.
    + intros Hsn. rewrite (IH _ Hrest Hsn).
      rewrite renderDevice_skip in Hrender by done. by injection Hrender as <-.
Qed.

(** With pairwise distinct serial numbers, every rendered device is shown
    by its marker when the loop ends. *)
Lemma forEach_shows devices r r' :
  forEach devices r = Some r' →
  NoDup (Readings.rendered_serials devices) →
  ∀ device t, device ∈ devices → telemetry device = Some t → renderable device = true →
    ∃ marker, markersMap r' !! device_sn device = Some marker ∧ Readings.shows device t marker.
Proof.
  revert r. induction devices as [|first rest IH]; intros r; simpl.
  - intros _ _ device t Hin. by apply elem_of_nil in Hin.
  - intros (r1 & Hrender & Hrest)%bind_Some Hnodup device t Hin Ht Hr.
    rewrite rendered_serials_cons in Hnodup.
    apply elem_of_cons in Hin as [-> | Hin].
    + rewrite Hr in Hnodup. apply NoDup_cons in Hnodup as [Hfresh _].
      rewrite (forEach_frame _ _ _ _ Hrest Hfresh).
      apply renderDevice_render in Hrender
        as (t' & content & marker & made & Ht' & Hcontent & Hplace & ->); [|done].
      rewrite Ht in Ht'. injection Ht' as <-.
      simpl. rewrite lookup_insert_eq.
      eauto using placeMarker_shows.
    + apply (IH r1); try done.
      destruct (renderable first); [by apply NoDup_cons in Hnodup as [_ ?] | done].
Qed.

(** A table in which every rendered device is already shown goes through
    the loop unchanged, and every call made writes back what is there. *)
Lemma forEach_settled devices table :
  (∀ device t, device ∈ devices → telemetry device = Some t → renderable device = true →
     ∃ marker, table !! device_sn device = Some marker ∧ Readings.shows device t marker) →
  ∀ active made,
    ∃ made',
      forEach devices {| markersMap := table; activeSns := active; calls := made |}
      = Some {| markersMap := table;
                activeSns := active ∪ list_to_set (Readings.rendered_serials devices);
                calls := made ++ made' |} ∧
      Forall (Readings.rewrites_same table) made'.
Proof.
  induction devices as [|device rest IH]; intros Hshown active made; simpl.
  - exists []. split; [|constructor]. rewrite app_nil_r. do 2 f_equal. set_solver.
  - rewrite rendered_serials_cons.
    destruct (renderable device) eqn:Hr.
    + pose proof Hr as (t & Ht & _)%renderable_spec.
      destruct (Hshown device t) as (marker & Hlookup & Hshows); [left | done | done |].
      destruct (placeMarker_settled _ _ _ _ Hlookup Hshows) as (made1 & Hplace & Hsame).
      assert (renderDevice device {| markersMap := table; activeSns := active; calls := made |}
              = Some {| markersMap := table; activeSns := {[device_sn device]} ∪ active;
                        calls := made ++ made1 |}) as ->.
      { unfold renderDevice. rewrite Ht.
        unfold renderable in Hr. rewrite Ht in Hr. rewrite Hr. simpl.
        rewrite (proj2 (proj2 (proj2 (proj2 Hshows)))). simpl.
        rewrite Hlookup, Hplace. simpl. by rewrite insert_id. }
      simpl.
      destruct (IH (λ d t' Hin, Hshown d t' (list_elem_of_further _ _ _ Hin))
                  ({[device_sn device]} ∪ active) (made ++ made1)) as (made2 & -> & Hsame2).
      exists (made1 ++ made2). split.
      * rewrite app_assoc. do 2 f_equal. set_solver.
      * by apply Forall_app.
    + rewrite renderDevice_skip by done. simpl.
      apply IH. intros d t' Hin. apply Hshown. by right.
Qed.

(** In the model the loop completes when, for every device with
    telemetry, the template does not throw and no coordinate is [NaN]. *)
Lemma forEach_completes devices r :
  (∀ device t, device ∈ devices → telemetry device = Some t →
     isNaN (latitude t) = false ∧ isNaN (longitude t) = false ∧
     ∃ content, popupContent device t = normal content) →
  is_Some (forEach devices r).
Proof.
  revert r. induction devices as [|device rest IH]; intros r Hfinite; simpl; [eauto|].
  assert (is_Some (renderDevice device r)) as [r1 ->].
  { unfold renderDevice. destruct (telemetry device) as [t|] eqn:Ht; [|eauto].
    destruct (nonzero _ || nonzero _); [|eauto].
    destruct (Hfinite device t) as (Hlat & Hlon & content & ->); [left | done |].
    simpl.
    destruct (placeMarker_completes device t content (markersMap r !! device_sn device)
                Hlat Hlon) as [[marker made] ->].
    simpl. eauto. }
  simpl. apply IH. intros d t Hin. apply Hfinite. by right.
Qed.

(** While every rendered serial number is tracked, the loop neither
    creates a marker nor adds one to the map. *)
Lemma forEach_updates_only devices r r' :
  forEach devices r = Some r' →
  (∀ sn, sn ∈ Readings.rendered_serials devices → is_Some (markersMap r !! sn)) →
  ∃ made, calls r' = calls r ++ made ∧
          Forall (λ c, Readings.creates_or_removes c = false) made.
Proof.
  revert r. induction devices as [|device rest IH]; intros r; simpl.
  - intros [= <-] _. exists []. by rewrite app_nil_r.
  - intros (r1 & Hrender & Hrest)%bind_Some Htracked.
    rewrite rendered_serials_cons in Htracked.
    destruct (renderable device) eqn:Hr.
    + apply renderDevice_render in Hrender
        as (t & content & marker & made & _ & _ & Hplace & ->); [|done].
      destruct (Htracked (device_sn device)) as [old Hold]; [left|].
      rewrite Hold in Hplace.
      destruct (IH _ Hrest) as (made' & -> & Hmade').
      { intros sn Hsn. simpl. apply lookup_insert_is_Some'. right.
        apply Htracked. by right. }
      simpl. exists (made ++ made'). split; [by rewrite app_assoc|].
      apply Forall_app. split; [|done].
      unfold placeMarker, updateMarker in Hplace.
      apply bind_Some in Hplace as ([p moved] & Hmoved & [= _ <-]). simpl.
      apply Forall_app. split.
      * destruct (negb _ || negb _); simpl in Hmoved.
        -- apply bind_Some in Hmoved as (p' & _ & [= _ <-]). by repeat constructor.
        -- injection Hmoved as _ <-. constructor.
      * repeat constructor. by destruct (popupOpen old).
    + rewrite renderDevice_skip in Hrender by done. injection Hrender as <-.
      by apply IH.
Qed.

(** ** The sweep and the whole effect *)

Lemma effect_inv table devices made table' :
  deviceMarkerEffect true table devices = Some (made, table') →
  ∃ r, forEach devices {| markersMap := table; activeSns := ∅; calls := [] |} = Some r ∧
       activeSns r = list_to_set (Readings.rendered_serials devices) ∧
       made = calls r ++ (remove <$> (map_to_list (stale r)).*1) ∧
       table' = filter (λ kv, kv.1 ∈ activeSns r) (markersMap r).
Proof.
  unfold deviceMarkerEffect. simpl.
  intros (r & Hloop & [= <- <-])%bind_Some.
  exists r. repeat split; [done|].
  rewrite (forEach_active _ _ _ Hloop). simpl. set_solver.
Qed.

Lemma effect_lookup table devices made table' sn :
  deviceMarkerEffect true table devices = Some (made, table') →
  is_Some (table' !! sn) ↔ sn ∈ Readings.rendered_serials devices.
Proof.
  intros (r & Hloop & Hactive & _ & ->)%effect_inv.
  pose proof (forEach_dom _ _ _ Hloop) as Hdom. simpl in Hdom.
  split.
  - intros [marker [_ Hin]%map_lookup_filter_Some]. simpl in Hin.
    rewrite Hactive in Hin. by apply elem_of_list_to_set in Hin.
  - intros Hsn.
    assert (sn ∈ dom (markersMap r)) as [marker Hmarker]%elem_of_dom.
    { rewrite Hdom. apply elem_of_union_r. by apply elem_of_list_to_set. }
    exists marker. apply map_lookup_filter_Some. split; [done|]. simpl.
    rewrite Hactive. by apply elem_of_list_to_set.
Qed.

Lemma effect_removes table devices made table' sn :
  deviceMarkerEffect true table devices = Some (made, table') →
  is_Some (table !! sn) →
  sn ∉ Readings.rendered_serials devices →
  remove sn ∈ made.
Proof.
  intros (r & Hloop & Hactive & -> & _)%effect_inv [marker Hmarker] Hsn.
  apply elem_of_app. right.
  apply list_elem_of_fmap_2.
  apply list_elem_of_fmap. exists (sn, marker). split; [done|].
  apply elem_of_map_to_list. unfold stale.
  apply map_lookup_filter_Some. split.
  - rewrite (forEach_frame _ _ _ _ Hloop Hsn). done.
  - simpl. rewrite Hactive. by rewrite elem_of_list_to_set.
Qed.

Lemma effect_completes table devices :
  (∀ device t, device ∈ devices → telemetry device = Some t →
     isNaN (latitude t) = false ∧ isNaN (longitude t) = false ∧
     ∃ content, popupContent device t = normal content) →
  is_Some (deviceMarkerEffect true table devices).
Proof.
  intros Hfinite. unfold deviceMarkerEffect. simpl.
  destruct (forEach_completes devices
              {| markersMap := table; activeSns := ∅; calls := [] |} Hfinite) as [r ->].
  simpl. eauto.
Qed.


(** C6, as the source has it. Running the effect again on the snapshot it
    has just reconciled never creates a marker, adds one to the map or
    removes one, and tracks the same serial numbers afterwards. When the
    rendered devices have pairwise distinct serial numbers the second run
    also moves no marker and leaves the table as the first run left it:
    its only calls are [setIcon], [setZIndexOffset] and [bindPopup] or
    [setContent], each writing back the value the marker already has. *)
Theorem second_pass_only_rewrites :
  (∀ table devices made table1 made' table2,
     deviceMarkerEffect true table devices = Some (made, table1) →
     deviceMarkerEffect true table1 devices = Some (made', table2) →
     Forall (λ c, Readings.creates_or_removes c = false) made' ∧
     dom table2 = dom table1) ∧
  (∀ table devices made table1,
     deviceMarkerEffect true table devices = Some (made, table1) →
     NoDup (Readings.rendered_serials devices) →
     ∃ made',
       deviceMarkerEffect true table1 devices = Some (made', table1) ∧
       Forall (Readings.rewrites_same table1) made').
Proof.
  split.
  - intros table devices made table1 made' table2 Heffect Heffect'.
    assert (∀ sn, is_Some (table1 !! sn) ↔ is_Some (table2 !! sn)) as Hsame.
    { intros sn.
      by rewrite (effect_lookup _ _ _ _ sn Heffect), (effect_lookup _ _ _ _ sn Heffect'). }
    split.
    + pose proof Heffect' as (r & Hloop & Hactive & -> & _)%effect_inv.
      destruct (forEach_updates_only _ _ _ Hloop) as (updates & Hcalls & Hupdates).
      { intros sn Hsn. simpl. by apply (effect_lookup _ _ _ _ sn Heffect). }
      simpl in Hcalls. rewrite Hcalls.
      assert (stale r = ∅) as ->.
      { apply map_eq. intros sn. rewrite lookup_empty. unfold stale.
        apply map_lookup_filter_None. right. intros marker Hmarker Hnot. simpl in Hnot.
        apply Hnot. rewrite Hactive. apply elem_of_list_to_set.
        pose proof (forEach_dom _ _ _ Hloop) as Hdom. simpl in Hdom.
        assert (sn ∈ dom (markersMap r)) as Hin by (apply elem_of_dom; eauto).
        rewrite Hdom in Hin. apply elem_of_union in Hin as [Hin|Hin].
        - apply elem_of_dom in Hin. by apply (effect_lookup _ _ _ _ sn Heffect).
        - by apply elem_of_list_to_set in Hin. }
      rewrite map_to_list_empty. simpl. by rewrite app_nil_r.
    + apply set_eq. intros sn. rewrite !elem_of_dom. symmetry. apply Hsame.
  - intros table devices made table1 Heffect Hnodup.
    pose proof Heffect as (r & Hloop & Hactive & _ & Htable1)%effect_inv.
    assert (∀ device t, device ∈ devices → telemetry device = Some t →
              renderable device = true →
              ∃ marker, table1 !! device_sn device = Some marker ∧
                        Readings.shows device t marker) as Hshown.
    { intros device t Hin Ht Hr.
      destruct (forEach_shows _ _ _ Hloop Hnodup device t Hin Ht Hr)
        as (marker & Hmarker & Hshows).
      exists marker. split; [|done]. rewrite Htable1.
      apply map_lookup_filter_Some. split; [done|]. simpl. rewrite Hactive.
      apply elem_of_list_to_set, elem_of_rendered_serials. eauto. }
    destruct (forEach_settled devices table1 Hshown ∅ []) as (made' & Hloop' & Hsame).
    exists made'. split; [|done].
    unfold deviceMarkerEffect. simpl. rewrite Hloop'. simpl.
    unfold sweep, stale. simpl.
    assert (∀ sn marker, table1 !! sn = Some marker →
              sn ∈ (∅ ∪ list_to_set (Readings.rendered_serials devices) : gset string))
      as Hkeys.
    { intros sn marker Hmarker. apply elem_of_union_r, elem_of_list_to_set.
      eapply effect_lookup; [exact Heffect | eauto]. }
    assert (filter (λ kv : string * Marker,
                      kv.1 ∉ (∅ ∪ list_to_set (Readings.rendered_serials devices) : gset string))
              table1 = ∅) as ->.
    { apply map_eq. intros sn. rewrite lookup_empty.
      apply map_lookup_filter_None. right. intros marker Hmarker Hnot. simpl in Hnot.
      eauto. }
    rewrite map_to_list_empty. simpl. rewrite app_nil_r.
    do 2 f_equal. apply map_filter_id. intros sn marker Hmarker. simpl. eauto.
Qed.

(** C10. A response with code 0 and no device replaces the published
    snapshot by the empty list, and the effect run on that snapshot empties
    the marker table and removes from the map every marker it held. This
    is what a cycle does with an HTTP 2xx answer whose body passes the
    structure check, has code 0 (or none) and a host list that yields no
    drone. *)
Theorem empty_listing_clears_map :
  (∀ isBackground now response st table,
     strict_eq_number (code response) 0%float = true →
     data response = [] →
     let st' := App.fetchDevices_settle isBackground now (App.Fulfilled (Some response)) st in
     App.devices st' = [] ∧
     App.isLinkHealthy st' = App.healthy ∧
     ∃ made,
       deviceMarkerEffect true table (App.devices st') = Some (made, ∅) ∧
       ∀ sn, is_Some (table !! sn) → remove sn ∈ made) ∧
  (∀ (E : Engine) isBackground now response items st,
     apiService.ok response = true →
     Readings.host_list response = Some items →
     apiService.forEach items [] = normal [] →
     strict_eq_number (or (Readings.embedded_code response) (JNumber 0%float)) 0%float = true →
     let st' := App.poll isBackground now (apiService.Responded response) st in
     App.devices st' = [] ∧ App.isLinkHealthy st' = App.healthy).
Proof.
  split.
  - intros isBackground now response st table Hcode Hdata. simpl.
    rewrite (settle_published _ _ _ _ Hcode), Hdata.
    split; [done|]. split.
    { rewrite settle_health. unfold App.classify. by rewrite Hcode. }
    destruct (effect_completes table []) as [[made table'] Heffect].
    { intros device t Hin. by apply elem_of_nil in Hin. }
    assert (table' = ∅) as ->.
    { apply map_eq. intros sn. rewrite lookup_empty. apply eq_None_not_Some.
      rewrite (effect_lookup _ _ _ _ sn Heffect). apply not_elem_of_nil. }
    exists made. split; [done|].
    intros sn Htracked. eapply effect_removes; eauto. apply not_elem_of_nil.
  - intros E' isBackground now response items st Hok Hlist Hitems Hcode. simpl.
    unfold App.poll. rewrite (getProjectTopology_listing _ _ _ Hok Hlist Hitems).
    split.
    + by rewrite settle_published.
    + rewrite settle_health. unfold App.classify. simpl. by rewrite Hcode.
Qed.

End Reconciler.



(** C6 as stated fails: right after a first run on the sample fleet, a
    second run on the same snapshot calls [setIcon], [bindPopup] and
    [setZIndexOffset] on the marker of the parked drone. *)
Lemma second_pass_makes_calls :
  ∃ t content made',
    telemetry Samples.parked_device = Some t ∧
    @MapPicker.popupContent ReferenceEngine.engine Samples.parked_device t
    = JS.normal content ∧
    @MapPicker.deviceMarkerEffect ReferenceEngine.engine true ∅ Samples.fleet_devices
    = Some (Samples.fleet_calls, Samples.fleet_markers) ∧
    @MapPicker.deviceMarkerEffect ReferenceEngine.engine true Samples.fleet_markers
      Samples.fleet_devices
    = Some (made', Samples.fleet_markers) ∧
    made' = [MapPicker.setIcon "1581F5BKD2250"
               (MapPicker.createIcon Samples.parked_device (yaw t));
             MapPicker.bindPopup "1581F5BKD2250" content;
             MapPicker.setZIndexOffset "1581F5BKD2250" 500].
Proof.
  eexists _, _, _. split; [reflexivity|]. split; [vm_compute; reflexivity|].
  split; [vm_compute; reflexivity|].
  split; vm_compute; reflexivity.
Qed.

Lemma second_pass_only_rewrites_witness :
  @MapPicker.deviceMarkerEffect ReferenceEngine.engine true ∅ Samples.fleet_devices
  = Some (Samples.fleet_calls, Samples.fleet_markers) ∧
  NoDup (Readings.rendered_serials Samples.fleet_devices) ∧
  ∃ made',
    @MapPicker.deviceMarkerEffect ReferenceEngine.engine true Samples.fleet_markers
      Samples.fleet_devices
    = Some (made', Samples.fleet_markers) ∧
    Forall (Readings.rewrites_same Samples.fleet_markers) made'.
Proof.
  assert (@MapPicker.deviceMarkerEffect ReferenceEngine.engine true ∅ Samples.fleet_devices
          = Some (Samples.fleet_calls, Samples.fleet_markers)) as H.
  { vm_compute. reflexivity. }
  assert (NoDup (Readings.rendered_serials Samples.fleet_devices)) as Hnodup.
  { apply NoDup_singleton. }
  split; [exact H|]. split; [exact Hnodup|].
  exact (proj2 (@second_pass_only_rewrites ReferenceEngine.engine) ∅ Samples.fleet_devices
           _ _ H Hnodup).
Defined.

Lemma empty_listing_clears_map_witness :
  JS.strict_eq_number (code Samples.no_drones) 0%float = true ∧
  data Samples.no_drones = [] ∧
  App.devices (App.fetchDevices_settle true 3000%float
                 (App.Fulfilled (Some Samples.no_drones))
                 (App.run App.initial Samples.overtaken)) = [] ∧
  ∃ made,
    @MapPicker.deviceMarkerEffect ReferenceEngine.engine true Samples.fleet_markers []
    = Some (made, ∅) ∧
    ∀ sn, is_Some (Samples.fleet_markers !! sn) → MapPicker.remove sn ∈ made.
Proof.
  split; [reflexivity|]. split; [reflexivity|].
  destruct (proj1 (@empty_listing_clears_map ReferenceEngine.engine) true 3000%float
              Samples.no_drones
              (App.run App.initial Samples.overtaken) Samples.fleet_markers
              eq_refl eq_refl) as (Hdevices & _ & Hmap).
  split; [exact Hdevices | exact Hmap].
Defined.

(* ===================================================================== *)
(** * More on the normaliser                                              *)
(* ===================================================================== *)

Section ListingFacts.
Import JS apiService.
Context {E : Engine}.

(** What the callback read to name a device it kept. *)
Lemma processHost_names d device :
  processHost d = normal (Some device) →
  truthy (Listing.serial d) = true ∧
  ToString (Listing.serial d) = normal (device_sn device) ∧
  ToString (Listing.callsign d) = normal (nickname device) ∧
  ToString (Listing.display_name d) = normal (device_model device) ∧
  domain device = 0%float.
Proof.
  unfold processHost. intros H.
  apply bind_normal in H as (n & Hn & H).
  destruct (nonzero n); [discriminate|].
  apply bind_normal in H as (sn1 & Hsn1 & H).
  apply bind_normal in H as (sn2 & Hsn2 & H).
  apply get_member in Hsn1 as ->. apply get_member in Hsn2 as ->.
  fold (Listing.serial d) in H.
  destruct (truthy (Listing.serial d)) eqn:Hsn; simpl in H; [|discriminate].
  apply bind_normal in H as (online & _ & H).
  apply bind_normal in H as (name & Hname & H).
  apply bind_normal in H as (project & Hproject & H).
  apply bind_normal in H as (organization & Horganization & H).
  apply get_member in Hproject as ->. apply get_member in Horganization as ->.
  assert (name = Listing.display_name d) as ->.
  { unfold modelName in Hname.
    apply bind_normal in Hname as (model & Hmodel & Hname).
    apply bind_normal in Hname as (nm & Hnm & Hname).
    apply bind_normal in Hname as (key & Hkey & Hname).
    apply get_member in Hmodel as ->.
    apply get_opt_member in Hnm as ->. apply get_opt_member in Hkey as ->.
    by injection Hname as <-. }
  fold (Listing.callsign d) in H.
  apply bind_normal in H as (state & _ & H).
  apply bind_normal in H as ([lat lng] & _ & H).
  apply bind_normal in H as (bp & _ & H).
  apply bind_normal in H as (tel & _ & H).
  apply bind_normal in H as (s1 & Hs1 & H).
  apply bind_normal in H as (s2 & Hs2 & H).
  apply bind_normal in H as (s3 & Hs3 & H).
  injection H as <-. simpl. auto.
Qed.

Lemma processItem_host item device :
  processItem item = normal (Some device) → raw device = Readings.member item "host".
Proof.
  unfold processItem. intros H.
  apply bind_normal in H as (d & Hd & H). apply get_member in Hd as ->.
  destruct (truthy _); simpl in H; [|discriminate].
  by apply processHost_kept in H as (? & ? & ? & ? & ? & _ & _ & _ & _ & _ & _ & ? & _).
Qed.

(** ** Composition *)

Lemma forEach_app before after processedDevices :
  forEach (before ++ after) processedDevices
  = forEach before processedDevices ≫= forEach after.
Proof.
  revert processedDevices. induction before as [|item before IH]; intros acc; simpl.
  - reflexivity.
  - destruct (processItem item) as [r|e]; simpl; [apply IH | reflexivity].
Qed.

(** Processing into an accumulator is processing from scratch and
    appending. *)
Lemma forEach_from items processedDevices :
  forEach items processedDevices
  = forEach items [] ≫= (λ out, mret (processedDevices ++ out)).
Proof.
  revert processedDevices. induction items as [|item items IH]; intros acc; simpl.
  - by rewrite app_nil_r.
  - destruct (processItem item) as [[device|]|e]; simpl; [|apply IH|reflexivity].
    rewrite (IH (acc ++ [device])), (IH [device]).
    destruct (forEach items []) as [out|e]; simpl; [|reflexivity].
    by rewrite <- app_assoc.
Qed.

Lemma forEach_throws items processedDevices item error :
  item ∈ items → processItem item = throw error →
  ∃ error', forEach items processedDevices = throw error'.
Proof.
  intros Hin Hthrow. revert processedDevices.
  induction items as [|first rest IH]; intros acc; [by apply elem_of_nil in Hin|].
  simpl. apply elem_of_cons in Hin as [<- | Hin].
  - rewrite Hthrow. simpl. eauto.
  - destruct (processItem first) as [r|e]; simpl; [by apply IH | eauto].
Qed.

Lemma forEach_sublist items out :
  forEach items [] = normal out → raw <$> out `sublist_of` Listing.hosts items.
Proof.
  revert out. induction items as [|item items IH]; intros out; simpl.
  - intros [= <-]. constructor.
  - intros H. apply bind_normal in H as (r & Hr & H).
    rewrite forEach_from in H. apply bind_normal in H as (rest & Hrest & H).
    injection H as <-. destruct r as [device|]; simpl.
    + rewrite (processItem_host _ _ Hr). apply sublist_skip. by apply IH.
    + apply sublist_cons. by apply IH.
Qed.

Lemma code_minus_one_not_healthy text devices :
  App.classify (App.Fulfilled (Some {| code := JNumber (-1)%float; message := text;
                                       data := devices |})) ≠ App.healthy.
Proof. unfold App.classify. simpl. by destruct (App.auth_signal _). Qed.

(** X1. Every device of a published listing is keyed: its host record has
    a truthy [device_sn || sn], and [device_sn] is the string of that
    value. An entry with neither serial number is never published. *)
Theorem published_device_is_keyed outcome device :
  device ∈ data (getProjectTopology outcome) →
  truthy (Listing.serial (raw device)) = true ∧
  ToString (Listing.serial (raw device)) = normal (device_sn device).
Proof.
  intros Hin. apply getProjectTopology_kept in Hin.
  by apply processHost_names in Hin as (? & ? & _).
Qed.

(** X2. The display names of a published device follow the fallback
    chains of the callback: the model name is the string of
    [device_model.name], else [device_model.key], else "Drone", and the
    nickname is the string of the project call sign, else the
    organisation call sign, else that model name. The value the model
    name is taken from is always truthy. *)
Theorem published_device_names outcome device :
  device ∈ data (getProjectTopology outcome) →
  ToString (Listing.display_name (raw device)) = normal (device_model device) ∧
  ToString (Listing.callsign (raw device)) = normal (nickname device) ∧
  truthy (Listing.display_name (raw device)) = true ∧
  truthy (Listing.callsign (raw device)) = true.
Proof.
  intros Hin. apply getProjectTopology_kept in Hin.
  apply processHost_names in Hin as (_ & _ & Hnick & Hmodel & _).
  assert (∀ d, truthy (Listing.display_name d) = true) as Hname.
  { intros d. unfold Listing.display_name, or.
    repeat match goal with |- context [if ?b then _ else _] => destruct b eqn:? end; auto. }
  repeat split; try assumption; [apply Hname|].
  unfold Listing.callsign, or.
  repeat match goal with |- context [if ?b then _ else _] => destruct b eqn:? end;
    auto using Hname.
Qed.

(** X3. The devices of a 2xx answer keep the order of its host list and
    invent nothing: their [raw] records are a subsequence of the host
    records of the entries. *)
Theorem published_devices_in_listing_order response items :
  ok response = true →
  Readings.host_list response = Some items →
  raw <$> data (getProjectTopology (Responded response)) `sublist_of` Listing.hosts items.
Proof.
  intros Hok Hlist.
  destruct (forEach items []) as [out|e] eqn:Hitems.
  - rewrite (getProjectTopology_listing _ _ _ Hok Hlist Hitems). simpl.
    by apply forEach_sublist.
  - assert (data (getProjectTopology (Responded response)) = []) as ->;
      [|apply sublist_nil_l].
    unfold getProjectTopology, tryTopology.
    unfold Readings.host_list in Hlist. rewrite Hok. simpl.
    destruct (json response) as [rawData|]; [|discriminate]. simpl in *.
    destruct (truthy rawData) eqn:Hraw; simpl in *; [|discriminate].
    destruct rawData as [| | | | | |props]; simpl in *; try discriminate.
    destruct (truthy (own_property "data" props)); simpl in *; [|discriminate].
    destruct (own_property "data" props) as [| | | | | |dprops]; simpl in *; try discriminate.
    destruct (own_property "list" dprops); try discriminate.
    injection Hlist as ->. simpl. by rewrite Hitems.
Qed.

(** X4. Listings compose: when two host lists each normalise without
    throwing, their concatenation normalises to the concatenation of
    their devices. *)
Theorem concatenated_listings_concatenate before after devices devices' :
  forEach before [] = normal devices →
  forEach after [] = normal devices' →
  forEach (before ++ after) [] = normal (devices ++ devices').
Proof.
  intros Hbefore Hafter. rewrite forEach_app, Hbefore. simpl.
  by rewrite forEach_from, Hafter.
Qed.

(** X5. One entry on which the callback throws (a [null] entry, a
    [device_model_key] that is not a string, a [null] first battery)
    discards the whole listing: the answer has code -1 and no device,
    whatever the other entries are, and the cycle that receives it keeps
    the published snapshot. *)
Theorem throwing_entry_discards_listing response items item error isBackground now st :
  ok response = true →
  Readings.host_list response = Some items →
  item ∈ items →
  processItem item = throw error →
  code (getProjectTopology (Responded response)) = JNumber (-1)%float ∧
  data (getProjectTopology (Responded response)) = [] ∧
  App.devices (App.poll isBackground now (Responded response) st) = App.devices st.
Proof.
  intros Hok Hlist Hin Hthrow.
  destruct (forEach_throws items [] item error Hin Hthrow) as [e He].
  assert (tryTopology (Responded response) = throw e) as Htry.
  { unfold tryTopology. unfold Readings.host_list in Hlist. rewrite Hok. simpl.
    destruct (json response) as [rawData|]; [|discriminate]. simpl in *.
    destruct (truthy rawData) eqn:Hraw; simpl in *; [|discriminate].
    destruct rawData as [| | | | | |props]; simpl in *; try discriminate.
    destruct (truthy (own_property "data" props)); simpl in *; [|discriminate].
    destruct (own_property "data" props) as [| | | | | |dprops]; simpl in *; try discriminate.
    destruct (own_property "list" dprops); try discriminate.
    injection Hlist as ->. simpl. by rewrite He. }
  assert (getProjectTopology (Responded response)
          = {| code := JNumber (-1)%float; message := exn_to_string e; data := [] |}) as Hr.
  { unfold getProjectTopology. by rewrite Htry. }
  rewrite Hr. simpl. repeat split.
  unfold App.poll. rewrite Hr.
  rewrite (proj1 (settle_kept isBackground now _ (App.fetchDevices_issue isBackground st)
                    (code_minus_one_not_healthy _ _))).
  apply issue_devices.
Qed.

End ListingFacts.

Lemma published_device_is_keyed_witness :
  Samples.airborne_device
  ∈ data (@apiService.getProjectTopology ReferenceEngine.engine Samples.fleet) ∧
  JS.truthy (Listing.serial (raw Samples.airborne_device)) = true ∧
  @JS.ToString ReferenceEngine.engine (Listing.serial (raw Samples.airborne_device))
  = JS.normal (device_sn Samples.airborne_device).
Proof.
  assert (Samples.airborne_device
          ∈ data (@apiService.getProjectTopology ReferenceEngine.engine Samples.fleet)) as H.
  { vm_compute. right. left. }
  split; [exact H|].
  exact (@published_device_is_keyed ReferenceEngine.engine Samples.fleet _ H).
Defined.

Lemma published_device_names_witness :
  Samples.parked_device
  ∈ data (@apiService.getProjectTopology ReferenceEngine.engine Samples.fleet) ∧
  @JS.ToString ReferenceEngine.engine (Listing.display_name (raw Samples.parked_device))
  = JS.normal (device_model Samples.parked_device) ∧
  @JS.ToString ReferenceEngine.engine (Listing.callsign (raw Samples.parked_device))
  = JS.normal (nickname Samples.parked_device) ∧
  JS.truthy (Listing.display_name (raw Samples.parked_device)) = true ∧
  JS.truthy (Listing.callsign (raw Samples.parked_device)) = true.
Proof.
  assert (Samples.parked_device
          ∈ data (@apiService.getProjectTopology ReferenceEngine.engine Samples.fleet)) as H.
  { vm_compute. left. }
  split; [exact H|].
  exact (@published_device_names ReferenceEngine.engine Samples.fleet _ H).
Defined.

Lemma published_devices_in_listing_order_witness :
  raw <$> data (@apiService.getProjectTopology ReferenceEngine.engine Samples.fleet)
  `sublist_of` Listing.hosts [Samples.entry Samples.parked_drone; Samples.entry Samples.dock;
                              Samples.entry Samples.airborne_no_fix;
                              Samples.entry Samples.dark_drone].
Proof.
  exact (@published_devices_in_listing_order ReferenceEngine.engine
           {| apiService.ok := true; apiService.http_status := 200; apiService.text := "";
              apiService.json :=
                Some (JS.JObject
                        [("code", JS.JNumber 0%float);
                         ("data", JS.JObject
                                    [("list", JS.JArray [Samples.entry Samples.parked_drone;
                                                         Samples.entry Samples.dock;
                                                         Samples.entry Samples.airborne_no_fix;
                                                         Samples.entry Samples.dark_drone])])]) |}
           _ eq_refl eq_refl).
Defined.

Lemma concatenated_listings_concatenate_witness :
  @apiService.forEach ReferenceEngine.engine
    ([Samples.entry Samples.parked_drone; Samples.entry Samples.dock]
     ++ [Samples.entry Samples.airborne_no_fix; Samples.entry Samples.dark_drone]) []
  = JS.normal ([Samples.parked_device] ++ Samples.airborne_device
               :: drop 2 Samples.fleet_devices).
Proof.
  apply (@concatenated_listings_concatenate ReferenceEngine.engine);
    vm_compute; reflexivity.
Defined.

Lemma throwing_entry_discards_listing_witness :
  @apiService.processItem ReferenceEngine.engine JS.JNull = JS.throw (JS.TypeError "host") ∧
  code (@apiService.getProjectTopology ReferenceEngine.engine
          (Samples.listing (JS.JNumber 0%float) [Samples.entry Samples.parked_drone; JS.JNull]))
  = JS.JNumber (-1)%float ∧
  data (@apiService.getProjectTopology ReferenceEngine.engine
          (Samples.listing (JS.JNumber 0%float) [Samples.entry Samples.parked_drone; JS.JNull]))
  = [] ∧
  App.devices (@App.poll ReferenceEngine.engine true 3000%float
                 (Samples.listing (JS.JNumber 0%float)
                    [Samples.entry Samples.parked_drone; JS.JNull])
                 (App.run App.initial Samples.overtaken))
  = App.devices (App.run App.initial Samples.overtaken).
Proof.
  split; [reflexivity|].
  apply (@throwing_entry_discards_listing ReferenceEngine.engine _
           [Samples.entry Samples.parked_drone; JS.JNull] JS.JNull (JS.TypeError "host")
           true 3000%float (App.run App.initial Samples.overtaken));
    [reflexivity | reflexivity | | reflexivity].
  right. left.
Defined.

(* ===================================================================== *)
(** * More on the topology call and the poller                            *)
(* ===================================================================== *)

Section PollerFacts.
Import JS apiService.
Context {E : Engine}.

(** A truthy value is not [=== 0]. *)
Lemma truthy_not_zero v : truthy v = true → strict_eq_number v 0%float = false.
Proof.
  destruct v; simpl; try reflexivity.
  intros [H _]%andb_true_iff. by apply negb_true_iff in H.
Qed.

(** The HTTP statuses are small integers, and none but 0 is the number 0. *)
Lemma status_not_zero (n : N) :
  (0 < n < 1000)%N → number_eq (number_of_N n) 0%float = false.
Proof.
  intros Hn.
  assert (forallb (λ k, negb (number_eq (number_of_N (N.of_nat k)) 0%float)) (seq 1 999) = true)
    as Hall by (vm_compute; reflexivity).
  rewrite forallb_forall in Hall.
  specialize (Hall (N.to_nat n)). rewrite N2Nat.id in Hall.
  apply negb_true_iff, Hall, in_seq. lia.
Qed.

Lemma errorResponse_code_not_zero response :
  (0 < http_status response < 1000)%N →
  strict_eq_number (code (errorResponse response)) 0%float = false.
Proof.
  intros Hstatus. unfold errorResponse. simpl.
  pose proof (status_not_zero _ Hstatus) as Hn.
  destruct (json response) as [errJson|]; [|exact Hn].
  destruct (get errJson "code") as [c|e]; [|exact Hn].
  destruct (truthy c) eqn:Hc; [by apply truthy_not_zero | exact Hn].
Qed.

Lemma getProjectTopology_error response :
  ok response = false →
  getProjectTopology (Responded response) = errorResponse response.
Proof. intros Hok. unfold getProjectTopology, tryTopology. by rewrite Hok. Qed.

(** X6. Devices are published only from a 2xx answer whose body passes
    the structure check and whose entries all normalise: whenever the
    answer of the topology call holds a device, the fetch was answered
    with [ok], the body has a host list, and the devices are those of that
    list. Every other path answers with no device. *)
Theorem devices_only_from_valid_listing outcome :
  data (getProjectTopology outcome) ≠ [] →
  ∃ response items,
    outcome = Responded response ∧
    ok response = true ∧
    Readings.host_list response = Some items ∧
    forEach items [] = normal (data (getProjectTopology outcome)).
Proof.
  unfold getProjectTopology.
  destruct (tryTopology outcome) as [r|e] eqn:Htry; simpl; [|done].
  intros Hdata. unfold tryTopology in Htry.
  destruct outcome as [e|response]; [discriminate|].
  exists response. unfold Readings.host_list.
  destruct (ok response); simpl in Htry; [|by injection Htry as <-].
  destruct (json response) as [rawData|]; simpl in Htry; [|discriminate].
  destruct (truthy rawData) eqn:Hraw; simpl in Htry; [|discriminate].
  apply bind_normal in Htry as (rawDataData & Hd & Htry). apply get_member in Hd as ->.
  destruct (truthy (Readings.member rawData "data")) eqn:Hdata'; simpl in Htry; [|discriminate].
  apply bind_normal in Htry as (list & Hl & Htry). apply get_member in Hl as ->.
  destruct (Readings.member (Readings.member rawData "data") "list") eqn:Hlist;
    try discriminate.
  apply bind_normal in Htry as (processed & Hprocessed & Htry).
  apply bind_normal in Htry as (rawCode & _ & Htry).
  injection Htry as <-. simpl. eauto.
Qed.

(** X7. A non-2xx answer is recognised as an authorisation failure in two
    ways: by its status 401, which the message quotes, and by a JSON body
    whose [code] is 200401. Either way the cycle sets the link health to
    unauthorized and keeps the published devices. *)
Theorem error_answer_auth_failure response isBackground now st :
  ok response = false →
  http_status response = 401%N ∨
    (∃ errJson, json response = Some errJson ∧
                Readings.member errJson "code" = JNumber 200401%float) →
  let st' := App.poll isBackground now (Responded response) st in
  App.isLinkHealthy st' = App.unauthorized ∧ App.devices st' = App.devices st.
Proof.
  intros Hok Hauth. simpl.
  assert (App.classify (App.Fulfilled (Some (errorResponse response))) = App.unauthorized)
    as Hclass.
  { destruct Hauth as [Hstatus | (errJson & Hjson & Hcode)].
    - unfold App.classify.
      rewrite errorResponse_code_not_zero by (rewrite Hstatus; lia).
      unfold App.auth_signal, errorResponse. simpl. rewrite Hstatus.
      replace (string_of_N 401) with "401" by reflexivity.
      by rewrite orb_true_r.
    - assert (code (errorResponse response) = JNumber 200401%float) as Hc.
      { unfold errorResponse. simpl. rewrite Hjson.
        destruct errJson; simpl in Hcode; try discriminate.
        simpl. by rewrite Hcode. }
      unfold App.classify, App.auth_signal. by rewrite Hc. }
  unfold App.poll. rewrite (getProjectTopology_error _ Hok). split.
  - by rewrite settle_health.
  - rewrite (proj1 (settle_kept isBackground now _ (App.fetchDevices_issue isBackground st)
                      ltac:(by rewrite Hclass))).
    apply issue_devices.
Qed.

(** X8. A non-2xx answer never replaces the snapshot: for every status
    from 1 to 999 the answer of the topology call has a code that is not
    0 and no device, so the cycle is not classified healthy and the
    published devices and the time of the last successful poll stay. *)
Theorem error_answer_never_publishes response isBackground now st :
  ok response = false →
  (0 < http_status response < 1000)%N →
  let st' := App.poll isBackground now (Responded response) st in
  data (getProjectTopology (Responded response)) = [] ∧
  App.isLinkHealthy st' ≠ App.healthy ∧
  App.devices st' = App.devices st ∧
  App.lastPollTime st' = App.lastPollTime st.
Proof.
  intros Hok Hstatus. simpl. unfold App.poll.
  rewrite (getProjectTopology_error _ Hok).
  assert (App.classify (App.Fulfilled (Some (errorResponse response))) ≠ App.healthy) as Hclass.
  { unfold App.classify. rewrite (errorResponse_code_not_zero _ Hstatus).
    by destruct (App.auth_signal _). }
  split; [reflexivity|]. split; [by rewrite settle_health|].
  destruct (settle_kept isBackground now _ (App.fetchDevices_issue isBackground st) Hclass)
    as [-> ->].
  apply issue_devices.
Qed.

End PollerFacts.

Section TraceFacts.
Import JS App.

Lemma step_issue_health st e :
  Listing.is_issue e = true → isLinkHealthy (step st e) = isLinkHealthy st.
Proof.
  destruct e as [f|]; [|discriminate]. intros _. simpl.
  unfold fetchDevices_issue. by destruct (isBackground f).
Qed.

Lemma run_issue_health st trace :
  Forall (λ e, Listing.is_issue e = true) trace →
  isLinkHealthy (run st trace) = isLinkHealthy st.
Proof.
  unfold run. revert st. induction trace as [|e trace IH]; intros st Hall; simpl.
  - reflexivity.
  - inversion Hall as [|? ? He Hrest]; subst.
    rewrite (IH _ Hrest). by apply step_issue_health.
Qed.

Lemma step_kept_time st e :
  Readings.publishes e = false → lastPollTime (step st e) = lastPollTime st.
Proof.
  destruct e as [f | f now r]; simpl; intros Hp.
  - apply issue_devices.
  - apply settle_kept. unfold classify.
    destruct r as [[response|]|]; simpl in *; try discriminate.
    rewrite Hp. by destruct (auth_signal response).
Qed.

Lemma run_kept_time st trace :
  Forall (λ e, Readings.publishes e = false) trace →
  lastPollTime (run st trace) = lastPollTime st.
Proof.
  unfold run. revert st. induction trace as [|e trace IH]; intros st Hall; simpl.
  - reflexivity.
  - inversion Hall as [|? ? He Hrest]; subst.
    rewrite (IH _ Hrest). by apply step_kept_time.
Qed.

(** X9. The link health always reflects the fetch that completed last:
    after any sequence of issues and completions it is the classification
    of the last completion, however many fetches were issued since. *)
Theorem health_is_last_completion st before f now r after :
  Forall (λ e, Listing.is_issue e = true) after →
  isLinkHealthy (run st (before ++ Complete f now r :: after)) = classify r.
Proof.
  intros Hafter. unfold run. rewrite fold_left_app. simpl.
  fold (run (fetchDevices_settle (isBackground f) now r (fold_left step before st)) after).
  rewrite run_issue_health by assumption.
  apply settle_health.
Qed.

(** X10. The time of the last successful poll goes with the snapshot:
    after any sequence of events it is the [Date.now()] of the completion
    whose devices are published, and completions that fail, as well as
    issues, leave both alone. *)
Theorem poll_time_goes_with_snapshot st before f now response after :
  strict_eq_number (code response) 0%float = true →
  Forall (λ e, Readings.publishes e = false) after →
  let st' := run st (before ++ Complete f now (Fulfilled (Some response)) :: after) in
  lastPollTime st' = now ∧ devices st' = data response ∧
  (∀ later, Readings.publishes later = false →
            lastPollTime (step st' later) = now ∧ devices (step st' later) = data response).
Proof.
  intros Hcode Hafter. simpl.
  assert (∀ trace, Forall (λ e, Readings.publishes e = false) trace →
            lastPollTime (run st (before ++ Complete f now (Fulfilled (Some response)) :: trace))
            = now ∧
            devices (run st (before ++ Complete f now (Fulfilled (Some response)) :: trace))
            = data response) as Hrun.
  { intros trace Htrace. unfold run. rewrite fold_left_app. simpl.
    fold (run (fetchDevices_settle (isBackground f) now (Fulfilled (Some response))
                 (fold_left step before st)) trace).
    rewrite run_kept_time, run_kept by assumption.
    split; [|by apply settle_published].
    unfold fetchDevices_settle. rewrite Hcode. by destruct (isBackground f). }
  destruct (Hrun after Hafter) as [Htime Hdevices].
  repeat split; try assumption.
  - rewrite step_kept_time by assumption. exact Htime.
  - rewrite step_kept by assumption. exact Hdevices.
Qed.

End TraceFacts.

Lemma devices_only_from_valid_listing_witness :
  data (@apiService.getProjectTopology ReferenceEngine.engine Samples.fleet) ≠ [] ∧
  ∃ response items,
    Samples.fleet = apiService.Responded response ∧
    apiService.ok response = true ∧
    Readings.host_list response = Some items ∧
    @apiService.forEach ReferenceEngine.engine items []
    = JS.normal (data (@apiService.getProjectTopology ReferenceEngine.engine Samples.fleet)).
Proof.
  assert (data (@apiService.getProjectTopology ReferenceEngine.engine Samples.fleet) ≠ [])
    as H by (vm_compute; discriminate).
  split; [exact H|].
  exact (@devices_only_from_valid_listing ReferenceEngine.engine Samples.fleet H).
Defined.

Lemma error_answer_auth_failure_witness :
  App.isLinkHealthy
    (@App.poll ReferenceEngine.engine true 3000%float
       (apiService.Responded {| apiService.ok := false; apiService.http_status := 401;
                                apiService.text := "Unauthorized";
                                apiService.json := None |})
       (App.run App.initial Samples.overtaken)) = App.unauthorized ∧
  App.devices
    (@App.poll ReferenceEngine.engine true 3000%float
       (apiService.Responded {| apiService.ok := false; apiService.http_status := 401;
                                apiService.text := "Unauthorized";
                                apiService.json := None |})
       (App.run App.initial Samples.overtaken))
  = App.devices (App.run App.initial Samples.overtaken).
Proof.
  exact (@error_answer_auth_failure ReferenceEngine.engine
           {| apiService.ok := false; apiService.http_status := 401;
              apiService.text := "Unauthorized"; apiService.json := None |}
           true 3000%float (App.run App.initial Samples.overtaken)
           eq_refl (or_introl eq_refl)).
Defined.

Lemma error_answer_never_publishes_witness :
  let response := {| apiService.ok := false; apiService.http_status := 502;
                     apiService.text := "Bad Gateway"; apiService.json := None |} in
  let st := App.run App.initial Samples.overtaken in
  let st' := @App.poll ReferenceEngine.engine false 3000%float
               (apiService.Responded response) st in
  data (@apiService.getProjectTopology ReferenceEngine.engine
          (apiService.Responded response)) = [] ∧
  App.isLinkHealthy st' ≠ App.healthy ∧
  App.devices st' = App.devices st ∧
  App.lastPollTime st' = App.lastPollTime st.
Proof.
  exact (@error_answer_never_publishes ReferenceEngine.engine
           {| apiService.ok := false; apiService.http_status := 502;
              apiService.text := "Bad Gateway"; apiService.json := None |}
           false 3000%float (App.run App.initial Samples.overtaken)
           eq_refl (conj eq_refl eq_refl)).
Defined.

Lemma health_is_last_completion_witness :
  App.isLinkHealthy
    (App.run App.initial
       ([App.Issue Samples.first_fetch; App.Issue Samples.second_fetch;
         App.Complete Samples.second_fetch 2000%float (Samples.success Samples.later_devices)]
        ++ App.Complete Samples.first_fetch 2100%float App.Rejected
           :: [App.Issue Samples.second_fetch; App.Issue Samples.first_fetch]))
  = App.classify App.Rejected.
Proof.
  apply health_is_last_completion.
  repeat constructor.
Defined.

Lemma poll_time_goes_with_snapshot_witness :
  let st' := App.run App.initial
               ([App.Issue Samples.first_fetch; App.Issue Samples.second_fetch]
                ++ App.Complete Samples.second_fetch 2000%float
                     (App.Fulfilled (Some {| code := JS.JNumber 0%float; message := "Success";
                                             data := Samples.later_devices |}))
                   :: [App.Complete Samples.first_fetch 2100%float App.Rejected]) in
  App.lastPollTime st' = 2000%float ∧ App.devices st' = Samples.later_devices ∧
  (∀ later, Readings.publishes later = false →
            App.lastPollTime (App.step st' later) = 2000%float ∧
            App.devices (App.step st' later) = Samples.later_devices).
Proof.
  apply (poll_time_goes_with_snapshot App.initial
           [App.Issue Samples.first_fetch; App.Issue Samples.second_fetch]
           Samples.second_fetch 2000%float
           {| code := JS.JNumber 0%float; message := "Success";
              data := Samples.later_devices |}
           [App.Complete Samples.first_fetch 2100%float App.Rejected]).
  - reflexivity.
  - repeat constructor.
Defined.

(* ===================================================================== *)
(** * More on the marker effect                                           *)
(* ===================================================================== *)

Section MarkerFacts.
Import JS MapPicker.
Context {E : Engine}.

Implicit Types (device : Device) (t : DeviceTelemetry) (r : Run)
  (table : gmap string Marker) (sn : string) (made : list Call).

(** What one placement calls: it creates the marker exactly when none was
    found, removes nothing, keeps the popup as the user left it, and binds
    a popup only to a marker whose popup is closed. *)
Lemma placeMarker_calls device t content0 found marker made :
  placeMarker device t content0 found = Some (marker, made) →
  Listing.removed made = [] ∧
  Listing.created made = match found with Some _ => [] | None => [device_sn device] end ∧
  popupOpen marker = from_option popupOpen false found ∧
  (∀ sn content, bindPopup sn content ∈ made →
                 sn = device_sn device ∧ from_option popupOpen false found = false).
Proof.
  unfold placeMarker, updateMarker, createMarker. destruct found as [old|]; simpl.
  - intros ([p moved] & Hmoved & [= <- <-])%bind_Some. simpl.
    assert (moved = [] ∨ ∃ q, moved = [setLatLng (device_sn device) q]) as Hcases.
    { destruct (negb _ || negb _); simpl in Hmoved.
      - apply bind_Some in Hmoved as (q & _ & [= _ <-]). eauto.
      - injection Hmoved as _ <-. auto. }
    assert (∀ sn content,
              bindPopup sn content
              ∈ moved ++ [setIcon (device_sn device) (createIcon device (yaw t));
                          if popupOpen old
                          then setContent (device_sn device) content0
                          else bindPopup (device_sn device) content0;
                          setZIndexOffset (device_sn device) (zIndexFor device)] →
              sn = device_sn device ∧ popupOpen old = false) as Hbind.
    { intros sn content Hin. set_unfold in Hin.
      destruct Hcases as [-> | [q ->]]; set_unfold in Hin;
        destruct (popupOpen old); naive_solver. }
    split_and!; [| |done|exact Hbind];
      destruct Hcases as [-> | [q ->]]; simpl; by destruct (popupOpen old).
  - intros (p & _ & [= <- <-])%bind_Some. simpl. split_and!; try done.
    intros sn content Hin. set_unfold in Hin. naive_solver.
Qed.

Lemma created_app made made' :
  Listing.created (made ++ made') = Listing.created made ++ Listing.created made'.
Proof. apply omap_app. Qed.

Lemma removed_app made made' :
  Listing.removed (made ++ made') = Listing.removed made ++ Listing.removed made'.
Proof. apply omap_app. Qed.

Lemma created_removes keys : Listing.created (remove <$> keys) = [].
Proof. induction keys; simpl; auto. Qed.

Lemma removed_removes keys : Listing.removed (remove <$> keys) = keys.
Proof. induction keys as [|k keys IH]; [done|]. unfold Listing.removed in *. simpl. by f_equal. Qed.

(** The loop over the devices creates one marker for every rendered serial
    number that is not tracked yet, and removes none. *)
Lemma forEach_created devices r r' :
  forEach devices r = Some r' →
  ∃ made, calls r' = calls r ++ made ∧
          Listing.removed made = [] ∧
          NoDup (Listing.created made) ∧
          (∀ sn, sn ∈ Listing.created made ↔
                 markersMap r !! sn = None ∧ sn ∈ Readings.rendered_serials devices).
Proof.
  revert r. induction devices as [|device rest IH]; intros r; simpl.
  - intros [= <-]. exists []. rewrite app_nil_r. split_and!; [done|done|constructor|].
    intros sn. split; [by intros ?%elem_of_nil | by intros [_ ?%elem_of_nil]].
  - intros (r1 & Hrender & Hrest)%bind_Some.
    rewrite rendered_serials_cons.
    destruct (renderable device) eqn:Hr.
    + apply renderDevice_render in Hrender as (t & content0 & marker & made & _ & _ & Hplace & ->); [|done].
      destruct (IH _ Hrest) as (made' & -> & Hremoved & Hnodup & Hcreated). simpl in *.
      apply placeMarker_calls in Hplace as (Hrm & Hcr & _ & _).
      exists (made ++ made'). rewrite app_assoc, removed_app, created_app, Hrm, Hremoved, Hcr.
      split_and!; [done|done| |].
      * destruct (markersMap r !! device_sn device) eqn:Hfound; simpl; [done|].
        constructor; [|done]. intros [Hnone _]%Hcreated.
        by rewrite lookup_insert_eq in Hnone.
      * intros sn. rewrite elem_of_app, Hcreated, elem_of_cons.
        destruct (decide (sn = device_sn device)) as [->|Hne].
        -- rewrite lookup_insert_eq.
           destruct (markersMap r !! device_sn device) eqn:Hfound; simpl.
           ++ split; [intros [?%elem_of_nil|[? _]]; done | intros [? _]; done].
           ++ split; [intros _; auto | intros _; left; left].
        -- rewrite lookup_insert_ne by done.
           destruct (markersMap r !! device_sn device) eqn:Hfound; simpl.
           ++ split; [intros [?%elem_of_nil|[? ?]]; [done | auto] | intros [? [?|?]]; [done|auto]].
           ++ split; [intros [?%list_elem_of_singleton|[? ?]]; [done | auto]
                     | intros [? [?|?]]; [done|auto]].
    + rewrite renderDevice_skip in Hrender by done. injection Hrender as <-.
      by apply IH.
Qed.

(** The loop leaves every popup as it was, starts a new marker with its
    popup closed, and binds a popup only where the popup was closed. *)
Lemma forEach_popups devices r r' :
  forEach devices r = Some r' →
  (∀ sn marker', markersMap r' !! sn = Some marker' →
                 popupOpen marker' = from_option popupOpen false (markersMap r !! sn)) ∧
  ∃ made, calls r' = calls r ++ made ∧
          ∀ sn content, bindPopup sn content ∈ made →
                        from_option popupOpen false (markersMap r !! sn) = false.
Proof.
  revert r. induction devices as [|device rest IH]; intros r; simpl.
  - intros [= <-]. split.
    + intros sn marker' ->. done.
    + exists []. rewrite app_nil_r. split; [done|]. by intros ? ? ?%elem_of_nil.
  - intros (r1 & Hrender & Hrest)%bind_Some.
    destruct (renderable device) eqn:Hr.
    + apply renderDevice_render in Hrender as (t & content0 & marker & made & _ & _ & Hplace & ->); [|done].
      destruct (IH _ Hrest) as (Hopen & made' & -> & Hbind). simpl in *.
      apply placeMarker_calls in Hplace as (_ & _ & Hmarker & Hmade).
      assert (∀ sn, from_option popupOpen false
                      (<[device_sn device := marker]> (markersMap r) !! sn)
                    = from_option popupOpen false (markersMap r !! sn)) as Hsame.
      { intros sn. destruct (decide (sn = device_sn device)) as [->|Hne].
        - by rewrite lookup_insert_eq.
        - by rewrite lookup_insert_ne. }
      split.
      * intros sn marker' Hlookup. by rewrite (Hopen _ _ Hlookup), Hsame.
      * exists (made ++ made'). split; [by rewrite app_assoc|].
        intros sn content [Hin|Hin]%elem_of_app.
        -- by apply Hmade in Hin as [-> ?].
        -- rewrite <- Hsame. by apply (Hbind _ content).
    + rewrite renderDevice_skip in Hrender by done. injection Hrender as <-.
      by apply IH.
Qed.

(** After the loop the marker of a rendered serial number shows a device
    of the list that has this serial number. *)
Lemma forEach_shown devices r r' sn marker :
  forEach devices r = Some r' →
  sn ∈ Readings.rendered_serials devices →
  markersMap r' !! sn = Some marker →
  ∃ device t, device ∈ devices ∧ device_sn device = sn ∧
              telemetry device = Some t ∧ Readings.shows device t marker.
Proof.
  revert r. induction devices as [|device rest IH]; intros r; simpl.
  - by intros _ ?%elem_of_nil.
  - intros (r1 & Hrender & Hrest)%bind_Some Hsn Hlookup.
    destruct (decide (sn ∈ Readings.rendered_serials rest)) as [Hin|Hout].
    + destruct (IH _ Hrest Hin Hlookup) as (d & t & Hd & ?). exists d, t.
      split; [by right | done].
    + rewrite rendered_serials_cons in Hsn.
      destruct (renderable device) eqn:Hr; [|done].
      apply elem_of_cons in Hsn as [->|Hsn]; [|done].
      apply renderDevice_render in Hrender
        as (t & content & placed & made & Ht & Hcontent & Hplace & ->); [|done].
      rewrite (forEach_frame _ _ _ _ Hrest Hout) in Hlookup. simpl in Hlookup.
      rewrite lookup_insert_eq in Hlookup. injection Hlookup as <-.
      exists device, t. split; [left|]. split; [done|]. split; [done|].
      by eapply placeMarker_shows.
Qed.

(** X11. The effect never touches the state of a popup: a marker that
    survives a run has its popup open exactly when it was open before, a
    marker created by the run starts with its popup closed, and no popup
    is bound anew to a marker whose popup is open (its content is set in
    place instead). *)
Theorem popup_state_survives_update table devices made table' :
  deviceMarkerEffect true table devices = Some (made, table') →
  (∀ sn marker', table' !! sn = Some marker' →
                 popupOpen marker' = from_option popupOpen false (table !! sn)) ∧
  (∀ sn marker content, table !! sn = Some marker → popupOpen marker = true →
                        bindPopup sn content ∉ made).
Proof.
  intros (r & Hloop & _ & -> & ->)%effect_inv.
  apply forEach_popups in Hloop as (Hopen & made' & Hcalls & Hbind). simpl in *.
  split.
  - intros sn marker' [Hlookup _]%map_lookup_filter_Some. by apply Hopen.
  - intros sn marker content Hlookup Hmarker Hin. rewrite Hcalls in Hin.
    apply elem_of_app in Hin as [Hin|Hin].
    + apply Hbind in Hin. rewrite Hlookup in Hin. simpl in Hin. congruence.
    + apply list_elem_of_fmap in Hin as (? & [=] & _).
Qed.

(** X12. A run creates and removes exactly what changed: [L.marker] is
    called for the rendered serial numbers that were not tracked, once
    each, and [remove] for the tracked serial numbers that are no longer
    rendered, once each. A marker of a device that is still rendered is
    never taken off the map and put back. *)
Theorem markers_created_and_removed_exactly table devices made table' :
  deviceMarkerEffect true table devices = Some (made, table') →
  (∀ sn, sn ∈ Listing.created made ↔
         table !! sn = None ∧ sn ∈ Readings.rendered_serials devices) ∧
  (∀ sn, sn ∈ Listing.removed made ↔
         is_Some (table !! sn) ∧ sn ∉ Readings.rendered_serials devices) ∧
  NoDup (Listing.created made) ∧
  NoDup (Listing.removed made).
Proof.
  intros (r & Hloop & Hactive & -> & _)%effect_inv.
  pose proof (forEach_dom _ _ _ Hloop) as Hdom.
  pose proof (λ sn, forEach_frame _ _ _ sn Hloop) as Hframe.
  apply forEach_created in Hloop as (made' & Hcalls & Hremoved & Hnodup & Hcreated).
  simpl in *. rewrite Hcalls, created_app, removed_app, created_removes, removed_removes,
    Hremoved, app_nil_r. simpl.
  assert (∀ sn, sn ∈ (map_to_list (stale r)).*1 ↔
                is_Some (table !! sn) ∧ sn ∉ Readings.rendered_serials devices) as Hstale.
  { intros sn. unfold stale. rewrite Hactive. split.
    - intros ([k marker] & -> & Hin)%list_elem_of_fmap.
      apply elem_of_map_to_list, map_lookup_filter_Some in Hin as [Hlookup Hout].
      simpl in *. rewrite elem_of_list_to_set in Hout.
      split; [|done]. rewrite <- (Hframe _ Hout). eauto.
    - intros [[marker Hlookup] Hout].
      apply list_elem_of_fmap. exists (sn, marker). split; [done|].
      apply elem_of_map_to_list, map_lookup_filter_Some. split.
      + by rewrite (Hframe _ Hout).
      + simpl. by rewrite elem_of_list_to_set. }
  repeat split; try apply Hcreated; try apply Hstale; try done.
  apply NoDup_fst_map_to_list.
Qed.

(** X13. What stands on the map after a run is the snapshot: every marker
    the table tracks shows a device of the list with that serial number,
    at its position and with its icon, z-order and popup content. No
    marker keeps what an earlier snapshot said. *)
Theorem tracked_marker_shows_snapshot table devices made table' sn marker :
  deviceMarkerEffect true table devices = Some (made, table') →
  table' !! sn = Some marker →
  ∃ device t, device ∈ devices ∧ device_sn device = sn ∧
              telemetry device = Some t ∧ Readings.shows device t marker.
Proof.
  intros Heffect Hlookup.
  assert (sn ∈ Readings.rendered_serials devices) as Hsn
    by (apply (effect_lookup _ _ _ _ _ Heffect); eauto).
  apply effect_inv in Heffect as (r & Hloop & _ & _ & ->).
  apply map_lookup_filter_Some in Hlookup as [Hlookup _].
  by eapply forEach_shown.
Qed.

(** In a snapshot with distinct serial numbers the marker of a device is
    its own: after a run the table tracks the serial number of a device of
    the list exactly when the device is rendered, and the marker shows
    that device. *)
Lemma effect_marker_of_device table devices made table' device :
  deviceMarkerEffect true table devices = Some (made, table') →
  NoDup (device_sn <$> devices) →
  device ∈ devices →
  match table' !! device_sn device with
  | Some marker =>
      renderable device = true ∧
      ∃ t, telemetry device = Some t ∧ Readings.shows device t marker
  | None => renderable device = false
  end.
Proof.
  intros Heffect Hnodup Hin.
  assert (NoDup (Readings.rendered_serials devices)) as Hrendered.
  { unfold Readings.rendered_serials. eapply sublist_NoDup; [exact Hnodup|].
    apply fmap_sublist, sublist_filter. }
  pose proof (effect_lookup _ _ _ _ (device_sn device) Heffect) as Hlookup.
  destruct (renderable device) eqn:Hr.
  - pose proof Hr as (t & Ht & Hfix)%renderable_spec.
    apply effect_inv in Heffect as (r & Hloop & Hactive & _ & ->).
    destruct (forEach_shows _ _ _ Hloop Hrendered device t Hin Ht Hr)
      as (marker & Hmarker & Hshows).
    assert (filter (λ kv, kv.1 ∈ activeSns r) (markersMap r) !! device_sn device
            = Some marker) as ->; [|eauto].
    apply map_lookup_filter_Some. split; [done|]. simpl. rewrite Hactive.
    apply elem_of_list_to_set, elem_of_rendered_serials. eauto.
  - assert (table' !! device_sn device = None) as ->; [|done].
    apply eq_None_not_Some. rewrite Hlookup.
    intros (other & Hother & Hsn & Hrender)%elem_of_rendered_serials.
    assert (other = device) as ->; [|congruence].
    apply list_elem_of_lookup in Hother as [i Hi]. apply list_elem_of_lookup in Hin as [j Hj].
    assert (i = j) as ->; [|congruence].
    eapply NoDup_lookup; [exact Hnodup| |].
    + rewrite list_lookup_fmap, Hi. simpl. by rewrite Hsn.
    + by rewrite list_lookup_fmap, Hj.
Qed.

(** ** Coordinates that are not numbers *)

Lemma SFeqb_refl_nan s : SFeqb s s = false → s = S754_nan.
Proof.
  destruct s as [b|b| |b m e]; unfold SFeqb; simpl; try (destruct b; discriminate); auto.
  rewrite Z.compare_refl, Pos.compare_refl. destruct b; discriminate.
Qed.

(** [NaN] is [===] to nothing. *)
Lemma isNaN_number_eq x y :
  isNaN x = true → number_eq x y = false ∧ number_eq y x = false.
Proof.
  unfold isNaN, number_eq. rewrite !FloatAxioms.eqb_spec.
  intros Hx%negb_true_iff%SFeqb_refl_nan. rewrite Hx. split; [done|].
  by destruct (Prim2SF y).
Qed.

Lemma renderDevice_nan device t r :
  telemetry device = Some t →
  isNaN (latitude t) = true ∨ isNaN (longitude t) = true →
  renderDevice device r = None.
Proof.
  intros Ht Hnan. unfold renderDevice. rewrite Ht.
  assert (nonzero (latitude t) || nonzero (longitude t) = true) as ->.
  { unfold nonzero.
    destruct Hnan as [H|H]; rewrite (proj1 (isNaN_number_eq _ 0%float H)); simpl;
      [done | apply orb_true_r]. }
  assert (toLatLng (latitude t) (longitude t) = None) as Hthrown.
  { unfold toLatLng. destruct Hnan as [-> | ->]; [done | by rewrite orb_true_r]. }
  destruct (popupContent device t) as [content|e]; simpl; [|done].
  unfold placeMarker, updateMarker, createMarker. rewrite Hthrown.
  destruct (markersMap r !! device_sn device) as [old|]; simpl; [|done].
  assert (negb (number_eq (latlng old).1 (latitude t))
          || negb (number_eq (latlng old).2 (longitude t)) = true) as ->; [|done].
  destruct Hnan as [H|H]; rewrite (proj2 (isNaN_number_eq _ _ H)); simpl;
    [done | apply orb_true_r].
Qed.

(** X14. One coordinate that is not a number stops the whole run: when a
    device of the list has telemetry whose latitude or longitude is [NaN]
    (the normaliser produces one from a coordinate such as "north"), the
    effect throws, whatever the table holds and wherever the device
    stands in the list, so the sweep of stale markers is not reached. The
    condition of completion, that no telemetry coordinate is [NaN], is
    therefore necessary. *)
Theorem nan_coordinate_aborts_effect table devices device t :
  device ∈ devices →
  telemetry device = Some t →
  isNaN (latitude t) = true ∨ isNaN (longitude t) = true →
  deviceMarkerEffect true table devices = None.
Proof.
  intros Hin Ht Hnan. unfold deviceMarkerEffect. simpl.
  by rewrite (forEach_aborts devices device Hin (λ r, renderDevice_nan device t r Ht Hnan)).
Qed.

End MarkerFacts.

Lemma popup_state_survives_update_witness :
  @MapPicker.deviceMarkerEffect ReferenceEngine.engine true MoreSamples.watched_markers Samples.fleet_devices
  = Some (MoreSamples.watched_calls, MoreSamples.watched_after) ∧
  (∀ sn marker', MoreSamples.watched_after !! sn = Some marker' →
                 MapPicker.popupOpen marker'
                 = from_option MapPicker.popupOpen false (MoreSamples.watched_markers !! sn)) ∧
  (∀ sn marker content,
     MoreSamples.watched_markers !! sn = Some marker → MapPicker.popupOpen marker = true →
     MapPicker.bindPopup sn content ∉ MoreSamples.watched_calls).
Proof.
  assert (@MapPicker.deviceMarkerEffect ReferenceEngine.engine true MoreSamples.watched_markers Samples.fleet_devices
          = Some (MoreSamples.watched_calls, MoreSamples.watched_after)) as H.
  { vm_compute. reflexivity. }
  split; [exact H|].
  exact (@popup_state_survives_update ReferenceEngine.engine _ _ _ _ H).
Defined.

Lemma markers_created_and_removed_exactly_witness :
  @MapPicker.deviceMarkerEffect ReferenceEngine.engine true Samples.fleet_markers MoreSamples.relief_devices
  = Some (MoreSamples.relief_calls, MoreSamples.relief_markers) ∧
  Listing.created MoreSamples.relief_calls = ["1581F8REL0042"] ∧
  Listing.removed MoreSamples.relief_calls = ["1581F5BKD2250"] ∧
  (∀ sn, sn ∈ Listing.created MoreSamples.relief_calls ↔
         Samples.fleet_markers !! sn = None ∧
         sn ∈ Readings.rendered_serials MoreSamples.relief_devices) ∧
  (∀ sn, sn ∈ Listing.removed MoreSamples.relief_calls ↔
         is_Some (Samples.fleet_markers !! sn) ∧
         sn ∉ Readings.rendered_serials MoreSamples.relief_devices) ∧
  NoDup (Listing.created MoreSamples.relief_calls) ∧
  NoDup (Listing.removed MoreSamples.relief_calls).
Proof.
  assert (@MapPicker.deviceMarkerEffect ReferenceEngine.engine true Samples.fleet_markers MoreSamples.relief_devices
          = Some (MoreSamples.relief_calls, MoreSamples.relief_markers)) as H.
  { vm_compute. reflexivity. }
  split; [exact H|]. split; [vm_compute; reflexivity|]. split; [vm_compute; reflexivity|].
  exact (@markers_created_and_removed_exactly ReferenceEngine.engine _ _ _ _ H).
Defined.

Lemma tracked_marker_shows_snapshot_witness :
  @MapPicker.deviceMarkerEffect ReferenceEngine.engine true Samples.fleet_markers MoreSamples.relief_devices
  = Some (MoreSamples.relief_calls, MoreSamples.relief_markers) ∧
  ∃ marker,
    MoreSamples.relief_markers !! "1581F8REL0042" = Some marker ∧
    ∃ device t, device ∈ MoreSamples.relief_devices ∧ device_sn device = "1581F8REL0042" ∧
                telemetry device = Some t ∧
                @Readings.shows ReferenceEngine.engine device t marker.
Proof.
  assert (@MapPicker.deviceMarkerEffect ReferenceEngine.engine true Samples.fleet_markers MoreSamples.relief_devices
          = Some (MoreSamples.relief_calls, MoreSamples.relief_markers)) as H.
  { vm_compute. reflexivity. }
  split; [exact H|].
  destruct (MoreSamples.relief_markers !! "1581F8REL0042") as [marker|] eqn:Hlookup;
    [|vm_compute in Hlookup; discriminate].
  exists marker. split; [reflexivity|].
  exact (@tracked_marker_shows_snapshot ReferenceEngine.engine _ _ _ _ _ _ H Hlookup).
Defined.

Lemma nan_coordinate_aborts_effect_witness :
  MoreSamples.uncharted_device ∈ MoreSamples.uncharted_devices ∧
  ∃ t, telemetry MoreSamples.uncharted_device = Some t ∧
       JS.isNaN (latitude t) = true ∧
       @MapPicker.deviceMarkerEffect ReferenceEngine.engine true Samples.fleet_markers MoreSamples.uncharted_devices
       = None.
Proof.
  assert (MoreSamples.uncharted_device ∈ MoreSamples.uncharted_devices) as H.
  { vm_compute. right. left. }
  split; [exact H|].
  eexists. split; [reflexivity|]. split; [reflexivity|].
  exact (@nan_coordinate_aborts_effect ReferenceEngine.engine Samples.fleet_markers _ _ _ H eq_refl
           (or_introl eq_refl)).
Defined.

(* ===================================================================== *)
(** * The workflow trigger and the handlers of [App]                      *)
(* ===================================================================== *)

Section TriggerFacts.
Import JS.
Context {E : Engine}.

Implicit Types (st : Console.State) (stamp : Console.Stamp) (e : Console.Event).

(** [sendWorkflowAlert] returns exactly when the answer is [ok] and its
    body could be read. *)
Lemma sendWorkflowAlert_normal outcome v :
  Workflow.sendWorkflowAlert outcome = normal v ↔
  ∃ response, outcome = Workflow.Responded response ∧
              Workflow.ok response = true ∧
              Workflow.readBody response = normal v.
Proof.
  unfold Workflow.sendWorkflowAlert. split.
  - destruct outcome as [e|response]; [discriminate|].
    destruct (Workflow.readBody response) as [responseData|e] eqn:Hbody; simpl; [|discriminate].
    destruct (Workflow.ok response) eqn:Hok; simpl.
    + intros [= <-]. eauto.
    + destruct (get responseData "message") as [m|e]; simpl; [|discriminate].
      destruct (ToString _); discriminate.
  - intros (response & -> & Hok & Hbody). by rewrite Hbody, Hok.
Qed.

Lemma settle_status stamp result st :
  Console.status (Console.handleTrigger_settle stamp result st)
  = match result with normal _ => Console.SUCCESS | throw _ => Console.ERROR end.
Proof. by destruct result. Qed.

(** The steps that leave the status alone. *)
Lemma step_status st e :
  match e with Console.Click _ _ | Console.Settle _ _ | Console.Timer => False | _ => True end →
  Console.status (Console.step st e) = Console.status st.
Proof.
  destruct e as [| | |device stamp|stamp| | | |]; simpl; try done; intros _.
  - unfold Console.handleDeviceSelect.
    destruct (telemetry device) as [t|]; [|done].
    by destruct (nonzero (latitude t) || nonzero (longitude t)).
  - unfold Console.syncToDrone.
    destruct (Console.selectedDevice st) as [device|]; [|done].
    by destruct (telemetry device).
Qed.

(** While a transmission is in flight the quiet events write neither the
    status nor the log. *)
Lemma quiet_step st e :
  Console.is_sending (Console.status st) = true →
  Traces.quiet e = true →
  Console.status (Console.step st e) = Console.status st ∧
  Console.logs (Console.step st e) = Console.logs st.
Proof.
  intros Hsending. destruct e; simpl; try discriminate; intros _; try done.
  unfold Console.handleTrigger_start. by rewrite Hsending.
Qed.

Lemma quiet_run st middle :
  Console.is_sending (Console.status st) = true →
  Forall (λ e, Traces.quiet e = true) middle →
  Console.status (Console.run st middle) = Console.status st ∧
  Console.logs (Console.run st middle) = Console.logs st.
Proof.
  unfold Console.run. revert st. induction middle as [|e middle IH]; intros st Hs Hq; [done|].
  inversion Hq as [|? ? He Hrest]; subst. simpl.
  destruct (quiet_step st e Hs He) as [Hstatus Hlogs].
  destruct (IH (Console.step st e)) as [-> ->]; [by rewrite Hstatus | done | done].
Qed.

Lemma click_accepted st stamp iso :
  Console.is_sending (Console.status st) = false →
  Console.step st (Console.Click stamp iso)
  = Console.addLog stamp Console.request
      ("TRANSMITTING ALERT: " +:+ Console.alertName st iso)
      (Some (Console.Payload (Console.payload st iso)))
      (Console.setStatus Console.SENDING st).
Proof. intros H. simpl. unfold Console.handleTrigger_start. by rewrite H. Qed.

(** X15. The badge shows SUCCESS only for an accepted transmission: the
    step that settles a trigger sets the status to SUCCESS exactly when
    the fetch was answered, the answer is [ok] (2xx) and its body could
    be read, and to ERROR in every other case: a failed fetch, a non-2xx
    answer whatever its body, a body that cannot be read. *)
Theorem success_only_on_accepted_answer stamp outcome st :
  let st' := Console.step st (Console.Settle stamp outcome) in
  (Console.status st' = Console.SUCCESS ↔
     ∃ response v, outcome = Workflow.Responded response ∧
                   Workflow.ok response = true ∧
                   Workflow.readBody response = normal v) ∧
  (Console.status st' ≠ Console.SUCCESS → Console.status st' = Console.ERROR).
Proof.
  simpl. rewrite settle_status.
  destruct (Workflow.sendWorkflowAlert outcome) as [v|e] eqn:Hsent.
  - split; [|done]. split; [|done]. intros _.
    apply sendWorkflowAlert_normal in Hsent as (response & ? & ? & ?). eauto.
  - split; [|done]. split; [done|].
    intros (response & v & Hout & Hok & Hbody).
    assert (Workflow.sendWorkflowAlert outcome = normal v) as Hv
      by (apply sendWorkflowAlert_normal; eauto).
    congruence.
Qed.

(** X16. One transmission per accepted click: from a state that is not
    SENDING, a click followed by further clicks, new targets, new names
    and polls, and then by the answer, adds exactly two entries to the
    log, the request and its outcome. The further clicks send nothing,
    and the payload logged is the one built from the state at the first
    click, not from the target as it stands when the answer arrives. *)
Theorem one_transmission_per_click st stamp iso middle stamp' outcome :
  Console.is_sending (Console.status st) = false →
  Forall (λ e, Traces.quiet e = true) middle →
  ∃ answer,
    Console.logs (Console.run st (Console.Click stamp iso
                                   :: middle ++ [Console.Settle stamp' outcome]))
    = Console.logs st
      ++ [{| Console.id := Console.random_id stamp;
             Console.timestamp := Console.time_of_day stamp;
             Console.type := Console.request;
             Console.message := "TRANSMITTING ALERT: " +:+ Console.alertName st iso;
             Console.details := Some (Console.Payload (Console.payload st iso)) |};
          answer] ∧
    Console.id answer = Console.random_id stamp' ∧
    (Console.type answer = Console.success ∨ Console.type answer = Console.error).
Proof.
  intros Hidle Hquiet. unfold Console.run.
  cbn [fold_left]. rewrite fold_left_app, (click_accepted _ _ _ Hidle). cbn [fold_left].
  set (st1 := Console.addLog _ _ _ _ _).
  destruct (quiet_run st1 middle eq_refl Hquiet) as [_ Hlogs].
  unfold Console.run in Hlogs. cbn [Console.step].
  destruct (Workflow.sendWorkflowAlert outcome) as [v|e]; simpl; rewrite Hlogs; simpl;
    rewrite <- app_assoc; simpl; eexists; (split; [reflexivity|]); simpl; auto.
Qed.

(** X17. The outcome stays on the badge: after a trigger has settled, no
    sequence of events without a new click brings the status back to
    IDLE or to SENDING; in particular the timer started by the trigger
    changes nothing. *)
Theorem outcome_stays_until_next_click st stamp outcome after :
  Forall (λ e, Traces.is_click e = false) after →
  let st' := Console.run st (Console.Settle stamp outcome :: after) in
  Console.status st' = Console.SUCCESS ∨ Console.status st' = Console.ERROR.
Proof.
  intros Hafter. simpl. unfold Console.run. simpl.
  set (st1 := Console.handleTrigger_settle _ _ _).
  assert (Console.status st1 = Console.SUCCESS ∨ Console.status st1 = Console.ERROR) as Hst1.
  { unfold st1. rewrite settle_status. destruct (Workflow.sendWorkflowAlert _); auto. }
  clearbody st1. revert st1 Hst1.
  induction after as [|e after IH]; intros st1 Hst1; [done|].
  inversion Hafter as [|? ? He Hrest]; subst. simpl. apply IH; [done|].
  destruct e; try discriminate; try (rewrite step_status by done; exact Hst1).
  - simpl. rewrite settle_status. destruct (Workflow.sendWorkflowAlert _); auto.
  - simpl. by destruct Hst1 as [-> | ->]; auto.
Qed.

(** X18. The timer of one trigger clears the SENDING of the next: when a
    click is accepted after a trigger has settled and the timer that
    trigger started fires before the new answer arrives, the status goes
    to IDLE with the new request still unanswered, and the guard of
    [handleTrigger] lets a further click transmit as well. *)
Theorem earlier_timer_clears_sending st stamp outcome stamp' iso :
  let st' := Console.run st [Console.Settle stamp outcome; Console.Click stamp' iso;
                             Console.Timer] in
  Console.status st' = Console.IDLE ∧
  (∃ answer request,
     Console.logs st' = Console.logs st ++ [answer; request] ∧
     Console.type request = Console.request) ∧
  ∀ stamp'' iso',
    snd (Console.handleTrigger_start stamp'' iso' st') = Some (Console.payload st' iso').
Proof.
  simpl. unfold Console.run. simpl.
  set (st1 := Console.handleTrigger_settle _ _ _).
  assert (Console.is_sending (Console.status st1) = false) as Hst1.
  { unfold st1. rewrite settle_status. by destruct (Workflow.sendWorkflowAlert _). }
  assert (∃ answer, Console.logs st1 = Console.logs st ++ [answer]) as [answer Hlogs].
  { unfold st1. destruct (Workflow.sendWorkflowAlert _); simpl; eauto. }
  unfold Console.handleTrigger_start. rewrite Hst1. simpl.
  split; [done|]. split.
  - eexists answer, _. split; [rewrite Hlogs, <- app_assoc; reflexivity | reflexivity].
  - intros stamp'' iso'. reflexivity.
Qed.

End TriggerFacts.

Section NameFacts.
Import JS.

Lemma append_cons c a b : String c a +:+ b = String c (a +:+ b).
Proof. reflexivity. Qed.

Lemma append_nil_l b : "" +:+ b = b.
Proof. reflexivity. Qed.

Lemma strip_punctuation_app a b :
  Prototype.strip_punctuation (a +:+ b)
  = Prototype.strip_punctuation a +:+ Prototype.strip_punctuation b.
Proof.
  induction a as [|c a IH]; [done|]. rewrite append_cons. simpl.
  destruct (Ascii.eqb c "-" || Ascii.eqb c ":" || Ascii.eqb c "T" || Ascii.eqb c ".")%bool;
    by rewrite IH.
Qed.

Lemma digit_is_kept c :
  (48 <=? N_of_ascii c)%N && (N_of_ascii c <=? 57)%N = true →
  (Ascii.eqb c "-" || Ascii.eqb c ":" || Ascii.eqb c "T" || Ascii.eqb c ".")%bool = false.
Proof.
  destruct c as [[] [] [] [] [] [] [] []]; vm_compute; intros; congruence.
Qed.

Lemma digits_length n s : Traces.digits n s = true → String.length s = n.
Proof. unfold Traces.digits. intros [H _]%andb_true_iff. by apply Nat.eqb_eq in H. Qed.

Lemma digits_kept n s : Traces.digits n s = true → Prototype.strip_punctuation s = s.
Proof.
  unfold Traces.digits. intros [_ H]%andb_true_iff.
  induction s as [|c s IH]; simpl in *; [done|].
  apply andb_true_iff in H as [Hc Hs]. rewrite (digit_is_kept c Hc). by rewrite IH.
Qed.

Lemma string_length_app a b : String.length (a +:+ b) = (String.length a + String.length b)%nat.
Proof. induction a as [|c a IH]; [done|]. rewrite append_cons. simpl. by rewrite IH. Qed.

Lemma app_assoc_string a b c : (a +:+ b) +:+ c = a +:+ (b +:+ c).
Proof. induction a as [|x a IH]; [done|]. rewrite !append_cons. by rewrite IH. Qed.

Lemma slice_to_app a b : Prototype.slice_to (String.length a) (a +:+ b) = a.
Proof.
  unfold Prototype.slice_to. induction a as [|c a IH].
  - rewrite append_nil_l. by destruct b.
  - rewrite append_cons. simpl. by rewrite IH.
Qed.

(** ** [trim] *)

Lemma trim_start_fixed c s :
  is_white_space c = false → trim_start (String c s) = String c s.
Proof. intros H. simpl. by rewrite H. Qed.

Lemma trim_end_head c s :
  is_white_space c = false → ∃ s', Prototype.trim_end (String c s) = String c s'.
Proof.
  intros H. simpl. destruct (Prototype.trim_end s); [rewrite H|]; eauto.
Qed.

Lemma trim_end_idem s : Prototype.trim_end (Prototype.trim_end s) = Prototype.trim_end s.
Proof.
  induction s as [|c s IH]; simpl; [done|].
  destruct (Prototype.trim_end s) as [|c' s'] eqn:Hs.
  - destruct (is_white_space c) eqn:Hc; simpl; [done | by rewrite Hc].
  - simpl in *. by rewrite IH.
Qed.

Lemma trim_start_head s :
  trim_start s = "" ∨ ∃ c s', trim_start s = String c s' ∧ is_white_space c = false.
Proof.
  induction s as [|c s IH]; simpl; [by left|].
  destruct (is_white_space c) eqn:Hc; [done | right; eauto].
Qed.

Lemma trim_idem s : Prototype.trim (Prototype.trim s) = Prototype.trim s.
Proof.
  unfold Prototype.trim.
  destruct (trim_start_head s) as [-> | (c & s' & -> & Hc)]; [done|].
  destruct (trim_end_head c s' Hc) as [s'' Hs''].
  rewrite Hs'', (trim_start_fixed _ _ Hc), <- Hs''. apply trim_end_idem.
Qed.

(** X19. The time stamp of an alert name is the date and the time of day
    in fourteen digits: for the ISO string of a date of the years 0 to
    9999, [YYYY-MM-DDTHH:mm:ss.sssZ], removing the punctuation and
    keeping fourteen characters gives [YYYYMMDDHHmmss]; the milliseconds
    and the zone letter are cut off. *)
Theorem stamp_of_iso_date year month day hours minutes seconds millis :
  Traces.digits 4 year = true →
  Traces.digits 2 month = true →
  Traces.digits 2 day = true →
  Traces.digits 2 hours = true →
  Traces.digits 2 minutes = true →
  Traces.digits 2 seconds = true →
  Traces.digits 3 millis = true →
  Console.stampOf (Traces.iso year month day hours minutes seconds millis)
  = year +:+ month +:+ day +:+ hours +:+ minutes +:+ seconds.
Proof.
  intros Hy Hmo Hd Hh Hmi Hs Hms. unfold Console.stampOf, Traces.iso.
  rewrite !strip_punctuation_app.
  rewrite (digits_kept _ _ Hy), (digits_kept _ _ Hmo), (digits_kept _ _ Hd),
    (digits_kept _ _ Hh), (digits_kept _ _ Hmi), (digits_kept _ _ Hs), (digits_kept _ _ Hms).
  change (Prototype.strip_punctuation "-") with "".
  change (Prototype.strip_punctuation "T") with "".
  change (Prototype.strip_punctuation ":") with "".
  change (Prototype.strip_punctuation ".") with "".
  change (Prototype.strip_punctuation "Z") with "Z".
  rewrite !append_nil_l.
  replace (year +:+ month +:+ day +:+ hours +:+ minutes +:+ seconds +:+ millis +:+ "Z")
    with ((year +:+ month +:+ day +:+ hours +:+ minutes +:+ seconds) +:+ (millis +:+ "Z"))
    by (by rewrite !app_assoc_string).
  replace 14%nat
    with (String.length (year +:+ month +:+ day +:+ hours +:+ minutes +:+ seconds)).
  - apply slice_to_app.
  - rewrite !string_length_app.
    by rewrite (digits_length _ _ Hy), (digits_length _ _ Hmo), (digits_length _ _ Hd),
      (digits_length _ _ Hh), (digits_length _ _ Hmi), (digits_length _ _ Hs).
Qed.

(** X20. An alert always has a name: the name of the payload is never
    empty. When the requester field holds more than white space the name
    is that field without its surrounding white space, and trimming it
    again changes nothing; otherwise it is "Alert-" followed by the time
    stamp. *)
Theorem alert_name_is_never_blank st iso :
  let name := Workflow.name (Console.payload st iso) in
  name ≠ "" ∧
  (Prototype.trim (Console.requesterName st) ≠ "" →
     name = Prototype.trim (Console.requesterName st) ∧ Prototype.trim name = name) ∧
  (Prototype.trim (Console.requesterName st) = "" →
     name = "Alert-" +:+ Console.stampOf iso).
Proof.
  simpl. unfold Console.alertName. simpl.
  destruct (String.eqb (Prototype.trim (Console.requesterName st)) "") eqn:Hblank; simpl.
  - apply String.eqb_eq in Hblank. split; [done|]. split; [done|]. done.
  - apply String.eqb_neq in Hblank. split; [done|]. split; [|done].
    intros _. split; [done|]. apply trim_idem.
Qed.

End NameFacts.

Section SelectionFacts.
Import JS.
Context {E : Engine}.

Implicit Types (st : Console.State) (stamp : Console.Stamp).

Lemma settle_fields stamp result st :
  Console.poller (Console.handleTrigger_settle stamp result st) = Console.poller st ∧
  List.length (Console.logs (Console.handleTrigger_settle stamp result st))
  = S (List.length (Console.logs st)) ∧
  Console.logs st `prefix_of` Console.logs (Console.handleTrigger_settle stamp result st).
Proof.
  destruct result; simpl; rewrite length_app; simpl;
    (split; [done|]); (split; [lia|]); by apply prefix_app_r.
Qed.

(** What each handler does to the poller state and to the log. *)
Lemma step_frame st e :
  Console.poller (Console.step st e)
  = match e with
    | Console.Poll e' => App.step (Console.poller st) e'
    | _ => Console.poller st
    end ∧
  Console.logs st `prefix_of` Console.logs (Console.step st e).
Proof.
  destruct e as [stamp iso|stamp outcome| |device stamp|stamp| | | |]; simpl;
    try (split; [reflexivity | reflexivity]).
  - unfold Console.handleTrigger_start.
    destruct (Console.is_sending (Console.status st)); simpl; [done|].
    split; [done|]. by apply prefix_app_r.
  - destruct (settle_fields stamp (Workflow.sendWorkflowAlert outcome) st) as (? & _ & ?).
    done.
  - unfold Console.handleDeviceSelect.
    destruct (telemetry device) as [t|]; [|done].
    destruct (nonzero (latitude t) || nonzero (longitude t)); simpl; [|done].
    split; [done|]. by apply prefix_app_r.
  - unfold Console.syncToDrone.
    destruct (Console.selectedDevice st) as [device|]; [|done].
    destruct (telemetry device); simpl; [|done].
    split; [done|]. by apply prefix_app_r.
Qed.

(** X21. The poller and the other handlers do not interfere: after any
    sequence of events the devices, the loading flag, the time of the
    last poll and the link health are what the steps of [fetchDevices]
    in the sequence alone produce, so what holds of the poller alone
    holds of it inside the component. And no handler drops or rewrites a
    log entry: the log before is a prefix of the log after. *)
Theorem handlers_keep_poller_and_log st trace :
  Console.poller (Console.run st trace) = App.run (Console.poller st) (Traces.polls trace) ∧
  Console.logs st `prefix_of` Console.logs (Console.run st trace).
Proof.
  unfold Console.run, App.run. revert st.
  induction trace as [|e trace IH]; intros st; simpl; [done|].
  destruct (IH (Console.step st e)) as [-> Hlogs].
  destruct (step_frame st e) as [-> Hstep].
  split; [|by etrans].
  by destruct e.
Qed.

(** X22. Selecting a device flies the map to its marker: for a snapshot
    with distinct serial numbers on which the marker effect ran, when the
    device has a marker on the map, [handleDeviceSelect] sets the fly-to
    target to where that marker stands and logs the uplink; when it has
    none, the fly-to target and the log stay as they were. The selection
    is recorded either way. *)
Theorem select_flies_to_marker table devices made table' device stamp st :
  MapPicker.deviceMarkerEffect true table devices = Some (made, table') →
  NoDup (device_sn <$> devices) →
  device ∈ devices →
  let st' := Console.handleDeviceSelect device stamp st in
  Console.selectedDeviceSn st' = Some (device_sn device) ∧
  match table' !! device_sn device with
  | Some marker =>
      ∃ p, Console.flyTo st' = Some p ∧
           number_eq (fst (MapPicker.latlng marker)) (fst p) = true ∧
           number_eq (snd (MapPicker.latlng marker)) (snd p) = true ∧
           List.length (Console.logs st') = S (List.length (Console.logs st))
  | None => Console.flyTo st' = Console.flyTo st ∧ Console.logs st' = Console.logs st
  end.
Proof.
  intros Heffect Hnodup Hin. simpl.
  pose proof (effect_marker_of_device _ _ _ _ _ Heffect Hnodup Hin) as Hmarker.
  unfold Console.handleDeviceSelect.
  destruct (table' !! device_sn device) as [marker|].
  - destruct Hmarker as (Hr & t & Ht & Hlat & Hlon & _).
    unfold MapPicker.renderable in Hr. rewrite Ht in *. rewrite Hr. simpl.
    split; [done|]. exists (latitude t, longitude t). simpl. rewrite length_app. simpl.
    repeat split; try done. lia.
  - unfold MapPicker.renderable in Hmarker.
    destruct (telemetry device) as [t|]; simpl; [|done].
    by rewrite Hmarker.
Qed.

(** X23. Copying to the target reads the snapshot that is published: with
    a serial number selected, after a poll that publishes a listing the
    sync button copies the position of the first device of that listing
    with the selected serial number, each coordinate rounded through
    [toFixed(6)], and logs it; when the listing has no such device, or
    the device has no telemetry, the button changes nothing. The
    selection itself survives the poll. *)
Theorem sync_reads_published_snapshot st sn f now response stamp :
  Console.selectedDeviceSn st = Some sn →
  strict_eq_number (code response) 0%float = true →
  let st1 := Console.step st (Console.Poll (App.Complete f now (App.Fulfilled (Some response)))) in
  let st2 := Console.step st1 (Console.Sync stamp) in
  Console.selectedDeviceSn st2 = Some sn ∧
  match List.find (λ d, String.eqb (device_sn d) sn) (data response) ≫= telemetry with
  | Some t =>
      Console.latitude st2 = StringToNumber (Prototype.toFixed 6 (latitude t)) ∧
      Console.longitude st2 = StringToNumber (Prototype.toFixed 6 (longitude t)) ∧
      List.length (Console.logs st2) = S (List.length (Console.logs st))
  | None => st2 = st1
  end.
Proof.
  intros Hsel Hcode. simpl.
  unfold Console.syncToDrone, Console.selectedDevice, Console.devices. simpl.
  rewrite Hsel, (settle_published _ _ _ _ Hcode).
  destruct (List.find _ (data response)) as [device|]; simpl; [|done].
  destruct (telemetry device) as [t|]; simpl; [|done].
  rewrite length_app. simpl. repeat split; try done. lia.
Qed.

End SelectionFacts.

Section TargetFacts.
Import JS.
Variable distance : number * number → number * number → number.
Variable lands : number * number → bool.

(** X24. The target marker follows the target and then rests: when the
    map and the marker exist, neither coordinate of the target is [NaN]
    and Leaflet takes the target, the effect completes and leaves the
    marker on the target; it calls [flyTo] only after a [setLatLng], and
    only when the marker was more than 500 m away; and running it again
    for the same target makes no call, whatever Leaflet would take. *)
Theorem target_marker_follows_target current lat lng :
  isNaN lat = false →
  isNaN lng = false →
  lands (lat, lng) = true →
  let refs := {| TargetMarker.mapInstance := true;
                 TargetMarker.targetMarker := Some current |} in
  ∃ made p,
    TargetMarker.targetEffect distance lands refs lat lng
    = Some (made, {| TargetMarker.mapInstance := true;
                     TargetMarker.targetMarker := Some p |}) ∧
    number_eq (fst p) lat = true ∧ number_eq (snd p) lng = true ∧
    (∀ to, TargetMarker.flyTo to ∈ made →
           TargetMarker.setLatLng to ∈ made ∧
           PrimFloat.ltb 500%float (distance (lat, lng) current) = true) ∧
    ∀ lands',
      TargetMarker.targetEffect distance lands'
        {| TargetMarker.mapInstance := true; TargetMarker.targetMarker := Some p |} lat lng
      = Some ([], {| TargetMarker.mapInstance := true; TargetMarker.targetMarker := Some p |}).
Proof.
  intros Hlat Hlng Hlands. simpl.
  assert (number_eq lat lat = true ∧ number_eq lng lng = true) as [Hlat' Hlng'].
  { unfold isNaN in *. by apply negb_false_iff in Hlat, Hlng. }
  unfold TargetMarker.targetEffect. simpl.
  destruct (negb (number_eq current.1 lat) || negb (number_eq current.2 lng)) eqn:Hmoved.
  - unfold MapPicker.toLatLng. rewrite Hlat, Hlng. simpl. rewrite Hlands.
    eexists _, (lat, lng). split; [reflexivity|]. simpl. rewrite Hlat', Hlng'. simpl.
    repeat split; try done.
    + destruct (PrimFloat.ltb _ _); set_unfold; naive_solver.
    + destruct (PrimFloat.ltb _ _); [done|]. set_unfold. naive_solver.
  - exists [], current. rewrite Hmoved.
    apply orb_false_iff in Hmoved as [H1%negb_false_iff H2%negb_false_iff].
    split_and!; try done. by intros ? ?%elem_of_nil.
Qed.

(** The effect throws when Leaflet does not take a target the marker is
    not on. *)
Lemma target_not_taken current lat lng :
  negb (number_eq (fst current) lat) || negb (number_eq (snd current) lng) = true →
  lands (lat, lng) = false →
  TargetMarker.targetEffect distance lands
    {| TargetMarker.mapInstance := true; TargetMarker.targetMarker := Some current |} lat lng
  = None.
Proof.
  intros Hmoved Hlands. unfold TargetMarker.targetEffect. simpl. rewrite Hmoved.
  unfold MapPicker.toLatLng. destruct (isNaN lat || isNaN lng); simpl; [done|].
  by rewrite Hlands.
Qed.

(** X25. Dragging the marker does not make the effect move it again: the
    position the [dragend] listener hands to [handleLocationSelect]
    becomes the target, and the effect for that target finds the marker
    in place and calls neither [setLatLng] nor [flyTo]. *)
Theorem dragging_causes_no_map_call position st :
  isNaN (fst position) = false →
  isNaN (snd position) = false →
  let to := TargetMarker.dragend position in
  let st' := Console.handleLocationSelect (fst to) (snd to) st in
  let refs := {| TargetMarker.mapInstance := true;
                 TargetMarker.targetMarker := Some position |} in
  Console.latitude st' = fst position ∧
  Console.longitude st' = snd position ∧
  TargetMarker.targetEffect distance lands refs (Console.latitude st') (Console.longitude st')
  = Some ([], refs).
Proof.
  intros Hlat Hlng. simpl. unfold TargetMarker.targetEffect, TargetMarker.dragend. simpl.
  unfold isNaN in *. apply negb_false_iff in Hlat, Hlng.
  unfold number_eq. by rewrite Hlat, Hlng.
Qed.

End TargetFacts.

Lemma one_transmission_per_click_witness :
  ∃ answer,
    Console.logs
      (@Console.run ReferenceEngine.engine DeskSamples.desk
         (Console.Click (DeskSamples.stamp "a") "2026-11-02T00:36:29.123Z"
          :: [Console.Click (DeskSamples.stamp "b") "2026-11-02T00:36:29.500Z";
              Console.Locate 13%float 46%float]
             ++ [Console.Settle (DeskSamples.stamp "c") DeskSamples.accepted]))
    = Console.logs DeskSamples.desk
      ++ [{| Console.id := Console.random_id (DeskSamples.stamp "a");
             Console.timestamp := Console.time_of_day (DeskSamples.stamp "a");
             Console.type := Console.request;
             Console.message :=
               "TRANSMITTING ALERT: "
               +:+ Console.alertName DeskSamples.desk "2026-11-02T00:36:29.123Z";
             Console.details :=
               Some (Console.Payload
                       (Console.payload DeskSamples.desk "2026-11-02T00:36:29.123Z")) |};
          answer] ∧
    Console.id answer = Console.random_id (DeskSamples.stamp "c") ∧
    (Console.type answer = Console.success ∨ Console.type answer = Console.error).
Proof.
  apply (@one_transmission_per_click ReferenceEngine.engine DeskSamples.desk).
  - reflexivity.
  - repeat constructor.
Defined.

Lemma outcome_stays_until_next_click_witness :
  let st' := @Console.run ReferenceEngine.engine DeskSamples.desk
               (Console.Settle (DeskSamples.stamp "c") DeskSamples.refused
                :: [Console.Timer; Console.Locate 13%float 46%float; Console.Timer]) in
  Console.status st' = Console.SUCCESS ∨ Console.status st' = Console.ERROR.
Proof.
  apply (@outcome_stays_until_next_click ReferenceEngine.engine).
  repeat constructor.
Defined.

Lemma stamp_of_iso_date_witness :
  Console.stampOf (Traces.iso "2026" "11" "02" "00" "36" "29" "123")
  = "2026" +:+ "11" +:+ "02" +:+ "00" +:+ "36" +:+ "29".
Proof.
  apply stamp_of_iso_date; reflexivity.
Defined.

Lemma select_flies_to_marker_witness :
  @MapPicker.deviceMarkerEffect ReferenceEngine.engine true ∅ Samples.fleet_devices
  = Some (Samples.fleet_calls, Samples.fleet_markers) ∧
  NoDup (device_sn <$> Samples.fleet_devices) ∧
  Samples.parked_device ∈ Samples.fleet_devices ∧
  let st' := Console.handleDeviceSelect Samples.parked_device (DeskSamples.stamp "a")
               DeskSamples.desk in
  Console.selectedDeviceSn st' = Some (device_sn Samples.parked_device) ∧
  match Samples.fleet_markers !! device_sn Samples.parked_device with
  | Some marker =>
      ∃ p, Console.flyTo st' = Some p ∧
           JS.number_eq (fst (MapPicker.latlng marker)) (fst p) = true ∧
           JS.number_eq (snd (MapPicker.latlng marker)) (snd p) = true ∧
           List.length (Console.logs st') = S (List.length (Console.logs DeskSamples.desk))
  | None => Console.flyTo st' = Console.flyTo DeskSamples.desk ∧
            Console.logs st' = Console.logs DeskSamples.desk
  end.
Proof.
  assert (@MapPicker.deviceMarkerEffect ReferenceEngine.engine true ∅ Samples.fleet_devices
          = Some (Samples.fleet_calls, Samples.fleet_markers)) as H.
  { vm_compute. reflexivity. }
  assert (NoDup (device_sn <$> Samples.fleet_devices)) as Hnodup.
  { apply (bool_decide_unpack _). vm_compute. reflexivity. }
  assert (Samples.parked_device ∈ Samples.fleet_devices) as Hin.
  { vm_compute. left. }
  split; [exact H|]. split; [exact Hnodup|]. split; [exact Hin|].
  exact (@select_flies_to_marker ReferenceEngine.engine ∅ Samples.fleet_devices _ _ Samples.parked_device
           (DeskSamples.stamp "a") DeskSamples.desk H Hnodup Hin).
Defined.

Lemma sync_reads_published_snapshot_witness :
  let st := Console.setSelectedDeviceSn (Some "1581F5BKD2250") DeskSamples.desk in
  let response := {| code := JS.JNumber 0%float; message := "Success";
                     data := Samples.later_devices |} in
  let st1 := @Console.step ReferenceEngine.engine st
               (Console.Poll (App.Complete Samples.second_fetch 2000%float
                                (App.Fulfilled (Some response)))) in
  let st2 := @Console.step ReferenceEngine.engine st1 (Console.Sync (DeskSamples.stamp "a")) in
  Console.selectedDeviceSn st2 = Some "1581F5BKD2250" ∧
  match List.find (λ d, String.eqb (device_sn d) "1581F5BKD2250") (data response)
        ≫= telemetry with
  | Some t =>
      Console.latitude st2
      = @JS.StringToNumber ReferenceEngine.engine
          (@Prototype.toFixed ReferenceEngine.engine 6 (latitude t)) ∧
      Console.longitude st2
      = @JS.StringToNumber ReferenceEngine.engine
          (@Prototype.toFixed ReferenceEngine.engine 6 (longitude t)) ∧
      List.length (Console.logs st2) = S (List.length (Console.logs st))
  | None => st2 = st1
  end.
Proof.
  apply (@sync_reads_published_snapshot ReferenceEngine.engine); reflexivity.
Defined.

Lemma target_marker_follows_target_witness :
  let distance := (λ _ _ : JS.number * JS.number, 900%float) in
  let lands := (λ _ : JS.number * JS.number, true) in
  let refs := {| TargetMarker.mapInstance := true;
                 TargetMarker.targetMarker := Some (12%float, 45%float) |} in
  ∃ made p,
    TargetMarker.targetEffect distance lands refs 12.3%float 45.6%float
    = Some (made, {| TargetMarker.mapInstance := true;
                     TargetMarker.targetMarker := Some p |}) ∧
    JS.number_eq (fst p) 12.3%float = true ∧ JS.number_eq (snd p) 45.6%float = true ∧
    (∀ to, TargetMarker.flyTo to ∈ made →
           TargetMarker.setLatLng to ∈ made ∧
           PrimFloat.ltb 500%float (distance (12.3%float, 45.6%float) (12%float, 45%float))
           = true) ∧
    ∀ lands',
      TargetMarker.targetEffect distance lands'
        {| TargetMarker.mapInstance := true; TargetMarker.targetMarker := Some p |}
        12.3%float 45.6%float
      = Some ([], {| TargetMarker.mapInstance := true; TargetMarker.targetMarker := Some p |}).
Proof.
  apply (target_marker_follows_target (λ _ _, 900%float) (λ _, true) (12%float, 45%float));
    reflexivity.
Defined.

Lemma dragging_causes_no_map_call_witness :
  let distance := (λ _ _ : JS.number * JS.number, 900%float) in
  let lands := (λ _ : JS.number * JS.number, false) in
  let position := (12.3%float, 45.6%float) in
  let to := TargetMarker.dragend position in
  let st' := Console.handleLocationSelect (fst to) (snd to) DeskSamples.desk in
  let refs := {| TargetMarker.mapInstance := true;
                 TargetMarker.targetMarker := Some position |} in
  Console.latitude st' = fst position ∧
  Console.longitude st' = snd position ∧
  TargetMarker.targetEffect distance lands refs (Console.latitude st') (Console.longitude st')
  = Some ([], refs).
Proof.
  apply (dragging_causes_no_map_call (λ _ _, 900%float) (λ _, false)
           (12.3%float, 45.6%float));
    reflexivity.
Defined.

Lemma success_only_on_accepted_answer_witness :
  Console.status (@Console.step ReferenceEngine.engine DeskSamples.desk
                    (Console.Settle (DeskSamples.stamp "c") DeskSamples.accepted))
  = Console.SUCCESS ∧
  Console.status (@Console.step ReferenceEngine.engine DeskSamples.desk
                    (Console.Settle (DeskSamples.stamp "c") DeskSamples.refused))
  = Console.ERROR.
Proof.
  split.
  - apply (proj1 (@success_only_on_accepted_answer ReferenceEngine.engine
                    (DeskSamples.stamp "c") DeskSamples.accepted DeskSamples.desk)).
    eexists _, _. split; [reflexivity|]. split; reflexivity.
  - apply (proj2 (@success_only_on_accepted_answer ReferenceEngine.engine
                    (DeskSamples.stamp "c") DeskSamples.refused DeskSamples.desk)).
    vm_compute. discriminate.
Defined.

Lemma earlier_timer_clears_sending_witness :
  let st' := @Console.run ReferenceEngine.engine DeskSamples.desk
               [Console.Settle (DeskSamples.stamp "c") DeskSamples.accepted;
                Console.Click (DeskSamples.stamp "d") "2026-11-02T00:36:30.000Z";
                Console.Timer] in
  Console.status st' = Console.IDLE ∧
  (∃ answer request,
     Console.logs st' = Console.logs DeskSamples.desk ++ [answer; request] ∧
     Console.type request = Console.request) ∧
  ∀ stamp'' iso',
    snd (Console.handleTrigger_start stamp'' iso' st') = Some (Console.payload st' iso').
Proof.
  exact (@earlier_timer_clears_sending ReferenceEngine.engine DeskSamples.desk
           (DeskSamples.stamp "c") DeskSamples.accepted (DeskSamples.stamp "d")
           "2026-11-02T00:36:30.000Z").
Defined.

Lemma alert_name_is_never_blank_witness :
  Prototype.trim (Console.requesterName DeskSamples.desk) = "Mission 7" ∧
  Workflow.name (Console.payload DeskSamples.desk "2026-11-02T00:36:29.123Z")
  = Prototype.trim (Console.requesterName DeskSamples.desk) ∧
  Prototype.trim (Workflow.name (Console.payload DeskSamples.desk "2026-11-02T00:36:29.123Z"))
  = Workflow.name (Console.payload DeskSamples.desk "2026-11-02T00:36:29.123Z").
Proof.
  split; [reflexivity|].
  apply (proj1 (proj2 (alert_name_is_never_blank DeskSamples.desk
                         "2026-11-02T00:36:29.123Z"))).
  vm_compute. discriminate.
Defined.

Lemma handlers_keep_poller_and_log_witness :
  Console.poller
    (@Console.run ReferenceEngine.engine DeskSamples.desk
       [Console.Click (DeskSamples.stamp "a") "2026-11-02T00:36:29.123Z";
        Console.Poll (App.Complete Samples.second_fetch 2200%float App.Rejected);
        Console.Settle (DeskSamples.stamp "c") DeskSamples.refused])
  = App.run (Console.poller DeskSamples.desk)
      [App.Complete Samples.second_fetch 2200%float App.Rejected] ∧
  Console.logs DeskSamples.desk
  `prefix_of` Console.logs
    (@Console.run ReferenceEngine.engine DeskSamples.desk
       [Console.Click (DeskSamples.stamp "a") "2026-11-02T00:36:29.123Z";
        Console.Poll (App.Complete Samples.second_fetch 2200%float App.Rejected);
        Console.Settle (DeskSamples.stamp "c") DeskSamples.refused]).
Proof.
  exact (@handlers_keep_poller_and_log ReferenceEngine.engine DeskSamples.desk
           [Console.Click (DeskSamples.stamp "a") "2026-11-02T00:36:29.123Z";
            Console.Poll (App.Complete Samples.second_fetch 2200%float App.Rejected);
            Console.Settle (DeskSamples.stamp "c") DeskSamples.refused]).
Defined.

(* ===================================================================== *)
(** * From the listing to the map                                         *)
(* ===================================================================== *)

Section EndToEnd.
Import JS.
Context {E : Engine}.


End EndToEnd.

Section LoadingFacts.
Import JS App.

Lemma background_step_keeps_loading st e :
  Traces.is_foreground e = false → isLoadingDevices (step st e) = isLoadingDevices st.
Proof.
  destruct e as [f | f now r]; simpl; intros Hb%negb_false_iff.
  - unfold fetchDevices_issue. by rewrite Hb.
  - unfold fetchDevices_settle. rewrite Hb. simpl.
    destruct r as [[response|]|]; try done.
    destruct (strict_eq_number _ _); [done|]. by destruct (auth_signal response).
Qed.

Lemma background_run_keeps_loading st trace :
  Forall (λ e, Traces.is_foreground e = false) trace →
  isLoadingDevices (run st trace) = isLoadingDevices st.
Proof.
  unfold run. revert st. induction trace as [|e trace IH]; intros st Hall; [done|].
  inversion Hall as [|? ? He Hrest]; subst. simpl.
  rewrite (IH _ Hrest). by apply background_step_keeps_loading.
Qed.

(** X27. The loading flag belongs to the foreground fetches: the polls
    started in the background never write it, and after any sequence of
    events it tells whether the last step of a foreground fetch (the one
    made on mount, or a refresh) was its issue or its completion. *)
Theorem loading_flag_follows_foreground st before e after :
  Traces.is_foreground e = true →
  Forall (λ e', Traces.is_foreground e' = false) after →
  isLoadingDevices (run st (before ++ e :: after)) = Listing.is_issue e ∧
  isLoadingDevices (run (run st before) after) = isLoadingDevices (run st before).
Proof.
  intros He Hafter. split; [|by apply background_run_keeps_loading].
  unfold run. rewrite fold_left_app. simpl.
  fold (run (step (fold_left step before st) e) after).
  rewrite background_run_keeps_loading by done.
  destruct e as [f | f now r]; simpl in *; apply negb_true_iff in He.
  - unfold fetchDevices_issue. by rewrite He.
  - unfold fetchDevices_settle. by rewrite He.
Qed.

End LoadingFacts.


Lemma loading_flag_follows_foreground_witness :
  let refresh := {| App.seq := 3; App.isBackground := false |} in
  App.isLoadingDevices
    (App.run App.initial
       (Samples.overtaken
        ++ App.Issue refresh
           :: [App.Issue Samples.second_fetch;
               App.Complete Samples.second_fetch 2200%float App.Rejected]))
  = Listing.is_issue (App.Issue refresh) ∧
  App.isLoadingDevices
    (App.run (App.run App.initial Samples.overtaken)
       [App.Issue Samples.second_fetch;
        App.Complete Samples.second_fetch 2200%float App.Rejected])
  = App.isLoadingDevices (App.run App.initial Samples.overtaken).
Proof.
  apply (loading_flag_follows_foreground App.initial Samples.overtaken).
  - reflexivity.
  - repeat constructor.
Defined.
